(** * The external-request gateway of the Maximo AI assistant

    A shallow embedding of the server side of the repository
    (traceStore.ts, providers.ts, maximo.ts and the /api/chat and
    /api/proxy handlers of index.ts) together with the properties the
    specification states about it.

    Conventions of the embedding.
    - A JavaScript string is a [string]: each [ascii] stands for one
      UTF-16 code unit below 256 (the Latin-1 range), which is closed
      under [toLowerCase] and [trim].
    - An optional property ([x?: T], a value that may be [undefined]) is
      an [option]; [None] is [undefined].
    - Integers ([status], [durationMs], [maxItems], [limit]) are [Z];
      a number inside a payload is a rational [Q] (the finite values).
    - Code that reads the clock, draws random numbers, calls [fetch] or
      the JSON built-ins takes them from a [Runtime] record.
    - An object literal used as a table is indexed as JavaScript does
      it: a name it does not list is looked up in [Object.prototype].
    - [String(v)] on a parsed JSON value is an [option]: [None] when
      the conversion throws its TypeError. *)

From Stdlib Require Import ZArith NArith QArith Ascii String List Bool Lia.
From Stdlib Require Import Sorting.Sorted Sorting.Permutation.
From stdpp Require Import base tactics option list gmap strings pretty.

Open Scope string_scope.
Open Scope Z_scope.

Set Warnings "-register-all".

(* ================================================================== *)
(** ** JavaScript string built-ins *)
(* ================================================================== *)

Module JS.

(** The code unit of a character. *)
Definition code (c : ascii) : N := N_of_ascii c.

(** [String.prototype.toLowerCase] on one Latin-1 code unit: [A-Z] and
    the accented capitals U+00C0..U+00DE (U+00D7, the multiplication
    sign, apart) move up by 32. *)
Definition lowerChar (c : ascii) : ascii :=
  let n := code c in
  if ((65 <=? n) && (n <=? 90) ||
      (192 <=? n) && (n <=? 222) && negb (n =? 215))%N
  then ascii_of_N (n + 32) else c.

Fixpoint toLowerCase (s : string) : string :=
  match s with
  | EmptyString => EmptyString
  | String c r => String (lowerChar c) (toLowerCase r)
  end.

(** [String.prototype.toUpperCase] on one Latin-1 code unit, used by
    the proxy handler on the method name: [a-z] and the accented small
    letters U+00E0..U+00FE (U+00F7, the division sign, apart) move down
    by 32 and the sharp s becomes [SS]. The micro sign and the y with
    diaeresis, whose capitals lie outside Latin-1, are left as they are:
    on them alone the model departs from the platform. *)
Definition upperChar (c : ascii) : string :=
  let n := code c in
  if ((97 <=? n) && (n <=? 122) ||
      (224 <=? n) && (n <=? 254) && negb (n =? 247))%N
  then String (ascii_of_N (n - 32)) EmptyString
  else if (n =? 223)%N then "SS"
  else String c EmptyString.

Fixpoint toUpperCase (s : string) : string :=
  match s with
  | EmptyString => EmptyString
  | String c r => upperChar c +:+ toUpperCase r
  end.

(** White space and line terminators of ECMAScript below 256: TAB, LF,
    VT, FF, CR, SPACE and NBSP. *)
Definition isWhite (c : ascii) : bool :=
  let n := code c in
  ((n =? 9) || (n =? 10) || (n =? 11) || (n =? 12) || (n =? 13) ||
   (n =? 32) || (n =? 160))%N.

Fixpoint trimStart (s : string) : string :=
  match s with
  | EmptyString => EmptyString
  | String c r => if isWhite c then trimStart r else s
  end.

Definition trimEnd (s : string) : string :=
  String.rev (trimStart (String.rev s)).

(** [String.prototype.trim]. *)
Definition trim (s : string) : string := trimEnd (trimStart s).

(** [s.startsWith(p)]. *)
Fixpoint startsWith (p s : string) : bool :=
  match p, s with
  | EmptyString, _ => true
  | String a p', String b s' => if ascii_dec a b then startsWith p' s' else false
  | String _ _, EmptyString => false
  end.

(** [s.includes(p)]: [p] occurs in [s] as a contiguous substring. *)
Fixpoint includes (p s : string) : bool :=
  startsWith p s ||
  match s with
  | EmptyString => false
  | String _ r => includes p r
  end.

(** [s.length] *)
Definition len (s : string) : Z := Z.of_nat (String.length s).

(** [s.slice(0, n)] for [n >= 0]. *)
Fixpoint slice0 (n : N) (s : string) : string :=
  match s with
  | EmptyString => EmptyString
  | String c r => if (n =? 0)%N then EmptyString else String c (slice0 (N.pred n) r)
  end.

(** Truthiness of a string: only the empty string is falsy. *)
Definition nonEmpty (s : string) : bool :=
  match s with EmptyString => false | _ => true end.

(** [s || undefined] on a string. *)
Definition orUndefined (s : string) : option string :=
  if nonEmpty s then Some s else None.

(** [a || b] where both sides are optional strings: the first truthy
    operand, else the second operand. *)
Definition orElse (a b : option string) : option string :=
  match a with
  | Some s => if nonEmpty s then a else b
  | None => b
  end.

(** Truthiness of an optional string ([undefined] and [""] are falsy). *)
Definition truthyStr (a : option string) : bool :=
  match a with Some s => nonEmpty s | None => false end.

(** JSON-like values, for request and response payloads ([unknown] in
    the source). *)
Inductive Value : Type :=
| VNull
| VBool (b : bool)
| VNum (q : Q)
| VStr (s : string)
| VArr (l : list Value)
| VObj (fields : list (string * Value)).

(** Truthiness of a value, as [!v] reads it. *)
Definition truthy (v : Value) : bool :=
  match v with
  | VNull => false
  | VBool b => b
  | VNum q => negb (Qnum q =? 0)
  | VStr s => nonEmpty s
  | VArr _ | VObj _ => true
  end.

(** What an object literal inherits from [Object.prototype]: indexing
    the literal with one of these names finds the inherited member when
    the literal has no key of that name. Under ["__proto__"] it is
    [Object.prototype] itself, under the other names a built-in
    function. *)
Inductive ProtoMember :=
| ProtoFunction (name : string)
| ProtoObject.

Definition protoMember (k : string) : option ProtoMember :=
  if String.eqb k "constructor" then Some (ProtoFunction "Object")
  else if String.eqb k "__proto__" then Some ProtoObject
  else if existsb (String.eqb k)
            ["toString"; "toLocaleString"; "valueOf"; "hasOwnProperty";
             "isPrototypeOf"; "propertyIsEnumerable"; "__defineGetter__";
             "__defineSetter__"; "__lookupGetter__"; "__lookupSetter__"]
  then Some (ProtoFunction k)
  else None.

(** [String(m)] of an inherited member. *)
Definition protoText (m : ProtoMember) : string :=
  match m with
  | ProtoFunction n => "function " +:+ n +:+ "() { [native code] }"
  | ProtoObject => "[object Object]"
  end.

End JS.

(* ================================================================== *)
(** ** traceStore.ts *)
(* ================================================================== *)

Module TraceStore.

Inductive TraceKind := ai | maximo | rest | ui | system | models.

#[global] Instance TraceKind_eq_dec : EqDecision TraceKind.
Proof. solve_decision. Defined.

Record TraceItem := {
  id : string;
  ts : string;
  kind : TraceKind;
  provider : option string;
  ok : option bool;
  label : option string;
  method : option string;
  url : option string;
  status : option Z;
  durationMs : option Z;
  request : option JS.Value;
  response : option JS.Value;
  error : option string
}.

(** The argument of [addTrace]: a [TraceItem] whose [id] and [ts] are
    optional. *)
Module Partial.
Record t := {
  id : option string;
  ts : option string;
  kind : TraceKind;
  provider : option string;
  ok : option bool;
  label : option string;
  method : option string;
  url : option string;
  status : option Z;
  durationMs : option Z;
  request : option JS.Value;
  response : option JS.Value;
  error : option string
}.
End Partial.

(** The module-level state: [state] (with its free-form extra keys in
    [aux]) and [items]. *)
Record Store := {
  enabled : bool;
  maxItems : Z;
  aux : gmap string JS.Value;
  items : list TraceItem
}.

(** The initial module state: enabled, 500 items, nothing recorded. *)
Definition initial : Store :=
  {| enabled := true; maxItems := 500; aux := ∅; items := [] |}.

(** What one [addTrace] call reads from the runtime: the result of
    [makeId()] and of [new Date().toISOString()]. *)
Record Stamp := { makeId : string; nowISO : string }.

(** The object literal that [addTrace] builds. It lists [id], [ts],
    [kind], [label], [method], [url], [status], [durationMs], [request],
    [response] and [error]; [provider] and [ok] are not among them, so
    the item has neither. *)
Definition buildItem (st : Stamp) (partial : Partial.t) : TraceItem :=
  {| id := default (makeId st) (Partial.id partial);
     ts := default (nowISO st) (Partial.ts partial);
     kind := Partial.kind partial;
     provider := None;
     ok := None;
     label := Partial.label partial;
     method := Partial.method partial;
     url := Partial.url partial;
     status := Partial.status partial;
     durationMs := Partial.durationMs partial;
     request := Partial.request partial;
     response := Partial.response partial;
     error := Partial.error partial |}.

Definition withItems (s : Store) (l : list TraceItem) : Store :=
  {| enabled := enabled s; maxItems := maxItems s; aux := aux s; items := l |}.

(** [addTrace]. The result is the store afterwards and whether the call
    threw: assigning a negative [items.length] is a RangeError, raised
    after the [unshift]. *)
Definition addTrace (st : Stamp) (partial : Partial.t) (s : Store)
  : Store * option string :=
  if negb (enabled s) then (s, None)
  else
    let items1 := buildItem st partial :: items s in
    if Z.of_nat (length items1) >? maxItems s then
      if maxItems s <? 0 then (withItems s items1, Some "Invalid array length")
      else (withItems s (take (Z.to_nat (maxItems s)) items1), None)
    else (withItems s items1, None).

(** [listTraces(kind?, limit = 200)]. *)
Definition listTraces (k : option TraceKind) (limit : option Z) (s : Store)
  : list TraceItem :=
  let filtered :=
    match k with
    | Some k' => filter (fun i => kind i = k') (items s)
    | None => items s
    end in
  take (Z.to_nat (Z.max 1 (Z.min (default 200 limit) (maxItems s)))) filtered.

Definition clearTraces (s : Store) : Store := withItems s [].

(** [setTraceState(patch)] for a patch of extra keys. *)
Definition setTraceState (patch : list (string * JS.Value)) (s : Store) : Store :=
  {| enabled := enabled s; maxItems := maxItems s;
     aux := foldl (fun m kv => <[kv.1 := kv.2]> m) (aux s) patch;
     items := items s |}.

(** A run of [addTrace] calls, in call order; an exception does not stop
    the caller here (every caller of the sequence is a separate request). *)
Fixpoint addTraces (calls : list (Stamp * Partial.t)) (s : Store) : Store :=
  match calls with
  | [] => s
  | (st, p) :: more => addTraces more (addTrace st p s).1
  end.

End TraceStore.

(* ================================================================== *)
(** ** providers.ts: credentials and model ids *)
(* ================================================================== *)

Module Providers.

Inductive ProviderId := openai | anthropic | gemini | mistral | watsonx | deepseek.

(** The string each [ProviderId] is in the source. *)
Definition providerName (p : ProviderId) : string :=
  match p with
  | openai => "openai"
  | anthropic => "anthropic"
  | gemini => "gemini"
  | mistral => "mistral"
  | watsonx => "watsonx"
  | deepseek => "deepseek"
  end.

Definition allProviders : list ProviderId :=
  [openai; anthropic; gemini; mistral; watsonx; deepseek].

Definition OPENAI_COMPATIBLE : list string :=
  ["openai"; "mistral"; "watsonx"; "deepseek"].

(** [OPENAI_COMPATIBLE.includes(provider)] *)
Definition isOpenAICompatible (provider : string) : bool :=
  existsb (String.eqb provider) OPENAI_COMPATIBLE.

(** A settings object: string keys, string values; a missing key reads
    as [undefined]. *)
Abbreviation Secrets := (gmap string string).

Record Entry := { key : option string; baseUrl : option string }.

(** The table [map] of [resolveProviderAuth], in source order. *)
Definition authTable (secrets : Secrets) : list (string * Entry) :=
  [ ("openai",    {| key := secrets !! "openai_key";
                     baseUrl := JS.orElse (secrets !! "openai_baseurl") (secrets !! "openai_base") |});
    ("mistral",   {| key := secrets !! "mistral_key";
                     baseUrl := JS.orElse (secrets !! "mistral_baseurl") (secrets !! "mistral_base") |});
    ("deepseek",  {| key := secrets !! "deepseek_key";
                     baseUrl := JS.orElse (secrets !! "deepseek_baseurl") (secrets !! "deepseek_base") |});
    ("watsonx",   {| key := secrets !! "watsonx_key";
                     baseUrl := JS.orElse (secrets !! "watsonx_baseurl") (secrets !! "watsonx_base") |});
    ("anthropic", {| key := secrets !! "anthropic_key";
                     baseUrl := JS.orElse (secrets !! "anthropic_baseurl") (secrets !! "anthropic_base") |});
    ("gemini",    {| key := secrets !! "gemini_key";
                     baseUrl := JS.orElse (secrets !! "gemini_baseurl") (secrets !! "gemini_base") |}) ].

(** [map[provider] || {}]: the entry of a listed name, the empty object
    for any other string. *)
Fixpoint lookupEntry (table : list (string * Entry)) (provider : string) : Entry :=
  match table with
  | [] => {| key := None; baseUrl := None |}
  | (n, e) :: rest => if String.eqb n provider then e else lookupEntry rest provider
  end.

Record Auth := { apiKey : option string; authBaseUrl : option string }.

(** [resolveProviderAuth(secrets, provider)]. The handlers pass any
    string as [provider]. *)
Definition resolveProviderAuth (secrets : Secrets) (provider : string) : Auth :=
  let entry := lookupEntry (authTable secrets) provider in
  let chosenKey := JS.trim (default "" (key entry)) in
  let chosenBase := JS.trim (default "" (baseUrl entry)) in
  let genericProvider :=
    JS.toLowerCase (default "" (JS.orElse (secrets !! "aiProvider") (Some ""))) in
  let allowGeneric := String.eqb genericProvider provider in
  let fallbackKey :=
    if allowGeneric
    then JS.orUndefined (JS.trim (default "" (JS.orElse (secrets !! "aiApiKey") (Some ""))))
    else None in
  let fallbackBase :=
    if allowGeneric
    then JS.orUndefined (JS.trim (default "" (JS.orElse (secrets !! "aiBaseUrl") (Some ""))))
    else None in
  {| apiKey := JS.orElse (Some chosenKey) fallbackKey;
     authBaseUrl := JS.orElse (Some chosenBase) fallbackBase |}.

(** [getSelectedProvider()] over the configured secrets. *)
Definition getSelectedProvider (secrets : Secrets) : string :=
  let p := JS.toLowerCase
             (default "openai" (JS.orElse (secrets !! "aiProvider") (Some "openai"))) in
  if existsb (String.eqb p) ["anthropic"; "gemini"; "mistral"; "watsonx"; "deepseek"]
  then p else "openai".

(** *** Model-id filtering *)

(** [/^(gpt-|o\d|chatgpt)/i.test(id)] *)
Definition isDigit (c : ascii) : bool :=
  ((48 <=? JS.code c) && (JS.code c <=? 57))%N.

Definition modernFamily (id : string) : bool :=
  let l := JS.toLowerCase id in
  JS.startsWith "gpt-" l ||
  match l with
  | String "o" (String d _) => isDigit d
  | _ => false
  end ||
  JS.startsWith "chatgpt" l.

Definition legacyWords : list string :=
  ["davinci"; "curie"; "babbage"; "ada"; "text-"; "code-"; "instruct"; "deprecated"].

(** [/(davinci|curie|babbage|ada|text-|code-|instruct|deprecated)/i.test(id)] *)
Definition legacyFamily (id : string) : bool :=
  existsb (fun w => JS.includes w (JS.toLowerCase id)) legacyWords.

Definition preferredId (id : string) : bool :=
  modernFamily id && negb (legacyFamily id).

(** [Array.from(new Set(l))]: the first occurrence of each element, in
    order. [seen] holds the elements met so far. *)
Fixpoint uniqFrom (seen l : list string) : list string :=
  match l with
  | [] => []
  | x :: r =>
      if existsb (String.eqb x) seen then uniqFrom seen r
      else x :: uniqFrom (x :: seen) r
  end.

Definition uniq (l : list string) : list string := uniqFrom [] l.

(** [Array.prototype.sort(cmp)]: a stable sort. For a consistent
    comparator every stable sort returns the same array, here by
    insertion from the right. *)
Section Sort.
Variable cmp : string -> string -> Z.

Fixpoint insertSorted (x : string) (l : list string) : list string :=
  match l with
  | [] => [x]
  | y :: r => if cmp x y <=? 0 then x :: l else y :: insertSorted x r
  end.

Fixpoint sort (l : list string) : list string :=
  match l with
  | [] => []
  | x :: r => insertSorted x (sort r)
  end.
End Sort.

(** [filterModelIds(provider, ids)]; [localeCompare] is
    [(a, b) => a.localeCompare(b, undefined, {numeric: true})]. *)
Definition filterModelIds (localeCompare : string -> string -> Z)
    (provider : string) (ids : list string) : list string :=
  let uniq := uniq (List.filter JS.nonEmpty ids) in
  if negb (String.eqb provider "openai") then uniq
  else
    let preferred := List.filter preferredId uniq in
    let out := match preferred with [] => uniq | _ => preferred end in
    sort localeCompare out.

End Providers.

(* ================================================================== *)
(** ** The runtime and the effects of a request handler *)
(* ================================================================== *)

Module Net.

(** The [body] option of [fetch]: absent, a string passed as it is, or
    [JSON.stringify] of a value. *)
Inductive Body := NoBody | Raw (s : string) | Json (v : JS.Value).

Record Request := {
  method : string;
  url : string;
  headers : gmap string string;
  body : Body
}.

Record Response := { status : Z; text : string }.

(** [resp.ok]: the status is in the range 200-299. *)
Definition ok (r : Response) : bool := (200 <=? status r) && (status r <=? 299).

(** [fetch] resolves with a response or rejects. *)
Inductive Reply := Answer (r : Response) | Failure (msg : string).

End Net.

(** What the code takes from its platform. [fetch] answers a request
    given the requests made before it; the clock, [makeId] and
    [toISOString] are read at a tick that advances with every read;
    [toStr] is [String] on a number. *)
Record Runtime := {
  dateNow : nat -> Z;
  makeId : nat -> string;
  toISOString : nat -> string;
  fetch : list Net.Request -> Net.Request -> Net.Reply;
  JSON_parse : string -> option JS.Value;
  JSON_stringify : JS.Value -> string;
  JSON_stringify2 : JS.Value -> string;
  toStr : JS.Value -> string;
  encodeURIComponent : string -> string;
  searchParams : list (string * string) -> string;
  localeCompare : string -> string -> Z
}.

(** The mutable state a handler touches: the trace store, and (for the
    statements about network calls) the requests handed to [fetch]. *)
Record World := {
  store : TraceStore.Store;
  fetched : list Net.Request;
  tick : nat
}.

Inductive Outcome (A : Type) :=
| Return (a : A)
| Throw (msg : string).
Arguments Return {A} a.
Arguments Throw {A} msg.

(** A computation that may throw and that updates the world. *)
Definition M (A : Type) : Type := World -> Outcome A * World.

Definition ret {A} (a : A) : M A := fun w => (Return a, w).

Definition throw {A} (msg : string) : M A := fun w => (Throw msg, w).

Definition bind {A B} (m : M A) (f : A -> M B) : M B :=
  fun w =>
    match m w with
    | (Return a, w') => f a w'
    | (Throw msg, w') => (Throw msg, w')
    end.

(** A step that returns or throws without touching the world. *)
Definition lift {A} (o : Outcome A) : M A := fun w => (o, w).

(** [try { m } catch (e) { h(e.message) }] *)
Definition tryCatch {A} (m : M A) (h : string -> M A) : M A :=
  fun w =>
    match m w with
    | (Return a, w') => (Return a, w')
    | (Throw msg, w') => h msg w'
    end.

(** The monad operations under stdpp's notation: [x ← m; k] and [m;; k]. *)
#[global] Instance M_ret : MRet M := @ret.
#[global] Instance M_bind : MBind M := fun A B f m => bind m f.

Section Effects.
Context (rt : Runtime).

(** [Date.now()] *)
Definition now : M Z :=
  fun w => (Return (dateNow rt (tick w)),
            {| store := store w; fetched := fetched w; tick := S (tick w) |}).

(** [addTrace(partial)] on the module-level store. *)
Definition addTrace (partial : TraceStore.Partial.t) : M unit :=
  fun w =>
    let st := {| TraceStore.makeId := makeId rt (tick w);
                 TraceStore.nowISO := toISOString rt (tick w) |} in
    let r := TraceStore.addTrace st partial (store w) in
    let w' := {| store := r.1; fetched := fetched w; tick := S (tick w) |} in
    match r.2 with
    | None => (Return tt, w')
    | Some msg => (Throw msg, w')
    end.

(** [await fetch(url, init)] followed by [await resp.text()]. *)
Definition doFetch (rq : Net.Request) : M Net.Response :=
  fun w =>
    let w' := {| store := store w; fetched := fetched w ++ [rq]; tick := tick w |} in
    match fetch rt (fetched w) rq with
    | Net.Answer r => (Return r, w')
    | Net.Failure msg => (Throw msg, w')
    end.

(** [listTraces(kind, limit)] *)
Definition listTraces (k : option TraceStore.TraceKind) (limit : option Z)
  : M (list TraceStore.TraceItem) :=
  fun w => (Return (TraceStore.listTraces k limit (store w)), w).

(** [setTraceState(patch)] *)
Definition setTraceState (patch : list (string * JS.Value)) : M unit :=
  fun w => (Return tt,
            {| store := TraceStore.setTraceState patch (store w);
               fetched := fetched w; tick := tick w |}).

End Effects.

(** *** Reading parsed JSON *)

Module Json.

(** [v?.name]: the property of an object, [undefined] on anything else
    the code meets here. *)
Fixpoint assoc (name : string) (fields : list (string * JS.Value)) : option JS.Value :=
  match fields with
  | [] => None
  | (k, v) :: r => if String.eqb k name then Some v else assoc name r
  end.

Definition get (name : string) (v : option JS.Value) : option JS.Value :=
  match v with
  | Some (JS.VObj fields) => assoc name fields
  | _ => None
  end.

(** [v?.[0]]: the first element of an array, the property ["0"] of an
    object, the first character of a string. *)
Definition first (v : option JS.Value) : option JS.Value :=
  match v with
  | Some (JS.VArr (x :: _)) => Some x
  | Some (JS.VObj fields) => assoc "0" fields
  | Some (JS.VStr (String c _)) => Some (JS.VStr (String c EmptyString))
  | _ => None
  end.

(** [v ?? d]: [d] replaces [null] and [undefined] only. *)
Definition nullish (v : option JS.Value) (d : JS.Value) : JS.Value :=
  match v with
  | None | Some JS.VNull => d
  | Some x => x
  end.

Definition truthyOpt (v : option JS.Value) : bool :=
  match v with Some x => JS.truthy x | None => false end.

(** [a || b] on optional values. *)
Definition orElse (a b : option JS.Value) : option JS.Value :=
  if truthyOpt a then a else b.

(** The message of the TypeError of a conversion to a string that
    fails. *)
Definition cannotConvert : string := "Cannot convert object to primitive value".

(** [String(v)] of a parsed JSON value, [None] when the conversion
    throws: on an object with a key ["toString"] of its own (no JSON
    value can be called) and on an array that holds one. An array is
    joined with commas, [null] elements as empty texts; [num] formats
    a number. *)
Fixpoint toString (num : JS.Value -> string) (v : JS.Value) : option string :=
  match v with
  | JS.VNull => Some "null"
  | JS.VBool b => Some (if b then "true" else "false")
  | JS.VNum _ => Some (num v)
  | JS.VStr s => Some s
  | JS.VArr l =>
      (fix join (l : list JS.Value) : option string :=
         match l with
         | [] => Some ""
         | x :: r =>
             a ← match x with JS.VNull => Some "" | _ => toString num x end;
             match r with
             | [] => Some a
             | _ => b ← join r; Some (a +:+ "," +:+ b)
             end
         end) l
  | JS.VObj fields =>
      match assoc "toString" fields with
      | Some _ => None
      | None => Some "[object Object]"
      end
  end.

End Json.

(* ================================================================== *)
(** ** providers.ts: chat completion *)
(* ================================================================== *)

Module Chat.

(** [s.replace(/\/$/, "")]: one slash at the very end is removed. *)
Fixpoint stripTrailingSlash (s : string) : string :=
  match s with
  | EmptyString => EmptyString
  | String c r =>
      match r with
      | EmptyString => if ascii_dec c "/" then EmptyString else s
      | _ => String c (stripTrailingSlash r)
      end
  end.

Record Args := {
  provider : string;
  apiKey : option string;
  baseUrl : option string;
  model : string;
  temperature : option Q;
  system : option string;
  prompt : string
}.

Record Result := { content : JS.Value; raw : JS.Value }.

(** [0.2], the default temperature. *)
Definition defaultTemperature : Q := 2 # 10.

Definition message (role text : string) : JS.Value :=
  JS.VObj [("role", JS.VStr role); ("content", JS.VStr text)].

Section WithRuntime.
Context (rt : Runtime).

(** [JSON.parse(text)] under [try], [null] when it throws. *)
Definition parseOrNull (text : string) : JS.Value :=
  default JS.VNull (JSON_parse rt text).

(** [data ?? text] *)
Definition dataOrText (data : JS.Value) (text : string) : JS.Value :=
  Json.nullish (Some data) (JS.VStr text).

(** [a || b || fallback]: the first truthy candidate, the fallback
    text when there is none. *)
Fixpoint firstTruthy (cands : list (option JS.Value)) (fallback : string) : JS.Value :=
  match cands with
  | [] => JS.VStr fallback
  | c :: r =>
      match c with
      | Some v => if JS.truthy v then v else firstTruthy r fallback
      | None => firstTruthy r fallback
      end
  end.

(** [String(v)], [None] when it throws. *)
Definition toString (v : JS.Value) : option string := Json.toString (toStr rt) v.

(** The message of what [throw new Error(msg)] throws: [String(msg)],
    or that of the TypeError when the conversion fails. *)
Definition newError (msg : JS.Value) : string :=
  default Json.cannotConvert (toString msg).

(** [parts.map(p => p?.text || "").join("")]: every text is converted
    to a string; [None] when a conversion throws. *)
Fixpoint joinTexts (parts : list JS.Value) : option string :=
  match parts with
  | [] => Some ""
  | p :: r =>
      a ← toString (firstTruthy [Json.get "text" (Some p)] "");
      b ← joinTexts r;
      Some (a +:+ b)
  end.

(** The message of the TypeError of [parts?.map(...)] on a value that
    is neither nullish nor an array, as the engine words it for the
    expression as it is written. *)
Definition mapNotFunction : string :=
  "data?.candidates?.[0]?.content?.parts?.map is not a function".

(** The trace entry every protocol records after its call. *)
Definition aiTrace (lbl url : string) (resp : Net.Response) (durationMs : Z)
    (body data : JS.Value) : TraceStore.Partial.t :=
  {| TraceStore.Partial.id := None;
     TraceStore.Partial.ts := None;
     TraceStore.Partial.kind := TraceStore.ai;
     TraceStore.Partial.provider := None;
     TraceStore.Partial.ok := None;
     TraceStore.Partial.label := Some lbl;
     TraceStore.Partial.method := Some "POST";
     TraceStore.Partial.url := Some url;
     TraceStore.Partial.status := Some (Net.status resp);
     TraceStore.Partial.durationMs := Some durationMs;
     TraceStore.Partial.request := Some body;
     TraceStore.Partial.response := Some (dataOrText data (Net.text resp));
     TraceStore.Partial.error := None |}.

Definition providerError (resp : Net.Response) : string :=
  "AI provider error (" +:+ pretty (Net.status resp) +:+ ")".

(** The OpenAI-compatible branch. *)
Definition chatOpenAI (args : Args) (key : string) : M Result :=
  let url := stripTrailingSlash
               (default "" (JS.orElse (baseUrl args) (Some "https://api.openai.com/v1")))
             +:+ "/chat/completions" in
  let body := JS.VObj
    [("model", JS.VStr (model args));
     ("messages", JS.VArr
        ((if JS.truthyStr (system args)
          then [message "system" (default "" (system args))] else [])
         ++ [message "user" (prompt args)]));
     ("temperature", JS.VNum (default defaultTemperature (temperature args)))] in
  t0 ← now rt;
  resp ← doFetch rt
    {| Net.method := "POST"; Net.url := url;
       Net.headers := {[ "Authorization" := "Bearer " +:+ JS.trim key;
                         "Content-Type" := "application/json" ]};
       Net.body := Net.Json body |};
  t1 ← now rt;
  let data := parseOrNull (Net.text resp) in
  addTrace rt (aiTrace "Chat completion" url resp (t1 - t0) body data);;
  if negb (Net.ok resp)
  then throw (newError
                (firstTruthy
                   [Json.get "message" (Json.get "error" (Some data));
                    Some (JS.VStr (Net.text resp))]
                   (providerError resp)))
  else
    mret {| content := Json.nullish
              (Json.get "content" (Json.get "message"
                 (Json.first (Json.get "choices" (Some data))))) (JS.VStr "");
            raw := data |}.

(** The Anthropic Messages branch. *)
Definition chatAnthropic (args : Args) (key : string) : M Result :=
  let url := stripTrailingSlash
               (default "" (JS.orElse (baseUrl args) (Some "https://api.anthropic.com")))
             +:+ "/v1/messages" in
  let body := JS.VObj
    ([("model", JS.VStr (model args));
      ("max_tokens", JS.VNum (1024 # 1));
      ("temperature", JS.VNum (default defaultTemperature (temperature args)));
      ("messages", JS.VArr [message "user" (prompt args)])]
     ++ (if JS.truthyStr (system args)
         then [("system", JS.VStr (default "" (system args)))] else [])) in
  t0 ← now rt;
  resp ← doFetch rt
    {| Net.method := "POST"; Net.url := url;
       Net.headers := {[ "x-api-key" := key;
                         "anthropic-version" := "2023-06-01";
                         "Content-Type" := "application/json" ]};
       Net.body := Net.Json body |};
  t1 ← now rt;
  let data := parseOrNull (Net.text resp) in
  addTrace rt (aiTrace "Anthropic messages" url resp (t1 - t0) body data);;
  if negb (Net.ok resp)
  then throw (newError
                (firstTruthy
                   [Json.get "message" (Json.get "error" (Some data));
                    Json.get "message" (Some data);
                    Some (JS.VStr (Net.text resp))]
                   (providerError resp)))
  else
    match Json.get "content" (Some data) with
    | Some (JS.VArr parts) =>
        match joinTexts parts with
        | Some s => mret {| content := JS.VStr s; raw := data |}
        | None => throw Json.cannotConvert
        end
    | _ => mret {| content := JS.VStr ""; raw := data |}
    end.

(** The Gemini generateContent branch. *)
Definition chatGemini (args : Args) (key : string) : M Result :=
  let base := stripTrailingSlash
                (default "" (JS.orElse (baseUrl args)
                   (Some "https://generativelanguage.googleapis.com/v1beta"))) in
  let url := base +:+ "/models/" +:+ encodeURIComponent rt (model args)
             +:+ ":generateContent?key=" +:+ encodeURIComponent rt key in
  let text := if JS.truthyStr (system args)
              then default "" (system args) +:+ String "010" (String "010" "") +:+ prompt args
              else prompt args in
  let body := JS.VObj
    [("contents", JS.VArr
        [JS.VObj [("role", JS.VStr "user");
                  ("parts", JS.VArr [JS.VObj [("text", JS.VStr text)]])]]);
     ("generationConfig", JS.VObj
        [("temperature", JS.VNum (default defaultTemperature (temperature args)))])] in
  t0 ← now rt;
  resp ← doFetch rt
    {| Net.method := "POST"; Net.url := url;
       Net.headers := {[ "Content-Type" := "application/json" ]};
       Net.body := Net.Json body |};
  t1 ← now rt;
  let data := parseOrNull (Net.text resp) in
  addTrace rt (aiTrace "Gemini generateContent" url resp (t1 - t0) body data);;
  if negb (Net.ok resp)
  then throw (newError
                (firstTruthy
                   [Json.get "message" (Json.get "error" (Some data));
                    Some (JS.VStr (Net.text resp))]
                   (providerError resp)))
  else
    match Json.get "parts" (Json.get "content"
            (Json.first (Json.get "candidates" (Some data)))) with
    | None | Some JS.VNull => mret {| content := JS.VStr ""; raw := data |}
    | Some (JS.VArr parts) =>
        match joinTexts parts with
        | Some s => mret {| content := JS.VStr s; raw := data |}
        | None => throw Json.cannotConvert
        end
    | Some _ => throw mapNotFunction
    end.

(** [chatCompletionWith(args)] *)
Definition chatCompletionWith (args : Args) : M Result :=
  if negb (JS.truthyStr (apiKey args)) then throw "AI API key is not configured."
  else
    let key := default "" (apiKey args) in
    if Providers.isOpenAICompatible (provider args) then chatOpenAI args key
    else if String.eqb (provider args) "anthropic" then chatAnthropic args key
    else if String.eqb (provider args) "gemini" then chatGemini args key
    else throw ("Provider '" +:+ provider args +:+ "' is not supported by this build.").

End WithRuntime.

End Chat.

(* ================================================================== *)
(** ** providers.ts: model listing *)
(* ================================================================== *)

Module Models.

Record ModelInfo := { id : string; label : string }.

Definition plain (i : string) : ModelInfo := {| id := i; label := i |}.

(** What the listing returns: a list of models, or the member the
    table of built-in lists inherits under the provider's name. *)
Inductive Listing :=
| Listed (l : list ModelInfo)
| Inherited (m : JS.ProtoMember).

(** [fallbackByProvider[provider] || []]: the table is an object
    literal, so a name it does not list is looked up in
    [Object.prototype]. *)
Definition fallbackByProvider (provider : string) : Listing :=
  if String.eqb provider "openai" then
    Listed [plain "gpt-4o"; plain "gpt-4o-mini"; plain "gpt-4.1"; plain "gpt-4.1-mini"]
  else if String.eqb provider "mistral" then
    Listed [plain "mistral-large-latest"; plain "mistral-small-latest";
            plain "codestral-latest"]
  else if String.eqb provider "deepseek" then
    Listed [plain "deepseek-chat"; plain "deepseek-reasoner"]
  else if String.eqb provider "watsonx" then
    Listed [plain "ibm/granite-20b-multilingual"]
  else match JS.protoMember provider with
       | Some m => Inherited m
       | None => Listed []
       end.

Definition anthropicModels : list ModelInfo :=
  [{| id := "claude-3-5-sonnet-latest"; label := "Claude 3.5 Sonnet (latest)" |};
   {| id := "claude-3-5-haiku-latest"; label := "Claude 3.5 Haiku (latest)" |};
   {| id := "claude-3-opus-latest"; label := "Claude 3 Opus (latest)" |}].

Definition geminiModels : list ModelInfo :=
  [{| id := "gemini-1.5-pro"; label := "Gemini 1.5 Pro" |};
   {| id := "gemini-1.5-flash"; label := "Gemini 1.5 Flash" |};
   {| id := "gemini-2.0-flash"; label := "Gemini 2.0 Flash" |}].

(** The argument the listing path gives to [addTrace]: it carries
    [provider] and [ok]. *)
Definition modelsTrace (provider : string) (ok : bool) (durationMs : Z)
    (url : string) (status : Z) (body : JS.Value) : TraceStore.Partial.t :=
  {| TraceStore.Partial.id := None;
     TraceStore.Partial.ts := None;
     TraceStore.Partial.kind := TraceStore.models;
     TraceStore.Partial.provider := Some provider;
     TraceStore.Partial.ok := Some ok;
     TraceStore.Partial.label := None;
     TraceStore.Partial.method := None;
     TraceStore.Partial.url := None;
     TraceStore.Partial.status := None;
     TraceStore.Partial.durationMs := Some durationMs;
     TraceStore.Partial.request :=
       Some (JS.VObj [("url", JS.VStr url); ("method", JS.VStr "GET")]);
     TraceStore.Partial.response :=
       Some (JS.VObj [("status", JS.VNum (status # 1)); ("body", body)]);
     TraceStore.Partial.error := None |}.

(** [String(err?.message || err)] for a thrown [Error]: its message,
    or its name when the message is empty. *)
Definition catchText (msg : string) : string :=
  if JS.nonEmpty msg then msg else "Error".

Section WithRuntime.
Context (rt : Runtime).

(** [String(m?.id || "")], [None] when the conversion throws. *)
Definition idOf (m : JS.Value) : option string :=
  Chat.toString rt (Chat.firstTruthy [Json.get "id" (Some m)] "").

(** [arr.map(m => String(m?.id || "")).filter(Boolean)], [None] when a
    conversion throws. *)
Definition idsOf (data : JS.Value) : option (list string) :=
  match Json.get "data" (Some data) with
  | Some (JS.VArr arr) => List.filter JS.nonEmpty <$> mapM idOf arr
  | _ => Some []
  end.

(** [listModelsWithSecrets(secrets, provider)] *)
Definition listModelsWithSecrets (secrets : Providers.Secrets) (provider : string)
  : M Listing :=
  let auth := Providers.resolveProviderAuth secrets provider in
  if String.eqb provider "anthropic" then mret (Listed anthropicModels)
  else if String.eqb provider "gemini" then mret (Listed geminiModels)
  else if negb (JS.truthyStr (Providers.apiKey auth)) then mret (fallbackByProvider provider)
  else if negb (Providers.isOpenAICompatible provider) then mret (fallbackByProvider provider)
  else
    let url := Chat.stripTrailingSlash
                 (default "" (JS.orElse (Providers.authBaseUrl auth)
                                (Some "https://api.openai.com/v1")))
               +:+ "/models" in
    t0 ← now rt;
    tryCatch
      (resp ← doFetch rt
         {| Net.method := "GET"; Net.url := url;
            Net.headers := {[ "Authorization" :=
                                "Bearer " +:+ JS.trim (default "" (Providers.apiKey auth)) ]};
            Net.body := Net.NoBody |};
       t1 ← now rt;
       match JSON_parse rt (Net.text resp) with
       | None =>
           addTrace rt (modelsTrace provider false (t1 - t0) url (Net.status resp)
                          (JS.VStr (Net.text resp)));;
           mret (fallbackByProvider provider)
       | Some data =>
           addTrace rt (modelsTrace provider (Net.ok resp) (t1 - t0) url
                          (Net.status resp) data);;
           if negb (Net.ok resp) then mret (fallbackByProvider provider)
           else
             match idsOf data with
             | None => throw Json.cannotConvert
             | Some ids =>
                 let out := plain <$>
                              Providers.filterModelIds (localeCompare rt) provider ids in
                 mret (match out with
                       | [] => fallbackByProvider provider
                       | _ => Listed out
                       end)
             end
       end)
      (fun msg =>
         t2 ← now rt;
         addTrace rt (modelsTrace provider false (t2 - t0) url 0
                        (JS.VStr (catchText msg)));;
         mret (fallbackByProvider provider)).

End WithRuntime.

End Models.

(* ================================================================== *)
(** ** maximo.ts *)
(* ================================================================== *)

Module Maximo.

(** What [.] of a regular expression does not match (below 256). *)
Definition isLineTerminator (c : ascii) : bool :=
  ((JS.code c =? 10) || (JS.code c =? 13))%N.

Fixpoint noLineTerminator (s : string) : bool :=
  match s with
  | EmptyString => true
  | String c r => negb (isLineTerminator c) && noLineTerminator r
  end.

(** [w] read at the start of [s] without regard to case ([w] is in
    lower case): what follows it. *)
Fixpoint dropPrefixCI (w s : string) : option string :=
  match w, s with
  | EmptyString, _ => Some s
  | String a w', String b s' =>
      if ascii_dec a (JS.lowerChar b) then dropPrefixCI w' s' else None
  | String _ _, EmptyString => None
  end.

(** The optional group and the anchor that end the pattern (a slash,
    any run of [.], then [$]): the end of the string, or a slash and
    then no line terminator up to the end. *)
Definition subPathToEnd (tail : string) : bool :=
  match tail with
  | EmptyString => true
  | String c t => if ascii_dec c "/" then noLineTerminator t else false
  end.

(** The pattern of [callMaximoWith] (a slash, [oslc] or [api] in any
    case, then the optional sub-path and the anchor) matches at the
    start of [s]. *)
Definition apiSuffixHere (s : string) : bool :=
  match s with
  | String c r =>
      if ascii_dec c "/" then
        match dropPrefixCI "oslc" r with
        | Some tail => subPathToEnd tail
        | None => false
        end ||
        match dropPrefixCI "api" r with
        | Some tail => subPathToEnd tail
        | None => false
        end
      else false
  | EmptyString => false
  end.

(** [s.replace(pattern, "")] for that pattern: the leftmost match runs
    to the end of the string and is removed. *)
Fixpoint stripApiSuffix (s : string) : string :=
  if apiSuffixHere s then EmptyString
  else match s with
       | EmptyString => EmptyString
       | String c r => String c (stripApiSuffix r)
       end.

(** The two [replace] calls on the configured base. *)
Definition normalizeBase (base : string) : string :=
  stripApiSuffix (Chat.stripTrailingSlash base).

(** [path.startsWith("/") ? path : `/${path}`] *)
Definition withLeadingSlash (path : string) : string :=
  if JS.startsWith "/" path then path else "/" +:+ path.

Definition authHeaders (apiKey : string) : gmap string string :=
  {[ "Content-Type" := "application/json";
     "maxauth" := apiKey;
     "apikey" := apiKey ]}.

Section WithRuntime.
Context (rt : Runtime).

Definition maximoTrace (method url : string) (resp : Net.Response)
    (durationMs : Z) (body : option JS.Value) (data : JS.Value)
  : TraceStore.Partial.t :=
  {| TraceStore.Partial.id := None;
     TraceStore.Partial.ts := None;
     TraceStore.Partial.kind := TraceStore.maximo;
     TraceStore.Partial.provider := None;
     TraceStore.Partial.ok := None;
     TraceStore.Partial.label := Some "Maximo call";
     TraceStore.Partial.method := Some method;
     TraceStore.Partial.url := Some url;
     TraceStore.Partial.status := Some (Net.status resp);
     TraceStore.Partial.durationMs := Some durationMs;
     TraceStore.Partial.request := Some (Json.nullish body JS.VNull);
     TraceStore.Partial.response := Some (Chat.dataOrText data (Net.text resp));
     TraceStore.Partial.error := None |}.

(** The request [callMaximoWith] hands to [fetch]. *)
Definition maximoRequest (base apiKey path method : string)
    (body : option JS.Value) : Net.Request :=
  {| Net.method := method;
     Net.url := normalizeBase base +:+ withLeadingSlash path;
     Net.headers := authHeaders apiKey;
     Net.body := if Json.truthyOpt body
                 then Net.Json (default JS.VNull body) else Net.NoBody |}.

(** [callMaximoWith(secrets, path, method, body?)] *)
Definition callMaximoWith (secrets : Providers.Secrets) (path method : string)
    (body : option JS.Value) : M JS.Value :=
  let base := JS.orElse (secrets !! "maximoUrl") (secrets !! "maximo_url") in
  let apiKey := JS.orElse (secrets !! "maximoApiKey") (secrets !! "maximo_apikey") in
  if negb (JS.truthyStr base) then throw "Maximo Manage URL is not configured."
  else if negb (JS.truthyStr apiKey) then throw "Maximo API key is not configured."
  else
    let rq := maximoRequest (default "" base) (default "" apiKey) path method body in
    t0 ← now rt;
    resp ← doFetch rt rq;
    t1 ← now rt;
    let data := Chat.parseOrNull rt (Net.text resp) in
    addTrace rt (maximoTrace method (Net.url rq) resp (t1 - t0) body data);;
    if negb (Net.ok resp)
    then throw ("Maximo error (" +:+ pretty (Net.status resp) +:+ "): " +:+ Net.text resp)
    else mret (Chat.dataOrText data (Net.text resp)).

End WithRuntime.

End Maximo.

(* ================================================================== *)
(** ** index.ts: the request-tracing middleware and the handlers *)
(* ================================================================== *)

Module Server.

(** What a handler answers: the status it sets and the value it hands
    to [res.json]. What the framework then writes on the wire (no body
    at all under a status 204 or 304) is not modelled. *)
Record HttpResponse := { code : Z; payload : JS.Value }.

(** What the middleware reads of a request. *)
Record ReqInfo := {
  reqMethod : string;
  originalUrl : string;
  reqBody : option JS.Value
}.

Definition errorBody (msg : string) : JS.Value :=
  JS.VObj [("error", JS.VStr msg)].

(** [e?.message || String(e)] for a thrown [Error]. *)
Definition errText (msg : string) : string :=
  if JS.nonEmpty msg then msg else "Error".

(** [merged = { ...cfg.secrets, ...settings }]: the request's settings
    win over the configured ones. *)
Definition mergeSecrets (cfgSecrets settings : Providers.Secrets) : Providers.Secrets :=
  settings ∪ cfgSecrets.

(** *** QueryHeuristics *)

Record Query := {
  os : string;
  where_ : string;
  select : string;
  pageSize : Z
}.

Definition woSelect : string :=
  "wonum,description,status,worktype,siteid,orgid,location,assetnum,reportdate".
Definition srSelect : string :=
  "ticketid,description,status,reportedby,reportdate,siteid,orgid,location,assetnum".

Definition defaultSelectByOS : list (string * string) :=
  [("mxapiasset", "assetnum,description,location,parent,assethealth,siteid,assettype");
   ("mxapiwo", woSelect);
   ("mxapisr", srSelect);
   ("mxapiinv", "itemnum,description,location,siteid,curbal,issueunit");
   ("mxapilocation", "location,description,parent,siteid,type")].

(** What [select] holds once the default is looked up: a text, or the
    member the table inherits under the name of the object structure. *)
Inductive SelectValue :=
| SelText (s : string)
| SelMember (m : JS.ProtoMember).

(** [if (select)] *)
Definition truthySelect (v : SelectValue) : bool :=
  match v with
  | SelText s => JS.nonEmpty s
  | SelMember _ => true
  end.

(** [String(select)], as [params.set] reads its value. *)
Definition selectText (v : SelectValue) : string :=
  match v with
  | SelText s => s
  | SelMember m => JS.protoText m
  end.

Fixpoint ownSelect (table : list (string * string)) (k : string) : option string :=
  match table with
  | [] => None
  | (n, v) :: r => if String.eqb n k then Some v else ownSelect r k
  end.

(** [table[k]]: the table is an object literal, so a name it does not
    list is looked up in [Object.prototype]. *)
Definition lookupSelect (table : list (string * string)) (k : string)
  : option SelectValue :=
  match ownSelect table k with
  | Some v => Some (SelText v)
  | None => SelMember <$> JS.protoMember k
  end.

Definition isWO (lower : string) : bool :=
  JS.includes "work order" lower || JS.includes "workorder" lower || JS.includes "wo" lower.

Definition isSR (lower : string) : bool :=
  JS.includes "service request" lower || JS.includes "servicerequest" lower
  || JS.includes "sr" lower.

(** The double-quote character. *)
Definition dq : string := String "034" "".

Definition correctiveWhere : string :=
  "woclass=" +:+ dq +:+ "WORKORDER" +:+ dq +:+ " and worktype="
  +:+ dq +:+ "CORRECTIVE" +:+ dq.

Definition openWhere : string :=
  "woclass=" +:+ dq +:+ "WORKORDER" +:+ dq +:+ " and status not in ["
  +:+ dq +:+ "CLOSE" +:+ dq +:+ "," +:+ dq +:+ "CAN" +:+ dq +:+ ","
  +:+ dq +:+ "CANCEL" +:+ dq +:+ "," +:+ dq +:+ "COMP" +:+ dq +:+ "]".

(** The keyword rules of the chat handler on the lower-cased input:
    the object structure (unless the UI named one), then the filter,
    the field list and the page size. *)
Definition classify (uiOS lower : string) : Query :=
  let os :=
    if JS.nonEmpty uiOS then uiOS
    else if JS.includes "location" lower then "mxapilocation"
    else if JS.includes "asset" lower then "mxapiasset"
    else if isSR lower then "mxapisr"
    else if JS.includes "inventory" lower then "mxapiinv"
    else "mxapiwo" in
  if JS.includes "corrective" lower && isWO lower then
    {| os := os; where_ := correctiveWhere; select := woSelect; pageSize := 100 |}
  else if JS.includes "open" lower && isWO lower then
    {| os := os; where_ := openWhere; select := woSelect; pageSize := 100 |}
  else if isSR lower && JS.includes "all" lower then
    {| os := os; where_ := ""; select := srSelect; pageSize := 100 |}
  else
    {| os := os; where_ := ""; select := ""; pageSize := 50 |}.

(** [select] after
    [if (!select) { const def = defaultSelectByOS[String(os).toLowerCase()];
    if (def) select = def; }]. *)
Definition defaultSelect (q : Query) : SelectValue :=
  if JS.nonEmpty (select q) then SelText (select q)
  else match lookupSelect defaultSelectByOS (JS.toLowerCase (os q)) with
       | Some def => if truthySelect def then def else SelText (select q)
       | None => SelText (select q)
       end.

(** The query with the default field list, when no rule set one;
    [select] is the text of the value, which is what the URL of the
    backend call carries. *)
Definition withDefaultSelect (q : Query) : Query :=
  {| os := os q; where_ := where_ q; select := selectText (defaultSelect q);
     pageSize := pageSize q |}.

(** The summarize-last-results intent. *)
Definition isSummarize (lower : string) : bool :=
  JS.includes "summarize the last maximo results" lower
  || (JS.includes "summarize" lower && JS.includes "last" lower
      && JS.includes "maximo" lower).

(** *** The summary payload *)

Definition TRUNCATED : string := String "010" "...TRUNCATED".

(** [if (payload.length > 120_000) payload = payload.slice(0, 120_000) + marker] *)
Definition boundPayload (payload : string) : string :=
  if JS.len payload >? 120000
  then JS.slice0 120000 payload +:+ TRUNCATED
  else payload.

Definition summarySystem : string :=
  "You are an assistant helping summarize IBM Maximo REST query results. Provide a clear, business-readable summary with key counts, notable statuses, and anomalies.".

Definition summaryPrefix : string :=
  "Summarize the following Maximo results (JSON). Include: total items, important fields, patterns, outliers, and a short recommended next step."
  +:+ String "010" (String "010" "").

(** The parsed body of POST /api/chat; each field is the expression of
    the handler that reads it:
    [mode] is [String(body.mode || body.src || "ai")],
    [text] is [String(body.text || body.prompt || "")],
    [system] is [body.system] when it is a string,
    [temperature] is [Number(body.temperature ?? 0.2)] when finite,
    [provider] is [body.provider],
    [model] is [String(body.model || "")],
    [settings] is [body.settings] when it is an object,
    [maximoOS] is [String(body.maximoOS || body.maximoOs || body.os || "")]. *)
Record ChatBody := {
  mode : string;
  text : string;
  system : option string;
  temperature : option Q;
  provider : option string;
  model : string;
  settings : Providers.Secrets;
  maximoOS : string
}.

(** The body of POST /api/proxy as the handler's [try] reads it, the
    three conversions to strings of its first lines done:
    [kind] is [String(payload.kind || "rest")],
    [method] is [String(payload.method || "GET")],
    [url] is [String(payload.url || "")],
    [headers] holds the string-valued entries of [payload.headers],
    [body] is [payload.body] ([None] for [undefined]). *)
Record ProxyBody := {
  kind : string;
  method : string;
  url : string;
  headers : gmap string string;
  body : option JS.Value
}.

(** The body of POST /api/proxy as it arrives: [payload.kind],
    [payload.method] and [payload.url] are any JSON values ([None] for
    [undefined]); the headers and the body are as in [ProxyBody]. *)
Record ProxyPayload := {
  rawKind : option JS.Value;
  rawMethod : option JS.Value;
  rawUrl : option JS.Value;
  rawHeaders : gmap string string;
  rawBody : option JS.Value
}.

Definition headersValue (h : gmap string string) : JS.Value :=
  JS.VObj ((fun kv => (kv.1, JS.VStr kv.2)) <$> map_to_list h).

Section WithRuntime.
Context (rt : Runtime).
(** Whether the framework's [res.json] hands the serialised body to
    [this.send], which the middleware has replaced as well (Express
    does). *)
Context (jsonCallsSend : bool).

Definition restTrace (info : ReqInfo) (statusCode durationMs : Z)
    (response : JS.Value) : TraceStore.Partial.t :=
  {| TraceStore.Partial.id := None;
     TraceStore.Partial.ts := None;
     TraceStore.Partial.kind := TraceStore.rest;
     TraceStore.Partial.provider := None;
     TraceStore.Partial.ok := None;
     TraceStore.Partial.label := Some "API";
     TraceStore.Partial.method := Some (reqMethod info);
     TraceStore.Partial.url := Some (originalUrl info);
     TraceStore.Partial.status := Some statusCode;
     TraceStore.Partial.durationMs := Some durationMs;
     TraceStore.Partial.request := Some (Json.nullish (reqBody info) JS.VNull);
     TraceStore.Partial.response := Some response;
     TraceStore.Partial.error := None |}.

(** One replaced method of the middleware ([res.json] or [res.send]):
    [addTrace] under a [try] whose [catch] ignores the exception. *)
Definition traced (info : ReqInfo) (started statusCode : Z) (response : JS.Value)
  : M unit :=
  t ← now rt;
  tryCatch (addTrace rt (restTrace info statusCode (t - started) response))
           (fun _ => mret tt).

(** [res.status(code).json(body)] on a path under /api/. *)
Definition resJson (info : ReqInfo) (started statusCode : Z) (body : JS.Value)
  : M HttpResponse :=
  traced info started statusCode body;;
  (if jsonCallsSend
   then traced info started statusCode (JS.VStr (JSON_stringify rt body))
   else mret tt);;
  mret {| code := statusCode; payload := body |}.

(** The arguments of the summarising chat call. *)
Definition summaryArgs (merged : Providers.Secrets) (b : ChatBody)
    (provider : string) (lastResponse : JS.Value) : Chat.Args :=
  let auth := Providers.resolveProviderAuth merged provider in
  {| Chat.provider := provider;
     Chat.apiKey := Providers.apiKey auth;
     Chat.baseUrl := Providers.authBaseUrl auth;
     Chat.model := default "" (JS.orElse (Some (JS.trim (model b)))
                      (JS.orElse (merged !! "aiModel") (Some "gpt-4o-mini")));
     Chat.temperature := Some (default Chat.defaultTemperature (temperature b));
     Chat.system := JS.orElse (system b) (Some summarySystem);
     Chat.prompt := summaryPrefix +:+ boundPayload (JSON_stringify rt lastResponse) |}.

Definition queryPath (q : Query) : string :=
  let params := searchParams rt
    ([("oslc.pageSize", pretty (pageSize q))]
     ++ (if JS.nonEmpty (select q) then [("oslc.select", select q)] else [])
     ++ (if JS.nonEmpty (where_ q) then [("oslc.where", where_ q)] else [])) in
  "/api/os/" +:+ encodeURIComponent rt (os q)
  +:+ (if JS.nonEmpty params then "?" +:+ params else "").

(** [{ os, where, select, pageSize }] as [res.json] writes it: of an
    inherited member, [JSON.stringify] leaves a function out and writes
    [Object.prototype] as an empty object. *)
Definition queryValue (q : Query) (sel : SelectValue) : JS.Value :=
  JS.VObj ([("os", JS.VStr (os q)); ("where", JS.VStr (where_ q))]
           ++ match sel with
              | SelText s => [("select", JS.VStr s)]
              | SelMember (JS.ProtoFunction _) => []
              | SelMember JS.ProtoObject => [("select", JS.VObj [])]
              end
           ++ [("pageSize", JS.VNum (pageSize q # 1))]).

(** The body of the [try] of POST /api/chat. *)
Definition chatBody (cfgSecrets : Providers.Secrets) (info : ReqInfo)
    (started : Z) (b : ChatBody) : M HttpResponse :=
  let maximoMode := String.eqb (JS.toLowerCase (mode b)) "maximo" in
  let provider :=
    JS.toLowerCase
      (default "" (JS.orElse (provider b)
                     (Some (Providers.getSelectedProvider cfgSecrets)))) in
  let merged := mergeSecrets cfgSecrets (settings b) in
  if maximoMode then
    let uiOS := JS.trim (maximoOS b) in
    let q := JS.trim (text b) in
    if JS.startsWith "/" q then
      data ← Maximo.callMaximoWith rt merged q "GET" None;
      resJson info started 200
        (JS.VObj [("reply", JS.VStr (JSON_stringify2 rt data)); ("maximo", data)])
    else
      let lower := JS.toLowerCase q in
      let cls := classify uiOS lower in
      if isSummarize lower then
        traces ← listTraces (Some TraceStore.maximo) (Some 1);
        let last := head traces in
        let lastResponse := last ≫= TraceStore.response in
        if negb (Json.truthyOpt lastResponse) then
          resJson info started 400
            (errorBody "No previous Maximo results found to summarize (Trace is empty).")
        else
          let lr := default JS.VNull lastResponse in
          out ← Chat.chatCompletionWith rt (summaryArgs merged b provider lr);
          resJson info started 200
            (JS.VObj
               [("reply", Chat.content out); ("maximo", lr);
                ("request", JS.VObj
                   ([("summaryOf", JS.VStr "last-maximo")]
                    ++ match Json.orElse (Json.get "os" (last ≫= TraceStore.request)) None with
                       | Some v => [("os", v)]
                       | None => []
                       end))])
      else
        let fq := withDefaultSelect cls in
        data ← Maximo.callMaximoWith rt merged (queryPath fq) "GET" None;
        resJson info started 200
          (JS.VObj [("reply", JS.VStr (JSON_stringify2 rt data)); ("maximo", data);
                    ("request", queryValue cls (defaultSelect cls))])
  else
    let auth := Providers.resolveProviderAuth merged provider in
    out ← Chat.chatCompletionWith rt
      {| Chat.provider := provider;
         Chat.apiKey := Providers.apiKey auth;
         Chat.baseUrl := Providers.authBaseUrl auth;
         Chat.model := default "" (JS.orElse (Some (JS.trim (model b)))
                          (JS.orElse (merged !! "aiModel") (Some "gpt-4o-mini")));
         Chat.temperature := Some (default Chat.defaultTemperature (temperature b));
         Chat.system := system b;
         Chat.prompt := text b |};
    resJson info started 200
      (JS.VObj [("reply", Chat.content out); ("raw", Chat.raw out)]).

(** POST /api/chat behind the middleware: the middleware reads the
    clock, the handler runs its [try], and [catch] answers 400. *)
Definition postChat (cfgSecrets : Providers.Secrets) (info : ReqInfo)
    (b : ChatBody) : M HttpResponse :=
  started ← now rt;
  tryCatch (chatBody cfgSecrets info started b)
           (fun msg => resJson info started 400 (errorBody (errText msg))).

(** [headers["Content-Type"] = headers["Content-Type"] || "application/json"] *)
Definition withContentType (h : gmap string string) : gmap string string :=
  <["Content-Type" := default "" (JS.orElse (h !! "Content-Type")
                                    (Some "application/json"))]> h.

(** The first part of the [try] of POST /api/proxy: the URL and the
    headers of the outgoing request, by [kind], or the error thrown. It
    touches no state. The handler reads the configuration itself
    ([cfg.secrets]), not merged settings. *)
Definition prepareProxy (cfgSecrets : Providers.Secrets) (p : ProxyBody)
  : Outcome (string * gmap string string) :=
  if String.eqb (kind p) "maximo" then
    let base := cfgSecrets !! "maximoUrl" in
    let apiKey := cfgSecrets !! "maximoApiKey" in
    if negb (JS.truthyStr base) then Throw "Maximo Manage URL is not configured."
    else if negb (JS.truthyStr apiKey) then Throw "Maximo API key is not configured."
    else
      let base := Maximo.normalizeBase (default "" base) in
      let url := if JS.startsWith "/" (url p)
                 then Chat.stripTrailingSlash base +:+ url p else url p in
      if negb (JS.startsWith base url)
      then Throw "Maximo proxy URL must be relative or within the configured Maximo base URL."
      else Return (url,
                   <["apikey" := default "" apiKey]>
                     (<["maxauth" := default "" apiKey]> (withContentType (headers p))))
  else if String.eqb (kind p) "ai" then
    let apiKey := cfgSecrets !! "aiApiKey" in
    if negb (JS.truthyStr apiKey) then Throw "AI API key is not configured."
    else
      let h := headers p in
      Return (url p,
              withContentType
                (<["Authorization" := default "" (JS.orElse (h !! "Authorization")
                     (Some ("Bearer " +:+ default "" apiKey)))]> h))
  else Return (url p, headers p).

(** The [body] option of the outgoing request. *)
Definition proxyFetchBody (method : string) (body : option JS.Value) : Net.Body :=
  match body with
  | Some v =>
      match v with
      | JS.VNull => Net.NoBody
      | _ =>
          if String.eqb method "GET" || String.eqb method "HEAD" then Net.NoBody
          else match v with JS.VStr s => Net.Raw s | _ => Net.Json v end
      end
  | None => Net.NoBody
  end.

Definition proxyTrace (p : ProxyBody) (method url : string)
    (headers : gmap string string) (resp : Net.Response) (durationMs : Z)
    (data : JS.Value) : TraceStore.Partial.t :=
  {| TraceStore.Partial.id := None;
     TraceStore.Partial.ts := None;
     TraceStore.Partial.kind :=
       if String.eqb (kind p) "maximo" then TraceStore.maximo
       else if String.eqb (kind p) "ai" then TraceStore.ai else TraceStore.rest;
     TraceStore.Partial.provider := None;
     TraceStore.Partial.ok := None;
     TraceStore.Partial.label := Some "Proxy call";
     TraceStore.Partial.method := Some method;
     TraceStore.Partial.url := Some url;
     TraceStore.Partial.status := Some (Net.status resp);
     TraceStore.Partial.durationMs := Some durationMs;
     TraceStore.Partial.request :=
       Some (JS.VObj ([("headers", headersValue headers)]
                      ++ match body p with Some v => [("body", v)] | None => [] end));
     TraceStore.Partial.response := Some data;
     TraceStore.Partial.error := None |}.

(** The body of the [try] of POST /api/proxy. *)
Definition proxyBody (cfgSecrets : Providers.Secrets) (info : ReqInfo)
    (started : Z) (p : ProxyBody) : M HttpResponse :=
  let method := JS.toUpperCase (method p) in
  prepared ← lift (prepareProxy cfgSecrets p);
  let url := prepared.1 in
  let headers := prepared.2 in
  t0 ← now rt;
  resp ← doFetch rt {| Net.method := method; Net.url := url;
                       Net.headers := headers;
                       Net.body := proxyFetchBody method (body p) |};
  t1 ← now rt;
  let data := default (JS.VStr (Net.text resp)) (JSON_parse rt (Net.text resp)) in
  addTrace rt (proxyTrace p method url headers resp (t1 - t0) data);;
  let last := JS.VObj [("status", JS.VNum (Net.status resp # 1)); ("data", data)] in
  setTraceState
    [("restBuilderDraft", default (JS.VObj []) (Json.orElse (reqBody info) None));
     ("restBuilderLastResponse", last);
     ("lastResponse", last)];;
  resJson info started (Net.status resp) last.

(** POST /api/proxy behind the middleware, from the [try] on. *)
Definition postProxy (cfgSecrets : Providers.Secrets) (info : ReqInfo)
    (p : ProxyBody) : M HttpResponse :=
  started ← now rt;
  tryCatch (proxyBody cfgSecrets info started p)
           (fun msg => resJson info started 400 (errorBody (errText msg))).

(** The first lines of the handler, which come before its [try]:
    [String(payload.kind || "rest")], [String(payload.method || "GET")]
    and [String(payload.url || "")]; [None] when one of them throws. *)
Definition readProxyBody (p : ProxyPayload) : option ProxyBody :=
  k ← Chat.toString rt (Chat.firstTruthy [rawKind p] "rest");
  m ← Chat.toString rt (Chat.firstTruthy [rawMethod p] "GET");
  u ← Chat.toString rt (Chat.firstTruthy [rawUrl p] "");
  Some {| kind := k; method := m; url := u;
          headers := rawHeaders p; body := rawBody p |}.

(** POST /api/proxy behind the middleware, whole: the middleware reads
    the clock, and a conversion that throws does so outside the [try],
    so that the handler itself throws (its promise rejects) and calls
    neither [res.json] nor [fetch]. *)
Definition proxyHandler (cfgSecrets : Providers.Secrets) (info : ReqInfo)
    (p : ProxyPayload) : M HttpResponse :=
  match readProxyBody p with
  | Some b => postProxy cfgSecrets info b
  | None => _ ← now rt; throw Json.cannotConvert
  end.

End WithRuntime.

End Server.

(* ================================================================== *)
(** ** traceStore.ts: the state patch *)
(* ================================================================== *)

Module TraceState.

(** A [Partial<TraceState>] whose [enabled], when present, is a boolean
    and whose [maxItems], when present, is an integer, as the type
    [TraceState] has them; and its other keys. *)
Record Patch := {
  enabled : option bool;
  maxItems : option Z;
  extra : list (string * JS.Value)
}.

(** [setTraceState(patch)]: [state = { ...state, ...patch }]. The items
    are not touched. *)
Definition setTraceState (patch : Patch) (s : TraceStore.Store) : TraceStore.Store :=
  {| TraceStore.enabled := default (TraceStore.enabled s) (enabled patch);
     TraceStore.maxItems := default (TraceStore.maxItems s) (maxItems patch);
     TraceStore.aux := foldl (fun m kv => <[kv.1 := kv.2]> m) (TraceStore.aux s)
                         (extra patch);
     TraceStore.items := TraceStore.items s |}.

End TraceState.

(* ================================================================== *)
(** ** config.ts *)
(* ================================================================== *)

Module Config.

(** [if (out[target] == null && out[source]) out[target] = out[source]] *)
Definition aliasIfMissing (target source : string) (out : gmap string string)
  : gmap string string :=
  match out !! target with
  | Some _ => out
  | None =>
      match out !! source with
      | Some v => if JS.nonEmpty v then <[target := v]> out else out
      | None => out
      end
  end.

(** [if (!out[target] && out[source]) out[target] = out[source]] *)
Definition aliasIfFalsy (target source : string) (out : gmap string string)
  : gmap string string :=
  if JS.truthyStr (out !! target) then out
  else match out !! source with
       | Some v => if JS.nonEmpty v then <[target := v]> out else out
       | None => out
       end.

(** [normalizeSecrets(s)], statement by statement. *)
Definition normalizeSecrets (s : gmap string string) : gmap string string :=
  let out := s in
  let out := aliasIfMissing "maximoUrl" "maximo_url" out in
  let out := aliasIfMissing "maximoApiKey" "maximo_apikey" out in
  let out := aliasIfFalsy "aiProvider" "provider" out in
  let out := aliasIfMissing "openai_baseurl" "openai_base" out in
  let out := aliasIfMissing "anthropic_baseurl" "anthropic_base" out in
  let out := aliasIfMissing "gemini_baseurl" "gemini_base" out in
  let out := aliasIfMissing "mistral_baseurl" "mistral_base" out in
  let out := aliasIfMissing "deepseek_baseurl" "deepseek_base" out in
  let out := aliasIfMissing "watsonx_baseurl" "watsonx_base" out in
  out.

Record AppConfig := {
  secrets : gmap string string;
  avatars : gmap string string;
  ui : gmap string JS.Value
}.

(** A [Partial<AppConfig>]: the bootstrap configuration parsed from the
    environment, or the patch of [updateConfig]. *)
Record PartialConfig := {
  pSecrets : option (gmap string string);
  pAvatars : option (gmap string string);
  pUi : option (gmap string JS.Value)
}.

(** The initial [inMemory]. *)
Definition emptyConfig : AppConfig := {| secrets := ∅; avatars := ∅; ui := ∅ |}.

(** [getConfig()], given the parsed bootstrap configuration
    ([safeParse(process.env.APP_CONFIG_JSON || "")]) and [inMemory]:
    the in-memory entries win over the bootstrap ones. *)
Definition getConfig (bootstrap : PartialConfig) (inMemory : AppConfig) : AppConfig :=
  {| secrets := normalizeSecrets (secrets inMemory ∪ default ∅ (pSecrets bootstrap));
     avatars := avatars inMemory ∪ default ∅ (pAvatars bootstrap);
     ui := ui inMemory ∪ default ∅ (pUi bootstrap) |}.

(** The assignments of [updateConfig(patch)] to [inMemory]: the patch
    wins over what was there. *)
Definition patchInMemory (patch : PartialConfig) (inMemory : AppConfig) : AppConfig :=
  {| secrets := match pSecrets patch with
                | Some ps => normalizeSecrets ps ∪ secrets inMemory
                | None => secrets inMemory
                end;
     avatars := match pAvatars patch with
                | Some pa => pa ∪ avatars inMemory
                | None => avatars inMemory
                end;
     ui := match pUi patch with
           | Some pu => pu ∪ ui inMemory
           | None => ui inMemory
           end |}.

(** [updateConfig(patch)]: the new [inMemory] and the configuration
    returned. The call then starts [persistConfigToK8sSecret] without
    awaiting it and only logs its failure, so neither component depends
    on it. *)
Definition updateConfig (bootstrap : PartialConfig) (patch : PartialConfig)
    (inMemory : AppConfig) : AppConfig * AppConfig :=
  let inMemory' := patchInMemory patch inMemory in
  (inMemory', getConfig bootstrap inMemory').

End Config.

(* ================================================================== *)
(** ** The callers that read the configuration: providers.ts, maximo.ts,
       chat.ts *)
(* ================================================================== *)

Module Callers.

(** The [ChatRequest] of chat.ts; [maximo] is its optional REST part. *)
Record MaximoCall := {
  path : string;
  method : option string;
  body : option JS.Value
}.

Record ChatRequest := {
  mode : string;
  prompt : string;
  system : option string;
  maximo : option MaximoCall
}.

(** What [handleChat] returns: [{ content, maximo }] or
    [{ content, raw }]. *)
Inductive ChatReply :=
| MaximoReply (content : string) (maximo : JS.Value)
| AiReply (content raw : JS.Value).

Section WithRuntime.
Context (rt : Runtime).

(** [chatCompletion(prompt, system)] over the secrets of [getConfig()]. *)
Definition chatCompletion (cfgSecrets : gmap string string) (prompt : string)
    (system : option string) : M Chat.Result :=
  let provider := Providers.getSelectedProvider cfgSecrets in
  let auth := Providers.resolveProviderAuth cfgSecrets provider in
  Chat.chatCompletionWith rt
    {| Chat.provider := provider;
       Chat.apiKey := Providers.apiKey auth;
       Chat.baseUrl := Providers.authBaseUrl auth;
       Chat.model := default "" (JS.orElse (cfgSecrets !! "aiModel") (Some "gpt-4o-mini"));
       Chat.temperature := Some Chat.defaultTemperature;
       Chat.system := system;
       Chat.prompt := prompt |}.

(** [callMaximo(path, method, body)] over the secrets of [getConfig()]. *)
Definition callMaximo (cfgSecrets : gmap string string) (path method : string)
    (body : option JS.Value) : M JS.Value :=
  Maximo.callMaximoWith rt cfgSecrets path method body.


(** [handleChat(req)] of chat.ts. *)
Definition handleChat (cfgSecrets : gmap string string) (req : ChatRequest)
  : M ChatReply :=
  if String.eqb (mode req) "maximo" then
    match maximo req with
    | Some m =>
        if JS.nonEmpty (path m) then
          data ← callMaximo cfgSecrets (path m)
                   (default "" (JS.orElse (method m) (Some "GET"))) (body m);
          mret (MaximoReply "Maximo response" data)
        else
          data ← callMaximo cfgSecrets "/api/os/mxapiwo" "GET" None;
          mret (MaximoReply "Maximo response" data)
    | None =>
        data ← callMaximo cfgSecrets "/api/os/mxapiwo" "GET" None;
        mret (MaximoReply "Maximo response" data)
    end
  else
    out ← chatCompletion cfgSecrets (prompt req) (system req);
    mret (AiReply (Chat.content out) (Chat.raw out)).

End WithRuntime.

End Callers.

(* ================================================================== *)
(** ** proxy.ts *)
(* ================================================================== *)

Module Proxy.

(** The [ProxyRequest]; [headers] and [body] may be absent. *)
Record ProxyRequest := {
  method : string;
  url : string;
  headers : option (gmap string string);
  body : option JS.Value
}.

(** What [proxy] returns. *)
Record ProxyResponse := {
  ok : bool;
  status : Z;
  statusText : string;
  respHeaders : gmap string string;
  text : string;
  json : JS.Value
}.

(** [if (!headers["content-type"]) headers["content-type"] = d] *)
Definition defaultContentType (d : string) (h : gmap string string)
  : gmap string string :=
  if JS.truthyStr (h !! "content-type") then h else <["content-type" := d]> h.

(** The [method], [headers] and [body] that [proxy] gives to [fetch]. *)
Definition proxyInit (req : ProxyRequest) : Net.Request :=
  let method := JS.toUpperCase (default "" (JS.orElse (Some (method req)) (Some "GET"))) in
  let headers := default ∅ (headers req) in
  let sends :=
    match body req with
    | None | Some JS.VNull => false
    | Some _ => negb (String.eqb method "GET") && negb (String.eqb method "HEAD")
    end in
  match body req with
  | Some (JS.VStr s) =>
      if sends
      then {| Net.method := method; Net.url := url req;
              Net.headers := defaultContentType "text/plain" headers;
              Net.body := Net.Raw s |}
      else {| Net.method := method; Net.url := url req; Net.headers := headers;
              Net.body := Net.NoBody |}
  | Some v =>
      if sends
      then {| Net.method := method; Net.url := url req;
              Net.headers := defaultContentType "application/json" headers;
              Net.body := Net.Json v |}
      else {| Net.method := method; Net.url := url req; Net.headers := headers;
              Net.body := Net.NoBody |}
  | None =>
      {| Net.method := method; Net.url := url req; Net.headers := headers;
         Net.body := Net.NoBody |}
  end.

Section WithRuntime.
Context (rt : Runtime).
(** What the platform's response carries besides status and text:
    [res.statusText] and [Object.fromEntries(res.headers.entries())]. *)
Context (responseMeta : Net.Response -> string * gmap string string).

(** [json = text ? JSON.parse(text) : null], [null] when that throws. *)
Definition parseJson (text : string) : JS.Value :=
  if JS.nonEmpty text then default JS.VNull (JSON_parse rt text) else JS.VNull.

(** [proxy(req)] *)
Definition proxy (req : ProxyRequest) : M ProxyResponse :=
  res ← doFetch rt (proxyInit req);
  mret {| ok := Net.ok res;
          status := Net.status res;
          statusText := (responseMeta res).1;
          respHeaders := (responseMeta res).2;
          text := Net.text res;
          json := parseJson (Net.text res) |}.

End WithRuntime.

End Proxy.

(* ================================================================== *)
(** ** TracePage.tsx: the REST builder's URL helpers *)
(* ================================================================== *)

Module TracePage.

(** The pattern of [normalizeMaximoBase] (a slash, [maximo], a slash,
    [oslc] or [api], all in any case, then the optional sub-path and
    the anchor) matches at the start of [s]. *)
Definition maximoApiHere (s : string) : bool :=
  match Maximo.dropPrefixCI "/maximo" s with
  | Some r => Maximo.apiSuffixHere r
  | None => false
  end.

(** [u.replace(pattern, "/maximo")] for that pattern: the leftmost
    match runs to the end of the string and is replaced. *)
Fixpoint replaceMaximoApi (s : string) : string :=
  if maximoApiHere s then "/maximo"
  else match s with
       | EmptyString => EmptyString
       | String c r => String c (replaceMaximoApi r)
       end.

(** The test of [u] against a slash and [maximo] in any case at the
    end of the string. *)
Fixpoint endsWithMaximo (s : string) : bool :=
  String.eqb (JS.toLowerCase s) "/maximo" ||
  match s with
  | EmptyString => false
  | String _ r => endsWithMaximo r
  end.

(** [normalizeMaximoBase(url)] *)
Definition normalizeMaximoBase (url : string) : string :=
  let u := JS.trim url in
  if negb (JS.nonEmpty u) then u
  else
    let u := Chat.stripTrailingSlash u in
    let u := replaceMaximoApi u in
    if negb (endsWithMaximo u) then Chat.stripTrailingSlash u +:+ "/maximo" else u.

(** [buildOslcUrl(maximoBase, os)] *)
Definition buildOslcUrl (rt : Runtime) (maximoBase os : string) : string :=
  let base := Chat.stripTrailingSlash (normalizeMaximoBase maximoBase) in
  let cleanOs := JS.trim os in
  if negb (JS.nonEmpty base) || negb (JS.nonEmpty cleanOs) then ""
  else base +:+ "/oslc/os/" +:+ encodeURIComponent rt cleanOs.

End TracePage.

(* ================================================================== *)
(** ** ResultViewer.tsx: rows and row counts of a backend result *)
(* ================================================================== *)

Module ResultViewer.

(** [typeof v === "object"]: objects, arrays and [null]. *)
Definition typeofObject (v : JS.Value) : bool :=
  match v with
  | JS.VNull | JS.VArr _ | JS.VObj _ => true
  | _ => false
  end.

(** The [member] of both functions: [input.member] when that is an
    array, else [input["rdfs:member"]] when that is one, else [null]. *)
Definition member (input : JS.Value) : option (list JS.Value) :=
  match Json.get "member" (Some input) with
  | Some (JS.VArr l) => Some l
  | _ =>
      match Json.get "rdfs:member" (Some input) with
      | Some (JS.VArr l) => Some l
      | _ => None
      end
  end.

(** [normalizeToRows(input)]: the [rows] of the result, [None] for
    [null]. *)
Definition normalizeToRows (input : JS.Value) : option (list JS.Value) :=
  match input with
  | JS.VNull => None
  | _ =>
      let data := match member input with
                  | Some l => Some l
                  | None => match input with JS.VArr l => Some l | _ => None end
                  end in
      match data with
      | None | Some [] => None
      | Some (d0 :: more) =>
          match d0 with
          | JS.VArr _ | JS.VObj _ =>
              match Json.get "columns" (Some input), Json.get "rows" (Some input) with
              | Some (JS.VArr _), Some (JS.VArr (r0 :: rows)) =>
                  if typeofObject r0 then Some (r0 :: rows) else Some (d0 :: more)
              | _, _ => Some (d0 :: more)
              end
          | _ => None
          end
      end
  end.

(** [inferMaximoRowCount(data)] *)
Definition inferMaximoRowCount (data : JS.Value) : option Z :=
  if negb (JS.truthy data) then None
  else match member data with
       | Some l => Some (Z.of_nat (length l))
       | None => match data with
                 | JS.VArr l => Some (Z.of_nat (length l))
                 | _ => None
                 end
       end.

End ResultViewer.

(* ================================================================== *)
(** ** A small runtime, for running the model on concrete requests *)
(* ================================================================== *)

Module Demo.

(** Comparison of strings by code units, as a number. *)
Definition codeUnitCompare (a b : string) : Z :=
  match String.compare a b with
  | Lt => -1
  | Eq => 0
  | Gt => 1
  end.

(** A comparison that reads digits as numbers: every maximal run of
    digits is compared by the number of its digits after the leading
    zeros (up to 255 of them), then digit by digit, and everything else
    by code unit. The key of a text writes each run as a mark, that
    count and the digits. *)
Fixpoint dropZeros (d : string) : string :=
  match d with
  | String c r => if ascii_dec c "0" then dropZeros r else d
  | EmptyString => d
  end.

Definition encodeRun (run : string) : string :=
  match run with
  | EmptyString => EmptyString
  | String _ _ =>
      let d := dropZeros run in
      String "0" (String (ascii_of_N (N.of_nat (String.length d))) d)
  end.

Fixpoint numericKey (run s : string) : string :=
  match s with
  | EmptyString => encodeRun run
  | String c r =>
      if Providers.isDigit c then numericKey (run +:+ String c "") r
      else encodeRun run +:+ String c (numericKey "" r)
  end.

Definition numericCompare (a b : string) : Z :=
  codeUnitCompare (numericKey "" a) (numericKey "" b).

(** A runtime whose upstream answers by [upstream] and whose JSON parser
    knows the texts of [parse]; serialisation is [stringify], URI
    components are left as they are and query parameters are joined
    unescaped. *)
Definition runtime (upstream : Net.Request -> Net.Reply)
    (parse : string -> option JS.Value) (stringify : JS.Value -> string) : Runtime :=
  {| dateNow := fun n => 1000 + Z.of_nat n;
     makeId := fun n => "id-" +:+ pretty n;
     toISOString := fun n => "ts-" +:+ pretty n;
     fetch := fun _ rq => upstream rq;
     JSON_parse := parse;
     JSON_stringify := stringify;
     JSON_stringify2 := stringify;
     toStr := stringify;
     encodeURIComponent := fun s => s;
     searchParams := fun l =>
       foldr (fun kv acc =>
                kv.1 +:+ "=" +:+ kv.2 +:+ (if JS.nonEmpty acc then "&" +:+ acc else ""))
             "" l;
     localeCompare := codeUnitCompare |}.

Definition world0 : World :=
  {| store := TraceStore.initial; fetched := []; tick := 0 |}.

(** An upstream that answers every request with status 200 and [text]. *)
Definition always200 (text : string) : Net.Request -> Net.Reply :=
  fun _ => Net.Answer {| Net.status := 200; Net.text := text |}.

Definition noParse : string -> option JS.Value := fun _ => None.

Definition constText (text : string) : JS.Value -> string := fun _ => text.

Definition stamp (n : nat) : TraceStore.Stamp :=
  {| TraceStore.makeId := "id-" +:+ pretty n; TraceStore.nowISO := "ts-" +:+ pretty n |}.

(** A call as a handler makes it: a kind and a label. *)
Definition call (k : TraceStore.TraceKind) (lbl : string) : TraceStore.Partial.t :=
  {| TraceStore.Partial.id := None;
     TraceStore.Partial.ts := None;
     TraceStore.Partial.kind := k;
     TraceStore.Partial.provider := None;
     TraceStore.Partial.ok := None;
     TraceStore.Partial.label := Some lbl;
     TraceStore.Partial.method := None;
     TraceStore.Partial.url := None;
     TraceStore.Partial.status := None;
     TraceStore.Partial.durationMs := None;
     TraceStore.Partial.request := None;
     TraceStore.Partial.response := None;
     TraceStore.Partial.error := None |}.

Definition storeOf (M : Z) (l : list TraceStore.TraceItem) : TraceStore.Store :=
  {| TraceStore.enabled := true; TraceStore.maxItems := M;
     TraceStore.aux := ∅; TraceStore.items := l |}.

Definition threeCalls : list (TraceStore.Stamp * TraceStore.Partial.t) :=
  [(stamp 0, call TraceStore.ai "first");
   (stamp 1, call TraceStore.maximo "second");
   (stamp 2, call TraceStore.rest "third")].

End Demo.

(* ================================================================== *)
(** ** The vocabulary of the statements *)
(* ================================================================== *)

(** *** Credentials *)

(** The provider-specific fields of the settings, by the provider's
    name: [<name>_key], and [<name>_baseurl] before [<name>_base]. *)
Definition specificKey (s : gmap string string) (p : Providers.ProviderId)
  : option string :=
  s !! (Providers.providerName p +:+ "_key").

Definition specificBase (s : gmap string string) (p : Providers.ProviderId)
  : option string :=
  JS.orElse (s !! (Providers.providerName p +:+ "_baseurl"))
            (s !! (Providers.providerName p +:+ "_base")).

(** The generic selection field designates [p]. *)
Definition designates (s : gmap string string) (p : Providers.ProviderId) : Prop :=
  JS.toLowerCase (default "" (s !! "aiProvider")) = Providers.providerName p.

(** Settings that differ from [s] in the generic key and base URL only. *)
Definition withGeneric (k b : string) (s : gmap string string) : gmap string string :=
  <["aiApiKey" := k]> (<["aiBaseUrl" := b]> s).

(** *** Sorting *)

(** A consistent comparator, as [Array.prototype.sort] requires it. *)
Record Consistent (cmp : string -> string -> Z) : Prop := {
  cmp_refl : forall a, cmp a a = 0;
  cmp_sym : forall a b, cmp a b < 0 <-> 0 < cmp b a;
  cmp_trans : forall a b c, cmp a b <= 0 -> cmp b c <= 0 -> cmp a c <= 0
}.

(** A number as an id writes it: digits only, at least one, the first
    of them not a zero. *)
Definition isNumber (d : string) : bool :=
  match d with
  | EmptyString => false
  | String c r =>
      Providers.isDigit c && negb (if ascii_dec c "0" then true else false)
      && forallb Providers.isDigit (list_ascii_of_string r)
  end.

(** The text does not begin with a digit. *)
Definition noLeadingDigit (s : string) : bool :=
  match s with
  | EmptyString => true
  | String c _ => negb (Providers.isDigit c)
  end.

Fixpoint lastChar (s : string) : option ascii :=
  match s with
  | EmptyString => None
  | String c r => match r with EmptyString => Some c | _ => lastChar r end
  end.

(** The text does not end in a digit. *)
Definition noTrailingDigit (s : string) : bool :=
  match lastChar s with
  | Some c => negb (Providers.isDigit c)
  | None => true
  end.

(** [a] and [b] are the same up to a number, and the number of [a] has
    fewer digits than that of [b]: after a common beginning [p] that
    does not end in a digit, [a] goes on with the number [d1] and [b]
    with the longer number [d2] (of at most 100 digits), and
    neither number is followed by a digit. So [gpt-9] and [gpt-10], or
    [gpt-4-8k] and [gpt-4-32k]. *)
Definition NumericBefore (a b : string) : Prop :=
  exists p d1 d2 s t,
    a = p +:+ d1 +:+ s /\ b = p +:+ d2 +:+ t /\
    noTrailingDigit p = true /\
    isNumber d1 = true /\ isNumber d2 = true /\
    (String.length d1 < String.length d2 <= 100)%nat /\
    noLeadingDigit s = true /\ noLeadingDigit t = true.

(** A numeric-aware comparator, as [localeCompare] is under the option
    [numeric: true]: it compares digit runs as numbers, so the smaller
    number comes first. *)
Definition NumericAware (cmp : string -> string -> Z) : Prop :=
  forall a b, NumericBefore a b -> cmp a b < 0.

(** *** The backend base URL *)

(** What follows the first [://] of a URL. *)
Fixpoint afterScheme (u : string) : string :=
  match u with
  | EmptyString => EmptyString
  | String _ r => if JS.startsWith "://" u then String.substring 3 (String.length u) u
                  else afterScheme r
  end.

(** The text up to the first slash, question mark or hash. *)
Fixpoint upToDelimiter (s : string) : string :=
  match s with
  | EmptyString => EmptyString
  | String c r =>
      if ascii_dec c "/" then EmptyString
      else if ascii_dec c "?" then EmptyString
      else if ascii_dec c "#" then EmptyString
      else String c (upToDelimiter r)
  end.

(** The authority of an absolute URL: the host it names, with the user
    information and the port when it has them. *)
Definition authority (u : string) : string := upToDelimiter (afterScheme u).

(** The path without the slash it may start with. *)
Definition stripLeadingSlash (path : string) : string :=
  match path with
  | String c r => if ascii_dec c "/" then r else path
  | EmptyString => path
  end.

(** [m] is a slash, then [oslc] or [api] in any case, then nothing or a
    sub-path (a slash and any characters but line terminators). *)
Inductive ApiSuffix : string -> Prop :=
| ApiSuffix_intro (w tail : string) :
    JS.toLowerCase w = "oslc" \/ JS.toLowerCase w = "api" ->
    tail = "" \/ (exists t, tail = "/" +:+ t /\ Maximo.noLineTerminator t = true) ->
    ApiSuffix ("/" +:+ w +:+ tail).

(** *** Requests and their effects *)

(** An item written by the request-tracing middleware for this request
    and this response status. *)
Definition RestItem (info : Server.ReqInfo) (statusCode : Z)
    (i : TraceStore.TraceItem) : Prop :=
  TraceStore.kind i = TraceStore.rest /\
  TraceStore.status i = Some statusCode /\
  TraceStore.label i = Some "API" /\
  TraceStore.method i = Some (Server.reqMethod info) /\
  TraceStore.url i = Some (Server.originalUrl info).

(** The request POST /api/proxy hands to [fetch] once prepared. *)
Definition proxyRequest (p : Server.ProxyBody) (u : string) (h : gmap string string)
  : Net.Request :=
  {| Net.method := JS.toUpperCase (Server.method p); Net.url := u; Net.headers := h;
     Net.body := Server.proxyFetchBody (JS.toUpperCase (Server.method p))
                   (Server.body p) |}.

(** What a chat call may do to the world: at most one request, a POST,
    and trace items of kind ai only. *)
Definition ChatEffect (w w' : World) : Prop :=
  (fetched w' = fetched w \/
   exists rq, fetched w' = (fetched w ++ [rq])%list /\ Net.method rq = "POST") /\
  (forall i, i ∈ TraceStore.items (store w') ->
     i ∈ TraceStore.items (store w) \/ TraceStore.kind i = TraceStore.ai).

(** The world in which a handler's [try] starts: the middleware has
    read the clock. *)
Definition afterClock (w : World) : World :=
  {| store := store w; fetched := fetched w; tick := S (tick w) |}.

(** A value [v] on which [String(v || d)] throws: it is truthy and its
    conversion to a string throws. *)
Definition Unconvertible (rt : Runtime) (v : option JS.Value) : Prop :=
  Json.truthyOpt v = true /\ (v ≫= Chat.toString rt) = None.

(** The most recent backend trace entry. *)
Definition lastMaximo (s : TraceStore.Store) : option TraceStore.TraceItem :=
  head (filter (fun i => TraceStore.kind i = TraceStore.maximo) (TraceStore.items s)).

(** The chat request [b] with another object structure named by the UI. *)
Definition withOS (os' : string) (b : Server.ChatBody) : Server.ChatBody :=
  {| Server.mode := Server.mode b; Server.text := Server.text b;
     Server.system := Server.system b; Server.temperature := Server.temperature b;
     Server.provider := Server.provider b; Server.model := Server.model b;
     Server.settings := Server.settings b; Server.maximoOS := os' |}.

(* ================================================================== *)
(** ** Requests, settings and worlds to run the model on *)
(* ================================================================== *)

(** A runtime whose upstream answers 200 with an empty object and whose
    parser knows no text. *)
Definition silentRuntime : Runtime :=
  Demo.runtime (Demo.always200 "{}") Demo.noParse (Demo.constText "{}").

(** The settings and the upstream of a model listing that succeeds. *)
Definition listingSecrets : gmap string string := {[ "openai_key" := "sk-demo" ]}.

Definition listingRuntime : Runtime :=
  Demo.runtime (Demo.always200 "MODELS")
    (fun t => if String.eqb t "MODELS"
              then Some (JS.VObj [("data", JS.VArr [JS.VObj [("id", JS.VStr "gpt-4o")]])])
              else None)
    (Demo.constText "{}").

(** A backend whose configured URL carries an API suffix, alone and
    with a key for the openai provider. *)
Definition backendSecrets : gmap string string :=
  {[ "maximoUrl" := "https://host/maximo/api"; "maximoApiKey" := "k-demo" ]}.

(** A backend at the root of its host. *)
Definition hostSecrets : gmap string string :=
  {[ "maximoUrl" := "https://host/api"; "maximoApiKey" := "k-demo" ]}.

Definition fullSecrets : gmap string string :=
  {[ "maximoUrl" := "https://host/maximo/api"; "maximoApiKey" := "k-demo";
     "openai_key" := "sk-demo" ]}.

(** A chat request in AI mode for the openai provider. *)
Definition chatInfo : Server.ReqInfo :=
  {| Server.reqMethod := "POST"; Server.originalUrl := "/api/chat";
     Server.reqBody := None |}.

Definition aiRequest : Server.ChatBody :=
  {| Server.mode := "ai"; Server.text := "hello"; Server.system := None;
     Server.temperature := None; Server.provider := Some "openai";
     Server.model := ""; Server.settings := ∅; Server.maximoOS := "" |}.

(** The chat request of backend-query mode with the given text. *)
Definition maximoRequestBody (t : string) : Server.ChatBody :=
  {| Server.mode := "maximo"; Server.text := t; Server.system := None;
     Server.temperature := None; Server.provider := Some "openai";
     Server.model := ""; Server.settings := ∅; Server.maximoOS := "" |}.

(** A proxy request of the backend kind for the given URL. *)
Definition proxyInfo : Server.ReqInfo :=
  {| Server.reqMethod := "POST"; Server.originalUrl := "/api/proxy";
     Server.reqBody := None |}.

Definition proxyTo (u : string) : Server.ProxyBody :=
  {| Server.kind := "maximo"; Server.method := "get"; Server.url := u;
     Server.headers := ∅; Server.body := None |}.

(** A world whose newest backend trace entry has a response. *)
Definition earlierResult : TraceStore.TraceItem :=
  TraceStore.buildItem (Demo.stamp 0)
    (Maximo.maximoTrace "GET" "https://host/maximo/api/os/mxapiwo"
       {| Net.status := 200; Net.text := "{}" |} 7 None
       (JS.VObj [("member", JS.VArr [])])).

Definition worldWithResult : World :=
  {| store := Demo.storeOf 500 [earlierResult]; fetched := []; tick := 1 |}.



(** A chat call of the Gemini protocol. *)
Definition geminiArgs : Chat.Args :=
  {| Chat.provider := "gemini"; Chat.apiKey := Some "g-demo"; Chat.baseUrl := None;
     Chat.model := "gemini-1.5-pro"; Chat.temperature := None; Chat.system := None;
     Chat.prompt := "hello" |}.

(** A chat call of the Anthropic protocol. *)
Definition anthropicArgs : Chat.Args :=
  {| Chat.provider := "anthropic"; Chat.apiKey := Some "a-demo"; Chat.baseUrl := None;
     Chat.model := "claude-3-5-haiku-latest"; Chat.temperature := None;
     Chat.system := None; Chat.prompt := "hello" |}.

(** A JSON object that no conversion to a string accepts: it has a
    [toString] of its own, which is [null]. *)
Definition noText : JS.Value := JS.VObj [("toString", JS.VNull)].

(** A runtime whose upstream answers 200 with a text that the parser
    reads as [v]. *)
Definition answering (v : JS.Value) : Runtime :=
  Demo.runtime (Demo.always200 "ANSWER")
    (fun t => if String.eqb t "ANSWER" then Some v else None)
    (Demo.constText "{}").

(** The payload of a proxy request with the given [kind] for a path of
    the backend. *)
Definition rawProxy (k : JS.Value) : Server.ProxyPayload :=
  {| Server.rawKind := Some k; Server.rawMethod := None;
     Server.rawUrl := Some (JS.VStr "/api/os/mxapiwo");
     Server.rawHeaders := ∅; Server.rawBody := None |}.

(** A proxy request of the backend kind for the URL that
    [buildOslcUrl] builds from a base and an object structure. (The
    payload the REST builder drafts names no kind; the kind is the
    caller's to add.) *)
Definition oslcProxyRequest (rt : Runtime) (base os method : string)
    (headers : gmap string string) (body : option JS.Value) : Server.ProxyBody :=
  {| Server.kind := "maximo"; Server.method := method;
     Server.url := TracePage.buildOslcUrl rt base os;
     Server.headers := headers; Server.body := body |}.

(** *** The aliases of the configuration, as a table *)

(** Each alias of [normalizeSecrets]: the key written, whether an empty
    value of that key is overwritten too (the test is [!out[k]], not
    [out[k] == null]), and the key read. *)
Definition aliasRules : list (string * (bool * string)) :=
  [("maximoUrl", (false, "maximo_url"));
   ("maximoApiKey", (false, "maximo_apikey"));
   ("aiProvider", (true, "provider"));
   ("openai_baseurl", (false, "openai_base"));
   ("anthropic_baseurl", (false, "anthropic_base"));
   ("gemini_baseurl", (false, "gemini_base"));
   ("mistral_baseurl", (false, "mistral_base"));
   ("deepseek_baseurl", (false, "deepseek_base"));
   ("watsonx_baseurl", (false, "watsonx_base"))].

Fixpoint ruleOf (rules : list (string * (bool * string))) (k : string)
  : option (bool * string) :=
  match rules with
  | [] => None
  | (t, r) :: more => if String.eqb t k then Some r else ruleOf more k
  end.

(** What a key reads after normalisation, from the settings before it:
    its own value when it has one (a non-empty one, for the alias that
    overwrites an empty value), else the non-empty value of the key it
    is an alias of, else what it had. *)
Definition normalizedLookup (s : gmap string string) (k : string) : option string :=
  match ruleOf aliasRules k with
  | None => s !! k
  | Some (overEmpty, source) =>
      let present := match s !! k with
                     | Some v => if overEmpty then JS.nonEmpty v else true
                     | None => false
                     end in
      if present then s !! k
      else if JS.truthyStr (s !! source) then s !! source else s !! k
  end.

(** *** Strings and lists the further properties speak of *)

(** A string that does not begin with white space. *)
Definition noLeadingWhite (s : string) : bool :=
  match s with
  | EmptyString => true
  | String c _ => negb (JS.isWhite c)
  end.

(** A list the model selector can show: not empty, and no entry with an
    empty id. *)
Definition Usable (l : list Models.ModelInfo) : Prop :=
  l <> [] /\ Forall (fun m => Models.id m <> "") l.

(* ================================================================== *)
(** * Properties *)
(* ================================================================== *)

(** ** The string built-ins on samples *)

Example trim_samples :
  JS.trim <$> ["  a b  "; String "009" ("x" +:+ String "010" ""); "   "; ""; "/p "]
  = ["a b"; "x"; ""; ""; "/p"].
Proof. vm_compute. reflexivity. Qed.

Example case_samples :
  JS.toLowerCase "OpenAI-4.1 Mini" = "openai-4.1 mini"
  /\ JS.toUpperCase "patch" = "PATCH".
Proof. split; vm_compute; reflexivity. Qed.

Example search_samples :
  JS.includes "wo" "show me all locations" = false
  /\ JS.includes "work order" "show me all corrective work orders" = true
  /\ JS.includes "" "" = true
  /\ JS.startsWith "/" "/api/os/mxapiwo" = true
  /\ JS.slice0 3 "abcdef" = "abc".
Proof. repeat split; vm_compute; reflexivity. Qed.

(** ** TraceStore *)

Section TraceStoreFacts.
Import TraceStore.

Lemma addTrace_enabled st p s :
  enabled (addTrace st p s).1 = enabled s.
Proof.
  unfold addTrace. destruct (enabled s) eqn:E; simpl; [|by rewrite E].
  repeat case_match; simpl; done.
Qed.

Lemma addTrace_maxItems st p s :
  maxItems (addTrace st p s).1 = maxItems s.
Proof.
  unfold addTrace. destruct (enabled s); simpl; [|done].
  repeat case_match; simpl; done.
Qed.

(** One call on an enabled store with a bound that is not negative: the
    new item goes to the front and the list is cut to the bound. *)
Lemma addTrace_items st p s :
  enabled s = true -> 0 <= maxItems s ->
  items (addTrace st p s).1 =
    take (Z.to_nat (maxItems s)) (buildItem st p :: items s)
  /\ (addTrace st p s).2 = None.
Proof.
  intros He Hm. unfold addTrace. rewrite He. simpl negb. cbv iota.
  destruct (Z.gtb_spec (Z.of_nat (length (buildItem st p :: items s))) (maxItems s)) as [Hgt|Hle].
  - destruct (Z.ltb_spec (maxItems s) 0) as [?|_]; [lia|]. by simpl.
  - simpl. split; [|done]. rewrite take_ge; [done|].
    simpl in *. lia.
Qed.

(** A disabled store ignores the call. *)
Lemma addTrace_disabled st p s :
  enabled s = false -> addTrace st p s = (s, None).
Proof. intros He. unfold addTrace. by rewrite He. Qed.

Lemma addTraces_items calls : forall s,
  enabled s = true -> 0 <= maxItems s ->
  items s = take (Z.to_nat (maxItems s)) (items s) ->
  items (addTraces calls s) =
    take (Z.to_nat (maxItems s))
         (reverse ((fun c => buildItem c.1 c.2) <$> calls) ++ items s).
Proof.
  induction calls as [|[st p] calls IH]; intros s He Hm Hs.
  - simpl. exact Hs.
  - simpl addTraces.
    destruct (addTrace_items st p s He Hm) as [Hi _].
    rewrite IH.
    + rewrite addTrace_maxItems, Hi, fmap_cons, reverse_cons. simpl.
      rewrite <- (assoc_L (++)). simpl.
      set (n := Z.to_nat (maxItems s)).
      set (r := reverse _).
      rewrite !take_app.
      f_equal. rewrite take_take. f_equal. lia.
    + by rewrite addTrace_enabled.
    + by rewrite addTrace_maxItems.
    + rewrite addTrace_maxItems, Hi. rewrite take_take. f_equal. lia.
Qed.

Lemma addTraces_enabled calls : forall s,
  enabled (addTraces calls s) = enabled s.
Proof.
  induction calls as [|[st p] calls IH]; intros s; [done|].
  cbn [addTraces]. by rewrite IH, addTrace_enabled.
Qed.

Lemma addTraces_maxItems calls : forall s,
  maxItems (addTraces calls s) = maxItems s.
Proof.
  induction calls as [|[st p] calls IH]; intros s; [done|].
  cbn [addTraces]. by rewrite IH, addTrace_maxItems.
Qed.

(** C3. A run of N [addTrace] calls on an enabled, empty store whose
    bound is M: the store holds min(N, M) items; they are the items
    built by the last min(N, M) calls, newest first, so the N - M oldest
    are the ones dropped; and any further call puts its item at the
    front and cuts the tail to the bound. *)
Theorem addTraces_newest_first (M : Z) (a : gmap string JS.Value)
    (calls : list (Stamp * Partial.t)) :
  0 <= M ->
  let s0 := {| enabled := true; maxItems := M; aux := a; items := [] |} in
  let built := (fun c => buildItem c.1 c.2) <$> calls in
  let N := length calls in
  let s := addTraces calls s0 in
  length (items s) = Nat.min N (Z.to_nat M) /\
  items s = reverse (drop (N - Z.to_nat M) built) /\
  items s = take (Z.to_nat M) (reverse built) /\
  (forall st p,
     items (addTrace st p s).1 = take (Z.to_nat M) (buildItem st p :: items s)).
Proof.
  intros HM s0 built N s.
  assert (Hs : items s = take (Z.to_nat M) (reverse built)).
  { subst s. rewrite addTraces_items; simpl; try done.
    - by rewrite app_nil_r.
    - by rewrite take_nil. }
  assert (Hlen : length built = N) by (subst built N; by rewrite length_fmap).
  split; [|split; [|split]].
  - rewrite Hs, length_take, length_reverse, Hlen. lia.
  - rewrite Hs, take_reverse, Hlen. done.
  - exact Hs.
  - intros st p.
    assert (He : enabled s = true) by (subst s; by rewrite addTraces_enabled).
    assert (Hm : maxItems s = M) by (subst s; by rewrite addTraces_maxItems).
    destruct (addTrace_items st p s He) as [Hi _]; [lia|].
    by rewrite Hi, Hm.
Qed.

(** Three calls on a store bounded by two items. *)
Lemma addTraces_newest_first_witness :
  (label <$> items (addTraces Demo.threeCalls (Demo.storeOf 2 [])))
  = [Some "third"; Some "second"].
Proof.
  pose proof (addTraces_newest_first 2 ∅ Demo.threeCalls ltac:(lia)) as H.
  cbv zeta in H. destruct H as (_ & H & _).
  unfold Demo.storeOf. rewrite H. reflexivity.
Defined.

(** C9, as the code has it. For every kind filter and limit L, the
    listing is a prefix (newest first) of the stored items of that kind
    (of all items without a filter) and has min(available, n) entries
    for n = max(1, min(L, maxItems)): never more than n, but n is at
    least one (n is min(L, maxItems) whenever that is at least one).
    For L = 0 the result is the newest matching item alone, when there
    is one. *)
Theorem listTraces_bounded (k : option TraceKind) (L : Z) (s : Store) :
  let matching := match k with
                  | Some k' => filter (fun i => kind i = k') (items s)
                  | None => items s
                  end in
  let n := Z.to_nat (Z.max 1 (Z.min L (maxItems s))) in
  listTraces k (Some L) s `prefix_of` matching /\
  length (listTraces k (Some L) s) = Nat.min n (length matching) /\
  (length (listTraces k (Some L) s) <= n)%nat /\
  (1 <= n)%nat /\
  (1 <= Z.min L (maxItems s) -> n = Z.to_nat (Z.min L (maxItems s))) /\
  listTraces k (Some 0) s = option_list (head matching).
Proof.
  intros matching n. unfold listTraces. cbn [default from_option Datatypes.id].
  fold matching. fold n.
  split; [apply prefix_take|].
  split; [apply length_take|].
  split; [rewrite length_take; lia|].
  split; [unfold n; lia|].
  split; [unfold n; lia|].
  replace (Z.to_nat (Z.max 1 (Z.min 0 (maxItems s)))) with 1%nat by lia.
  by destruct matching.
Qed.

(** C9 as stated fails: with a limit of 0 the listing of a store that
    holds one item returns that item. *)
Lemma listTraces_limit_zero_not_empty :
  length (listTraces None (Some 0)
            (Demo.storeOf 500 [buildItem (Demo.stamp 0) (Demo.call ai "first")]))
  = 1%nat.
Proof. reflexivity. Qed.

(** C10 on the code. The item that [addTrace] stores never has
    [provider] or [ok], whatever the argument supplies: on the argument
    of the model-listing path, which carries [provider = "openai"] and
    [ok = true], the stored item has neither, both for the call alone
    and for a run of [listModelsWithSecrets] that records it. *)
Theorem addTrace_drops_provider_and_ok :
  (forall st p, provider (buildItem st p) = None /\ ok (buildItem st p) = None) /\
  let p := Models.modelsTrace "openai" true 5 "https://api.openai.com/v1/models"
             200 JS.VNull in
  Partial.provider p = Some "openai" /\
  Partial.ok p = Some true /\
  ((fun i => (kind i, provider i, ok i)) <$> items (addTrace (Demo.stamp 0) p initial).1)
    = [(models, None, None)] /\
  ((fun i => (kind i, provider i, ok i)) <$>
     items (store (Models.listModelsWithSecrets listingRuntime listingSecrets
                     "openai" Demo.world0).2))
    = [(models, None, None)].
Proof.
  split; [done|]. cbv zeta. repeat split; vm_compute; reflexivity.
Qed.

End TraceStoreFacts.

(** ** CredentialResolver *)

Section CredentialFacts.
Import Providers.

Lemma lookupEntry_provider (s : Secrets) (p : ProviderId) :
  lookupEntry (authTable s) (providerName p) =
    {| key := specificKey s p; baseUrl := specificBase s p |}.
Proof. destruct p; reflexivity. Qed.

Lemma default_orElse_empty (x : option string) :
  default "" (JS.orElse x (Some "")) = default "" x.
Proof. destruct x as [[|c r]|]; reflexivity. Qed.

Lemma orElse_Some_nonempty (a : string) (b : option string) :
  a <> "" -> JS.orElse (Some a) b = Some a.
Proof. destruct a; [done|reflexivity]. Qed.

Lemma orElse_Some_empty (b : option string) : JS.orElse (Some "") b = b.
Proof. reflexivity. Qed.

Lemma orUndefined_nonempty (a : string) : a <> "" -> JS.orUndefined a = Some a.
Proof. destruct a; [done|reflexivity]. Qed.

(** The resolver, written by cases on its two ingredients. *)
Lemma resolveProviderAuth_unfold (s : Secrets) (p : ProviderId) :
  resolveProviderAuth s (providerName p) =
    let allow := String.eqb (JS.toLowerCase (default "" (s !! "aiProvider")))
                            (providerName p) in
    {| apiKey :=
         JS.orElse (Some (JS.trim (default "" (specificKey s p))))
           (if allow then JS.orUndefined (JS.trim (default "" (s !! "aiApiKey")))
            else None);
       authBaseUrl :=
         JS.orElse (Some (JS.trim (default "" (specificBase s p))))
           (if allow then JS.orUndefined (JS.trim (default "" (s !! "aiBaseUrl")))
            else None) |}.
Proof.
  unfold resolveProviderAuth. rewrite lookupEntry_provider.
  cbn [key baseUrl]. by rewrite !default_orElse_empty.
Qed.

Lemma withGeneric_specific k b s p :
  specificKey (withGeneric k b s) p = specificKey s p /\
  specificBase (withGeneric k b s) p = specificBase s p /\
  withGeneric k b s !! "aiProvider" = s !! "aiProvider".
Proof.
  unfold specificKey, specificBase, withGeneric.
  destruct p; cbn [providerName]; rewrite !lookup_insert_ne by done; done.
Qed.

(** C1. For every settings object and every supported provider p, with
    the provider-specific key and the generic key read after trimming:
    a non-empty specific key is the result; with an empty or absent
    specific key the result is the generic key exactly when the generic
    selection field, lower-cased, equals p (nothing when that generic
    key is empty), and there is no apiKey otherwise. So when the
    selection field does not designate p the result does not depend on
    the generic key and base URL at all. The same holds for baseUrl,
    whose specific value is [<p>_baseurl] or else [<p>_base]. *)
Theorem resolveProviderAuth_no_leak (s : Secrets) (p : ProviderId) :
  let r := resolveProviderAuth s (providerName p) in
  let key := JS.trim (default "" (specificKey s p)) in
  let base := JS.trim (default "" (specificBase s p)) in
  let genericKey := JS.trim (default "" (s !! "aiApiKey")) in
  let genericBase := JS.trim (default "" (s !! "aiBaseUrl")) in
  (key <> "" -> apiKey r = Some key) /\
  (key = "" -> designates s p -> genericKey <> "" -> apiKey r = Some genericKey) /\
  (key = "" -> designates s p -> genericKey = "" -> apiKey r = None) /\
  (key = "" -> ~ designates s p -> apiKey r = None) /\
  (base <> "" -> authBaseUrl r = Some base) /\
  (base = "" -> designates s p -> genericBase <> "" -> authBaseUrl r = Some genericBase) /\
  (base = "" -> designates s p -> genericBase = "" -> authBaseUrl r = None) /\
  (base = "" -> ~ designates s p -> authBaseUrl r = None) /\
  (~ designates s p ->
   forall k b, resolveProviderAuth (withGeneric k b s) (providerName p) = r).
Proof.
  intros r key base genericKey genericBase. subst r.
  rewrite resolveProviderAuth_unfold. cbv zeta. cbn [apiKey authBaseUrl].
  fold key base genericKey genericBase. unfold designates.
  destruct (String.eqb_spec (JS.toLowerCase (default "" (s !! "aiProvider")))
              (providerName p)) as [Heq|Hne].
  - repeat split; intros; try done.
    + by apply orElse_Some_nonempty.
    + match goal with H : key = "" |- _ => rewrite H end.
      rewrite orElse_Some_empty. by apply orUndefined_nonempty.
    + match goal with H : key = "" |- _ => rewrite H end.
      match goal with H : genericKey = "" |- _ => rewrite H end. done.
    + by apply orElse_Some_nonempty.
    + match goal with H : base = "" |- _ => rewrite H end.
      rewrite orElse_Some_empty. by apply orUndefined_nonempty.
    + match goal with H : base = "" |- _ => rewrite H end.
      match goal with H : genericBase = "" |- _ => rewrite H end. done.
  - repeat split; intros; try done.
    + by apply orElse_Some_nonempty.
    + match goal with H : key = "" |- _ => by rewrite H end.
    + by apply orElse_Some_nonempty.
    + match goal with H : base = "" |- _ => by rewrite H end.
    + rewrite resolveProviderAuth_unfold. cbv zeta.
      destruct (withGeneric_specific k b s p) as (-> & -> & ->).
      destruct (String.eqb_spec (JS.toLowerCase (default "" (s !! "aiProvider")))
                  (providerName p)); done.
Qed.

End CredentialFacts.

(** The two cases of the specification's own test of the resolver, and
    the designated fallback. *)
Example resolve_specific_key :
  Providers.apiKey
    (Providers.resolveProviderAuth {[ "openai_key" := " X " ]} "openai") = Some "X".
Proof. vm_compute. reflexivity. Qed.

Example resolve_foreign_generic_key :
  Providers.apiKey
    (Providers.resolveProviderAuth
       {[ "aiApiKey" := "Y"; "aiProvider" := "anthropic" ]} "openai") = None.
Proof. vm_compute. reflexivity. Qed.

Example resolve_designated_generic_key :
  Providers.apiKey
    (Providers.resolveProviderAuth
       {[ "aiApiKey" := "Y"; "aiProvider" := "OpenAI" ]} "openai") = Some "Y".
Proof. vm_compute. reflexivity. Qed.

(** ** Strings *)

Lemma app_cons (c : ascii) (a b : string) : String c a +:+ b = String c (a +:+ b).
Proof. reflexivity. Qed.

Lemma app_empty_l (b : string) : "" +:+ b = b.
Proof. reflexivity. Qed.

Lemma app_empty_r (a : string) : a +:+ "" = a.
Proof. induction a as [|c a IH]; [done|]. by rewrite app_cons, IH. Qed.

Lemma app_assoc' (a b c : string) : (a +:+ b) +:+ c = a +:+ (b +:+ c).
Proof. induction a as [|x a IH]; [done|]. by rewrite !app_cons, IH. Qed.

Lemma startsWith_append b x : JS.startsWith b (b +:+ x) = true.
Proof.
  induction b as [|c b IH]; [done|]. rewrite app_cons. cbn [JS.startsWith].
  by destruct (ascii_dec c c).
Qed.

(** [startsWith] and [includes] as prefixes and substrings. *)
Lemma startsWith_prefix p : forall s,
  JS.startsWith p s = true <-> exists r, s = p +:+ r.
Proof.
  induction p as [|a p IH]; intros s.
  - split; [intros _; by exists s|done].
  - destruct s as [|b s]; cbn [JS.startsWith].
    + split; [done|]. intros [r Hr]. discriminate Hr.
    + destruct (ascii_dec a b) as [->|Hne].
      * rewrite IH. split; intros [r Hr]; exists r.
        -- by rewrite app_cons, Hr.
        -- rewrite app_cons in Hr. by injection Hr.
      * split; [done|]. intros [r Hr]. rewrite app_cons in Hr. by injection Hr.
Qed.

Lemma includes_substring p : forall s,
  JS.includes p s = true <-> exists a b, s = a +:+ p +:+ b.
Proof.
  induction s as [|c s IH]; cbn [JS.includes]; rewrite orb_true_iff, startsWith_prefix.
  - split.
    + intros [[r Hr]|?]; [|done]. exists "", r. done.
    + intros (a & b & Hab). left. destruct a; [by exists b|discriminate Hab].
  - rewrite IH. split.
    + intros [[r Hr]|(a & b & Hab)]; [by exists "", r|].
      exists (String c a), b. by rewrite app_cons, Hab.
    + intros (a & b & Hab). destruct a as [|c' a].
      * left. by exists b.
      * right. rewrite app_cons in Hab. injection Hab as _ ->. by exists a, b.
Qed.

(** ** Model-id filtering *)

Section ModelIdFacts.
Import Providers.

Lemma existsb_eqb_elem (x : string) (l : list string) :
  existsb (String.eqb x) l = true <-> x ∈ l.
Proof.
  rewrite existsb_exists. split.
  - intros (y & Hy & He). apply String.eqb_eq in He as ->. by apply list_elem_of_In.
  - intros H. exists x. split; [by apply list_elem_of_In|apply String.eqb_refl].
Qed.

Lemma elem_of_uniqFrom l : forall seen x,
  x ∈ uniqFrom seen l <-> x ∈ l /\ x ∉ seen.
Proof.
  induction l as [|y l IH]; intros seen x; simpl.
  - split; [by intros ?%elem_of_nil|by intros [?%elem_of_nil _]].
  - destruct (existsb (String.eqb y) seen) eqn:E.
    + apply existsb_eqb_elem in E. rewrite IH, elem_of_cons.
      split; [tauto|]. intros [[->|?] ?]; [contradiction|tauto].
    + assert (y ∉ seen) as Hy.
      { intros H%existsb_eqb_elem. congruence. }
      rewrite !elem_of_cons, IH, elem_of_cons.
      split.
      * intros [->|[? ?]]; tauto.
      * intros [[->|?] ?]; [tauto|].
        destruct (decide (x = y)); [tauto|]. right. tauto.
Qed.

Lemma NoDup_uniqFrom l : forall seen, NoDup (uniqFrom seen l).
Proof.
  induction l as [|y l IH]; intros seen; simpl; [constructor|].
  destruct (existsb (String.eqb y) seen); [apply IH|].
  constructor; [|apply IH].
  rewrite elem_of_uniqFrom, elem_of_cons. tauto.
Qed.

Lemma elem_of_uniq (l : list string) (x : string) : x ∈ uniq l <-> x ∈ l.
Proof.
  unfold uniq. rewrite elem_of_uniqFrom. split; [tauto|].
  intros H. split; [done|]. by intros ?%elem_of_nil.
Qed.

Lemma elem_of_filter_bool (f : string -> bool) (l : list string) (x : string) :
  x ∈ List.filter f l <-> x ∈ l /\ f x = true.
Proof. rewrite !list_elem_of_In. apply filter_In. Qed.

Lemma NoDup_filter_bool (f : string -> bool) (l : list string) :
  NoDup l -> NoDup (List.filter f l).
Proof.
  induction 1 as [|x l Hx Hl IH]; simpl; [constructor|].
  destruct (f x); [|done]. constructor; [|done].
  rewrite elem_of_filter_bool. tauto.
Qed.

Section SortFacts.
Context (cmp : string -> string -> Z) (Hc : Consistent cmp).

Lemma insertSorted_perm x l : Permutation (insertSorted cmp x l) (x :: l).
Proof.
  induction l as [|y l IH]; simpl; [done|].
  destruct (cmp x y <=? 0); [done|].
  rewrite IH. apply perm_swap.
Qed.

Lemma sort_perm l : Permutation (sort cmp l) l.
Proof.
  induction l as [|x l IH]; simpl; [done|].
  by rewrite insertSorted_perm, IH.
Qed.

Lemma insertSorted_sorted x l :
  StronglySorted (fun a b => cmp a b <= 0) l ->
  StronglySorted (fun a b => cmp a b <= 0) (insertSorted cmp x l).
Proof.
  induction 1 as [|y l Hl IH Hy]; simpl.
  - repeat constructor.
  - destruct (Z.leb_spec (cmp x y) 0) as [Hle|Hgt].
    + constructor; [by constructor|].
      constructor; [done|].
      eapply Forall_impl; [exact Hy|]. intros z Hz. simpl in Hz.
      eapply (cmp_trans _ Hc); eauto.
    + constructor; [done|].
      apply (Permutation_Forall (Permutation_sym (insertSorted_perm x l))).
      constructor; [|done].
      apply (cmp_sym _ Hc) in Hgt. lia.
Qed.

Lemma sort_sorted l : StronglySorted (fun a b => cmp a b <= 0) (sort cmp l).
Proof.
  induction l as [|x l IH]; simpl; [constructor|].
  by apply insertSorted_sorted.
Qed.

End SortFacts.

(** The demo comparator is consistent. *)
Lemma codeUnitCompare_le a b :
  Demo.codeUnitCompare a b <= 0 <-> String.le a b.
Proof.
  unfold Demo.codeUnitCompare, String.le, String.leb.
  destruct (a ?= b)%string; simpl; split; intros; try done; lia.
Qed.

Lemma codeUnitCompare_consistent : Consistent Demo.codeUnitCompare.
Proof.
  split.
  - intros a. unfold Demo.codeUnitCompare.
    pose proof (String.compare_antisym a a) as H.
    destruct (a ?= a)%string; simpl in H; done.
  - intros a b. unfold Demo.codeUnitCompare.
    rewrite (String.compare_antisym b a).
    destruct (a ?= b)%string; simpl; lia.
  - intros a b c. rewrite !codeUnitCompare_le. apply (@transitivity _ String.le _).
Qed.

(** In a sorted list, of two members the one that cannot come second
    comes first. *)
Lemma sorted_before (R : string -> string -> Prop) (l : list string) (a b : string) :
  StronglySorted R l -> a ∈ l -> b ∈ l -> a <> b -> ~ R b a ->
  exists l1 l2 l3, l = (l1 ++ a :: l2 ++ b :: l3)%list.
Proof.
  intros Hs. induction Hs as [|x r Hs IH Hx]; intros Ha Hb Hne Hr.
  - by apply elem_of_nil in Ha.
  - apply elem_of_cons in Ha as [->|Ha], Hb as [->|Hb].
    + done.
    + apply list_elem_of_split in Hb as (l2 & l3 & ->). by exists [], l2, l3.
    + rewrite Forall_forall in Hx. destruct Hr. by apply Hx.
    + destruct (IH Ha Hb Hne Hr) as (l1 & l2 & l3 & ->). by exists (x :: l1), l2, l3.
Qed.

(** The two patterns of the filter, read on the lower-cased id. *)
Lemma modernFamily_prefixes x :
  modernFamily x = true <->
  exists r, JS.toLowerCase x = "gpt-" +:+ r
            \/ JS.toLowerCase x = "chatgpt" +:+ r
            \/ exists d, isDigit d = true /\ JS.toLowerCase x = String "o" (String d r).
Proof.
  unfold modernFamily. rewrite !orb_true_iff, !startsWith_prefix. split.
  - intros [[[r Hr]|Hd]|[r Hr]]; [exists r; by left| |exists r; right; by left].
    destruct (JS.toLowerCase x) as [|c [|d r]]; [done| |].
    { revert Hd. destruct c as [[] [] [] [] [] [] [] []]; done. }
    destruct (ascii_dec c "o") as [->|Hne].
    + exists r. right. right. by exists d.
    + revert Hd. destruct c as [[] [] [] [] [] [] [] []]; done.
  - intros (r & [Hr|[Hr|(d & Hd & Hr)]]).
    + left. left. by exists r.
    + right. by exists r.
    + left. right. by rewrite Hr.
Qed.

Lemma legacyFamily_words x :
  legacyFamily x = true <->
  exists w a b,
    w ∈ ["davinci"; "curie"; "babbage"; "ada"; "text-"; "code-"; "instruct"; "deprecated"]
    /\ JS.toLowerCase x = a +:+ w +:+ b.
Proof.
  unfold legacyFamily. rewrite existsb_exists. split.
  - intros (w & Hw & Hi). apply includes_substring in Hi as (a & b & Hab).
    exists w, a, b. split; [by apply list_elem_of_In|done].
  - intros (w & a & b & Hw & Hab). exists w. split; [by apply list_elem_of_In|].
    apply includes_substring. by exists a, b.
Qed.

(** C6. For the provider "openai" and a comparator that is consistent
    and numeric-aware, as [localeCompare] with [numeric: true] is: the
    ids are deduplicated (empty ones dropped); an id is of a modern
    family when, in lower case, it begins with [gpt-], with [chatgpt]
    or with [o] and a digit, and of a legacy family when it holds one
    of the eight legacy words; the preferred subset holds the ids of a
    modern family that are of no legacy family; the result is a
    rearrangement of the preferred subset, or of all the deduplicated
    ids when no id is preferred; it is sorted by the comparator, and of
    two ids in it that differ by a number the one with the shorter
    number comes first. For the raw ids gpt-4o, text-davinci-003 and
    gpt-4.1-mini the result holds the two gpt ids, sorted, without
    text-davinci-003; an id of a modern family that holds a legacy word
    (gpt-3.5-turbo-instruct) is left out too; and gpt-9 comes before
    gpt-10. *)
Theorem filterModelIds_openai (cmp : string -> string -> Z) (ids : list string) :
  Consistent cmp -> NumericAware cmp ->
  let all := uniq (List.filter JS.nonEmpty ids) in
  let preferred := List.filter preferredId all in
  let out := filterModelIds cmp "openai" ids in
  let sample := filterModelIds cmp "openai"
                  ["gpt-4o"; "text-davinci-003"; "gpt-4.1-mini"] in
  NoDup all /\
  (forall x, x ∈ all <-> x ∈ ids /\ x <> "") /\
  (forall x, modernFamily x = true <->
             exists r, JS.toLowerCase x = "gpt-" +:+ r
                       \/ JS.toLowerCase x = "chatgpt" +:+ r
                       \/ exists d, isDigit d = true /\
                                    JS.toLowerCase x = String "o" (String d r)) /\
  (forall x, legacyFamily x = true <->
             exists w a b,
               w ∈ ["davinci"; "curie"; "babbage"; "ada"; "text-"; "code-";
                    "instruct"; "deprecated"]
               /\ JS.toLowerCase x = a +:+ w +:+ b) /\
  (forall x, x ∈ preferred <->
             x ∈ ids /\ modernFamily x = true /\ legacyFamily x = false) /\
  (preferred <> [] -> Permutation out preferred) /\
  (preferred = [] -> Permutation out all) /\
  StronglySorted (fun a b => cmp a b <= 0) out /\
  (forall a b, a ∈ out -> b ∈ out -> NumericBefore a b ->
     exists l1 l2 l3, out = (l1 ++ a :: l2 ++ b :: l3)%list) /\
  ("text-davinci-003" ∉ sample) /\
  Permutation sample ["gpt-4o"; "gpt-4.1-mini"] /\
  StronglySorted (fun a b => cmp a b <= 0) sample /\
  filterModelIds cmp "openai" ["gpt-4o"; "gpt-3.5-turbo-instruct"; "text-davinci-003"]
    = ["gpt-4o"] /\
  filterModelIds cmp "openai" ["gpt-10"; "gpt-4o"; "gpt-9"; "davinci-002"]
    = sort cmp ["gpt-10"; "gpt-4o"; "gpt-9"] /\
  filterModelIds cmp "openai" ["gpt-10"; "gpt-9"] = ["gpt-9"; "gpt-10"].
Proof.
  intros Hc Hn all preferred out sample.
  assert (Hall : forall x, x ∈ all <-> x ∈ ids /\ x <> "").
  { intros x. unfold all. rewrite elem_of_uniq, elem_of_filter_bool.
    destruct x; simpl; split; intros [? ?]; split; done. }
  assert (Hout : out = sort cmp (match preferred with [] => all | _ => preferred end))
    by reflexivity.
  assert (Hsample : sample = sort cmp ["gpt-4o"; "gpt-4.1-mini"]) by reflexivity.
  split; [apply NoDup_uniqFrom|].
  split; [exact Hall|].
  split; [exact modernFamily_prefixes|].
  split; [exact legacyFamily_words|].
  split.
  { intros x. unfold preferred. rewrite elem_of_filter_bool, Hall.
    unfold preferredId. rewrite andb_true_iff, negb_true_iff.
    split; [intros [[? ?] [? ?]]; done|].
    intros (Hin & Hm & Hl). repeat split; try done.
    intros ->. discriminate Hm. }
  split.
  { intros Hne. rewrite Hout. destruct preferred; [done|]. apply sort_perm. }
  split.
  { intros He. rewrite Hout, He. apply sort_perm. }
  split; [rewrite Hout; by apply sort_sorted|].
  split.
  { intros a b Ha Hb Hab. specialize (Hn a b Hab).
    apply (sorted_before (fun a b => cmp a b <= 0)); try done.
    - rewrite Hout. by apply sort_sorted.
    - intros ->. rewrite (cmp_refl cmp Hc) in Hn. lia.
    - apply (cmp_sym cmp Hc) in Hn. lia. }
  split.
  { rewrite Hsample. intros Hin.
    rewrite sort_perm in Hin.
    rewrite !elem_of_cons, elem_of_nil in Hin.
    destruct Hin as [?|[?|?]]; done. }
  split; [rewrite Hsample; apply sort_perm|].
  split; [rewrite Hsample; by apply sort_sorted|].
  split; [reflexivity|]. split; [reflexivity|].
  assert (Hlt : cmp "gpt-9" "gpt-10" < 0).
  { apply Hn. exists "gpt-", "9", "10", "", "". repeat split; cbn; lia. }
  apply (cmp_sym cmp Hc) in Hlt.
  change (filterModelIds cmp "openai" ["gpt-10"; "gpt-9"])
    with (if cmp "gpt-10" "gpt-9" <=? 0 then ["gpt-10"; "gpt-9"] else ["gpt-9"; "gpt-10"]).
  destruct (Z.leb_spec (cmp "gpt-10" "gpt-9") 0); [lia|done].
Qed.

(** The demo comparators are consistent, and the numeric one is
    numeric-aware. *)
Lemma numericCompare_consistent : Consistent Demo.numericCompare.
Proof.
  destruct codeUnitCompare_consistent as [R S T].
  split; unfold Demo.numericCompare; [intros a; apply R|intros a b; apply S|].
  intros a b c. apply T.
Qed.

Lemma lastChar_snoc p :
  match lastChar p with
  | Some c => exists p', p = p' +:+ String c ""
  | None => p = ""
  end.
Proof.
  induction p as [|c p IH]; [done|]. cbn [lastChar].
  destruct p as [|c' p']; [by exists ""|].
  destruct (lastChar (String c' p')) as [x|]; [|done].
  destruct IH as [q Hq]. exists (String c q). by rewrite app_cons, Hq.
Qed.

Lemma numericKey_digits d : forall run s,
  forallb isDigit (list_ascii_of_string d) = true ->
  Demo.numericKey run (d +:+ s) = Demo.numericKey (run +:+ d) s.
Proof.
  induction d as [|c d IH]; intros run s Hd.
  - by rewrite app_empty_l, app_empty_r.
  - cbn [list_ascii_of_string forallb] in Hd. apply andb_true_iff in Hd as [Hc Hd].
    rewrite app_cons. cbn [Demo.numericKey]. rewrite Hc, (IH _ _ Hd).
    by rewrite app_assoc', app_cons, app_empty_l.
Qed.

Lemma numericKey_break run s :
  noLeadingDigit s = true ->
  Demo.numericKey run s = Demo.encodeRun run +:+ Demo.numericKey "" s.
Proof.
  destruct s as [|c r]; cbn [noLeadingDigit Demo.numericKey].
  - intros _. cbn [Demo.encodeRun]. by rewrite app_empty_r.
  - intros Hc. apply negb_true_iff in Hc. rewrite Hc. by cbn [Demo.encodeRun].
Qed.

Lemma numericKey_prefix p : forall run c x,
  isDigit c = false ->
  Demo.numericKey run (p +:+ String c x)
  = Demo.numericKey run (p +:+ String c "") +:+ Demo.numericKey "" x.
Proof.
  induction p as [|a p IH]; intros run c x Hc.
  - rewrite !app_empty_l. cbn [Demo.numericKey]. rewrite Hc.
    cbn [Demo.encodeRun]. by rewrite app_assoc', app_cons, app_empty_l.
  - rewrite !app_cons. cbn [Demo.numericKey]. destruct (isDigit a).
    + by apply IH.
    + by rewrite (IH _ _ x Hc), app_assoc', app_cons.
Qed.

Lemma encodeRun_number d :
  isNumber d = true ->
  forallb isDigit (list_ascii_of_string d) = true /\
  Demo.encodeRun d
  = String "0" (String (ascii_of_N (N.of_nat (String.length d))) d).
Proof.
  destruct d as [|c r]; [done|]. cbn [isNumber]. rewrite !andb_true_iff.
  intros [[Hc Hz] Hr]. split.
  - cbn [list_ascii_of_string forallb]. by rewrite Hc, Hr.
  - cbn [Demo.encodeRun Demo.dropZeros]. by destruct (ascii_dec c "0").
Qed.

Lemma compare_app k x y : String.compare (k +:+ x) (k +:+ y) = String.compare x y.
Proof.
  induction k as [|c k IH]; [done|]. rewrite !app_cons. cbn [String.compare].
  unfold Ascii.compare. by rewrite N.compare_refl.
Qed.

Lemma numericCompare_numeric : NumericAware Demo.numericCompare.
Proof.
  intros a b (p & d1 & d2 & s & t & -> & -> & Hp & H1 & H2 & Hlen & Hs & Ht).
  assert (HK : exists K, forall d u,
            isNumber d = true -> noLeadingDigit u = true ->
            Demo.numericKey "" (p +:+ d +:+ u)
            = K +:+ String "0" (String (ascii_of_N (N.of_nat (String.length d)))
                                   (d +:+ Demo.numericKey "" u))).
  { unfold noTrailingDigit in Hp. pose proof (lastChar_snoc p) as Hl.
    destruct (lastChar p) as [c|].
    - destruct Hl as [p' ->]. apply negb_true_iff in Hp.
      exists (Demo.numericKey "" (p' +:+ String c "")). intros d u Hd Hu.
      destruct (encodeRun_number d Hd) as [Hds He].
      rewrite app_assoc', app_cons, app_empty_l, (numericKey_prefix p' "" c _ Hp).
      by rewrite (numericKey_digits d "" u Hds), app_empty_l, (numericKey_break d u Hu), He.
    - subst p. exists "". intros d u Hd Hu.
      destruct (encodeRun_number d Hd) as [Hds He].
      by rewrite !app_empty_l, (numericKey_digits d "" u Hds), app_empty_l,
        (numericKey_break d u Hu), He. }
  destruct HK as [K HK]. unfold Demo.numericCompare, Demo.codeUnitCompare.
  rewrite (HK d1 s H1 Hs), (HK d2 t H2 Ht), compare_app.
  cbn [String.compare]. change ("0" ?= "0")%char with Eq. cbv iota.
  unfold Ascii.compare. rewrite !N_ascii_embedding by lia.
  assert (N.of_nat (String.length d1) ?= N.of_nat (String.length d2) = Lt)%N as ->
    by (apply N.compare_lt_iff; lia).
  done.
Qed.

(** The sample of the specification under the numeric comparator. *)
Lemma filterModelIds_openai_witness :
  filterModelIds Demo.numericCompare "openai"
    ["gpt-4o"; "text-davinci-003"; "gpt-4.1-mini"] = ["gpt-4.1-mini"; "gpt-4o"]
  /\ StronglySorted (fun a b => Demo.numericCompare a b <= 0)
       (filterModelIds Demo.numericCompare "openai"
          ["gpt-4o"; "text-davinci-003"; "gpt-4.1-mini"]).
Proof.
  split; [vm_compute; reflexivity|].
  pose proof (filterModelIds_openai Demo.numericCompare
                ["gpt-4o"; "text-davinci-003"; "gpt-4.1-mini"]
                numericCompare_consistent numericCompare_numeric) as H.
  cbv zeta in H. apply H.
Defined.

(** Numbers in ids under the numeric comparator and under the
    code-unit one. *)
Example filterModelIds_numeric_order :
  filterModelIds Demo.numericCompare "openai"
    ["gpt-10"; "gpt-4o"; "gpt-9"; "gpt-4-32k"; "gpt-4-8k"; "o3"; "o10"]
    = ["gpt-4-8k"; "gpt-4-32k"; "gpt-4o"; "gpt-9"; "gpt-10"; "o3"; "o10"]
  /\ filterModelIds Demo.codeUnitCompare "openai" ["gpt-10"; "gpt-9"]
     = ["gpt-10"; "gpt-9"].
Proof. split; vm_compute; reflexivity. Qed.

(** The two patterns on some ids. *)
Example modern_and_legacy_families :
  modernFamily <$> ["gpt-4o"; "GPT-4"; "o1-mini"; "O3"; "omni"; "chatgpt-4o-latest";
                    "text-davinci-003"; "gpt-3.5-turbo-instruct"]
    = [true; true; true; true; false; true; false; true]
  /\ legacyFamily <$> ["gpt-4o"; "gpt-3.5-turbo-instruct"; "text-davinci-003";
                       "gpt-4-ADA"; "o1-mini"]
    = [false; true; true; true; false].
Proof. split; vm_compute; reflexivity. Qed.

(** Other providers keep the deduplicated ids in their order. *)
Example filterModelIds_other_provider :
  filterModelIds Demo.codeUnitCompare "mistral" ["b"; ""; "a"; "b"] = ["b"; "a"].
Proof. vm_compute. reflexivity. Qed.

End ModelIdFacts.

(** ** BackendGateway *)

Section MaximoFacts.
Import Maximo.

Lemma withLeadingSlash_one_slash path :
  withLeadingSlash path = "/" +:+ stripLeadingSlash path.
Proof.
  unfold withLeadingSlash, stripLeadingSlash.
  destruct path as [|c r]; [done|]. cbn [JS.startsWith].
  destruct (ascii_dec "/" c) as [<-|Hne].
  - by destruct (ascii_dec "/" "/").
  - destruct (ascii_dec c "/") as [->|_]; done.
Qed.

(** *** The first [replace]: one trailing slash *)

Lemma stripTrailingSlash_slash r : Chat.stripTrailingSlash (r +:+ "/") = r.
Proof.
  induction r as [|c r IH]; [done|].
  rewrite app_cons. cbn [Chat.stripTrailingSlash]. rewrite IH.
  destruct r; done.
Qed.

Lemma stripTrailingSlash_other s :
  (forall r, s <> r +:+ "/") -> Chat.stripTrailingSlash s = s.
Proof.
  induction s as [|c s IH]; intros H; [done|].
  cbn [Chat.stripTrailingSlash]. destruct s as [|d s].
  - destruct (ascii_dec c "/") as [->|_]; [|done]. by destruct (H "").
  - rewrite IH; [done|]. intros r Hr. apply (H (String c r)).
    by rewrite app_cons, Hr.
Qed.

(** *** The second [replace]: the pattern, spelled out *)

Lemma dropPrefixCI_spec w : forall s tail,
  dropPrefixCI w s = Some tail <->
  exists w', s = w' +:+ tail /\ JS.toLowerCase w' = w.
Proof.
  induction w as [|a w IH]; intros s tail.
  - cbn [dropPrefixCI]. split.
    + intros [= ->]. by exists "".
    + intros (w' & -> & Hw). destruct w'; [done|discriminate].
  - destruct s as [|b s]; cbn [dropPrefixCI].
    + split; [done|]. intros (w' & Hs & Hw). destruct w'; discriminate.
    + destruct (ascii_dec a (JS.lowerChar b)) as [->|Hne].
      * rewrite IH. split.
        -- intros (w' & -> & <-). by exists (String b w').
        -- intros (w' & Hs & Hw). destruct w' as [|b' w']; [discriminate|].
           rewrite app_cons in Hs. inversion Hs; subst.
           cbn [JS.toLowerCase] in Hw. inversion Hw. by exists w'.
      * split; [done|]. intros (w' & Hs & Hw).
        destruct w' as [|b' w']; [discriminate|].
        rewrite app_cons in Hs. inversion Hs; subst.
        cbn [JS.toLowerCase] in Hw. inversion Hw. congruence.
Qed.

Lemma subPathToEnd_spec tail :
  subPathToEnd tail = true <->
  tail = "" \/ (exists t, tail = "/" +:+ t /\ noLineTerminator t = true).
Proof.
  destruct tail as [|c t]; cbn [subPathToEnd].
  - split; [by left|done].
  - destruct (ascii_dec c "/") as [->|Hne].
    + split; [intros H; right; by exists t|].
      intros [?|(t' & Ht & H)]; [done|].
      rewrite app_cons, app_empty_l in Ht. by inversion Ht; subst.
    + split; [done|]. intros [?|(t' & Ht & _)]; [done|].
      rewrite app_cons, app_empty_l in Ht. inversion Ht; subst. done.
Qed.

Lemma apiSuffixHere_spec s : apiSuffixHere s = true <-> ApiSuffix s.
Proof.
  split.
  - destruct s as [|c r]; cbn [apiSuffixHere]; [done|].
    destruct (ascii_dec c "/") as [->|_]; [|done].
    intros H. apply orb_true_iff in H as [H|H].
    + destruct (dropPrefixCI "oslc" r) as [tail|] eqn:E; [|done].
      apply dropPrefixCI_spec in E as (w & -> & Hw).
      apply subPathToEnd_spec in H.
      apply (ApiSuffix_intro w tail); [by left|done].
    + destruct (dropPrefixCI "api" r) as [tail|] eqn:E; [|done].
      apply dropPrefixCI_spec in E as (w & -> & Hw).
      apply subPathToEnd_spec in H.
      apply (ApiSuffix_intro w tail); [by right|done].
  - intros [w tail Hw Ht]. rewrite app_cons, app_empty_l.
    cbn [apiSuffixHere]. destruct (ascii_dec "/" "/"); [|done].
    apply subPathToEnd_spec in Ht.
    apply orb_true_iff. destruct Hw as [Hw|Hw]; [left|right].
    + assert (dropPrefixCI "oslc" (w +:+ tail) = Some tail) as ->; [|done].
      apply dropPrefixCI_spec. by exists w.
    + assert (dropPrefixCI "api" (w +:+ tail) = Some tail) as ->; [|done].
      apply dropPrefixCI_spec. by exists w.
Qed.

Lemma ApiSuffix_nonempty : ~ ApiSuffix "".
Proof. intros H. inversion H. Qed.

(** [stripApiSuffix] cuts at the leftmost match: what is cut is empty or
    matches the pattern, and every suffix that matches lies inside it. *)
Lemma stripApiSuffix_spec s :
  exists m,
    s = stripApiSuffix s +:+ m /\
    (m = "" \/ ApiSuffix m) /\
    (forall r' m', s = r' +:+ m' -> ApiSuffix m' ->
       exists x, r' = stripApiSuffix s +:+ x).
Proof.
  induction s as [|c s (m & Hs & Hm & Hleft)].
  - exists "". split; [done|]. split; [by left|].
    intros r' m' H Hm'. destruct r'; [|discriminate]. by exists "".
  - cbn [stripApiSuffix].
    destruct (apiSuffixHere (String c s)) eqn:E.
    + exists (String c s). split; [done|].
      split; [right; by apply apiSuffixHere_spec|].
      intros r' m' _ _. by exists r'.
    + exists m. split; [by rewrite app_cons, <- Hs|]. split; [done|].
      intros r' m' H Hm'. destruct r' as [|c' r'].
      * rewrite app_empty_l in H. subst m'.
        apply apiSuffixHere_spec in Hm'. congruence.
      * rewrite app_cons in H. injection H as <- ->.
        destruct (Hleft r' m' eq_refl Hm') as (x & Hx).
        exists x. by rewrite app_cons, <- Hx.
Qed.

(** The effect of [callMaximoWith] on the requests handed to [fetch],
    once the base URL and the key are configured. *)
Lemma callMaximoWith_fetches rt (secrets : gmap string string) path method body w :
  let base := JS.orElse (secrets !! "maximoUrl") (secrets !! "maximo_url") in
  let apiKey := JS.orElse (secrets !! "maximoApiKey") (secrets !! "maximo_apikey") in
  JS.truthyStr base = true -> JS.truthyStr apiKey = true ->
  fetched (callMaximoWith rt secrets path method body w).2 =
    (fetched w ++
     [maximoRequest (default "" base) (default "" apiKey) path method body])%list.
Proof.
  intros base apiKey Hb Hk. unfold callMaximoWith. fold base apiKey.
  rewrite Hb, Hk. cbn [negb].
  unfold mbind, M_bind, bind, now, doFetch, addTrace, mret, M_ret, ret, throw.
  cbn [fetched store tick fst snd].
  destruct (fetch rt _ _) as [resp|msg]; cbn [fetched store tick fst snd]; [|done].
  destruct (TraceStore.addTrace _ _ _) as [s' [e|]]; cbn [fetched store tick fst snd];
    [done|].
  destruct (negb (Net.ok resp)); done.
Qed.

(** C8. The base URL used is the configured one after two cuts: one
    trailing slash, then the leftmost suffix made of a slash, [oslc] or
    [api] in any case and an optional sub-path (the cut is empty when no
    suffix has that shape). The request URL is that root, one slash, and
    the caller's path without the slash it may start with. A missing
    base URL or API key throws the configuration error and leaves the
    world, so the list of network calls too, as it was. *)
Theorem callMaximoWith_root_and_path (rt : Runtime) (secrets : gmap string string)
    (path method : string) (body : option JS.Value) (w : World) :
  let base := JS.orElse (secrets !! "maximoUrl") (secrets !! "maximo_url") in
  let apiKey := JS.orElse (secrets !! "maximoApiKey") (secrets !! "maximo_apikey") in
  let run := callMaximoWith rt secrets path method body w in
  let cut1 := Chat.stripTrailingSlash (default "" base) in
  let root := normalizeBase (default "" base) in
  (JS.truthyStr base = false ->
     run = (Throw "Maximo Manage URL is not configured.", w)) /\
  (JS.truthyStr base = true -> JS.truthyStr apiKey = false ->
     run = (Throw "Maximo API key is not configured.", w)) /\
  (JS.truthyStr base = true -> JS.truthyStr apiKey = true ->
     exists rq,
       fetched run.2 = (fetched w ++ [rq])%list /\
       Net.url rq = root +:+ "/" +:+ stripLeadingSlash path /\
       Net.method rq = method /\
       Net.headers rq !! "maxauth" = apiKey /\
       Net.headers rq !! "apikey" = apiKey) /\
  (forall r, default "" base = r +:+ "/" -> cut1 = r) /\
  ((forall r, default "" base <> r +:+ "/") -> cut1 = default "" base) /\
  (exists m,
     cut1 = root +:+ m /\
     (m = "" \/ ApiSuffix m) /\
     (forall r' m', cut1 = r' +:+ m' -> ApiSuffix m' -> exists x, r' = root +:+ x)).
Proof.
  intros base apiKey run cut1 root.
  split; [|split; [|split; [|split; [|split]]]].
  - intros Hb. unfold run, callMaximoWith. fold base. by rewrite Hb.
  - intros Hb Hk. unfold run, callMaximoWith. fold base apiKey. by rewrite Hb, Hk.
  - intros Hb Hk. eexists. split; [by apply callMaximoWith_fetches|].
    cbn [maximoRequest Net.url Net.method Net.headers].
    rewrite withLeadingSlash_one_slash. fold base root.
    split; [done|]. split; [done|].
    unfold apiKey in *.
    destruct (JS.orElse (secrets !! "maximoApiKey") (secrets !! "maximo_apikey"))
      as [k|]; [|done].
    unfold authHeaders. cbn [default from_option].
    split; reflexivity.
  - intros r Hr. unfold cut1. rewrite Hr. apply stripTrailingSlash_slash.
  - intros H. by apply stripTrailingSlash_other.
  - apply stripApiSuffix_spec.
Qed.

(** The normalisation on some configured values. *)
Example normalizeBase_samples :
  normalizeBase <$> ["https://host/maximo/";
                     "https://host/maximo/oslc";
                     "https://host/maximo/API/os/mxapiwo";
                     "https://host/maximo/api/";
                     "https://api.host/maximo";
                     "https://host/maximo/apis"]
  = ["https://host/maximo";
     "https://host/maximo";
     "https://host/maximo";
     "https://host/maximo";
     "https://api.host/maximo";
     "https://host/maximo/apis"].
Proof. vm_compute. reflexivity. Qed.

End MaximoFacts.

(** ** The handlers *)

Section ServerFacts.
Import Server.
Context (rt : Runtime) (jsonCallsSend : bool).

(** An item is either the one just built or was in the store. *)
Lemma addTrace_items_incl st p s i :
  i ∈ TraceStore.items (TraceStore.addTrace st p s).1 ->
  i = TraceStore.buildItem st p \/ i ∈ TraceStore.items s.
Proof.
  unfold TraceStore.addTrace.
  destruct (negb (TraceStore.enabled s)); cbn [fst]; [by right|].
  destruct (_ >? _); [destruct (_ <? _)|]; cbn [fst TraceStore.withItems TraceStore.items].
  - rewrite elem_of_cons. tauto.
  - intros H%elem_of_take. destruct H as (n & H & _).
    apply list_elem_of_lookup_2 in H. by apply elem_of_cons in H.
  - rewrite elem_of_cons. tauto.
Qed.

Lemma traced_run info started c v w :
  (traced rt info started c v w).1 = Return tt /\
  fetched (traced rt info started c v w).2 = fetched w /\
  (forall i, i ∈ TraceStore.items (store (traced rt info started c v w).2) ->
             i ∈ TraceStore.items (store w) \/ RestItem info c i).
Proof.
  unfold traced, mbind, M_bind, bind, now, tryCatch, addTrace, mret, M_ret, ret.
  cbn [fetched store tick fst snd].
  destruct (TraceStore.addTrace _ _ (store w)) as [s' e] eqn:E.
  assert (Hs : s' = (TraceStore.addTrace
                       {| TraceStore.makeId := makeId rt (S (tick w));
                          TraceStore.nowISO := toISOString rt (S (tick w)) |}
                       (restTrace info c (dateNow rt (tick w) - started) v) (store w)).1)
    by (by rewrite E).
  destruct e; cbn [fetched store tick fst snd]; (split; [done|split; [done|]]);
    intros i Hi; rewrite Hs in Hi; apply addTrace_items_incl in Hi as [->|Hi];
    try (by left); right; repeat split.
Qed.

Lemma resJson_run info started c body w :
  (resJson rt jsonCallsSend info started c body w).1
    = Return {| code := c; payload := body |} /\
  fetched (resJson rt jsonCallsSend info started c body w).2 = fetched w /\
  (forall i,
     i ∈ TraceStore.items (store (resJson rt jsonCallsSend info started c body w).2) ->
     i ∈ TraceStore.items (store w) \/ RestItem info c i).
Proof.
  unfold resJson, mbind, M_bind, bind.
  destruct (traced_run info started c body w) as (H1 & F1 & I1).
  destruct (traced rt info started c body w) as [o1 w1]. cbn [fst snd] in *. subst o1.
  destruct jsonCallsSend.
  - destruct (traced_run info started c (JS.VStr (JSON_stringify rt body)) w1)
      as (H2 & F2 & I2).
    destruct (traced rt info started c _ w1) as [o2 w2]. cbn [fst snd] in *. subst o2.
    cbn [mret M_ret ret fst snd]. split; [done|]. split; [congruence|].
    intros i Hi. destruct (I2 i Hi) as [Hi'|?]; [|by right]. by apply I1.
  - cbn [mret M_ret ret fst snd]. split; [done|]. split; [done|]. exact I1.
Qed.

(** [res.json] does not throw. *)
Lemma resJson_eq info started c body w :
  resJson rt jsonCallsSend info started c body w
  = (Return {| code := c; payload := body |},
     (resJson rt jsonCallsSend info started c body w).2).
Proof.
  destruct (resJson_run info started c body w) as (R & _).
  destruct (resJson rt jsonCallsSend info started c body w) as [o w'].
  cbn [fst snd] in *. by subst.
Qed.

(** On an enabled store that keeps at least one item, the middleware's
    item is the newest one afterwards. *)
Lemma addTrace_head st p s :
  TraceStore.enabled s = true -> 1 <= TraceStore.maxItems s ->
  head (TraceStore.items (TraceStore.addTrace st p s).1) = Some (TraceStore.buildItem st p).
Proof.
  intros He Hm. destruct (addTrace_items st p s He) as [-> _]; [lia|].
  destruct (Z.to_nat (TraceStore.maxItems s)) eqn:E; [lia|done].
Qed.

Lemma traced_head info started c v w :
  TraceStore.enabled (store w) = true -> 1 <= TraceStore.maxItems (store w) ->
  TraceStore.enabled (store (traced rt info started c v w).2) = true /\
  TraceStore.maxItems (store (traced rt info started c v w).2)
    = TraceStore.maxItems (store w) /\
  exists i, head (TraceStore.items (store (traced rt info started c v w).2)) = Some i
            /\ RestItem info c i.
Proof.
  intros He Hm.
  unfold traced, mbind, M_bind, bind, now, tryCatch, addTrace, mret, M_ret, ret.
  cbn [fetched store tick fst snd].
  destruct (TraceStore.addTrace _ _ (store w)) as [s' e] eqn:E.
  assert (Hs : s' = (TraceStore.addTrace
                       {| TraceStore.makeId := makeId rt (S (tick w));
                          TraceStore.nowISO := toISOString rt (S (tick w)) |}
                       (restTrace info c (dateNow rt (tick w) - started) v) (store w)).1)
    by (by rewrite E).
  assert (H : TraceStore.enabled s' = true /\
              TraceStore.maxItems s' = TraceStore.maxItems (store w) /\
              exists i, head (TraceStore.items s') = Some i /\ RestItem info c i).
  { rewrite Hs, addTrace_enabled, addTrace_maxItems. split; [done|]. split; [done|].
    eexists. split; [by apply addTrace_head|]. repeat split. }
  destruct e; cbn [fetched store tick fst snd]; exact H.
Qed.

Lemma resJson_head info started c body w :
  TraceStore.enabled (store w) = true -> 1 <= TraceStore.maxItems (store w) ->
  exists i,
    head (TraceStore.items (store (resJson rt jsonCallsSend info started c body w).2))
      = Some i /\ RestItem info c i.
Proof.
  intros He Hm. unfold resJson, mbind, M_bind, bind.
  destruct (traced_head info started c body w He Hm) as (He1 & Hm1 & H1).
  destruct (traced_run info started c body w) as (R1 & _ & _).
  destruct (traced rt info started c body w) as [o1 w1]. cbn [fst snd] in *. subst o1.
  destruct jsonCallsSend.
  - rewrite <- Hm1 in Hm.
    destruct (traced_head info started c (JS.VStr (JSON_stringify rt body)) w1 He1 Hm)
      as (_ & _ & H2).
    destruct (traced_run info started c (JS.VStr (JSON_stringify rt body)) w1)
      as (R2 & _ & _).
    destruct (traced rt info started c _ w1) as [o2 w2]. cbn [fst snd] in *. subst o2.
    exact H2.
  - exact H1.
Qed.

(** A chat call without an API key throws before anything else. *)
Lemma chatCompletionWith_no_key args w :
  JS.truthyStr (Chat.apiKey args) = false ->
  Chat.chatCompletionWith rt args w = (Throw "AI API key is not configured.", w).
Proof. intros H. unfold Chat.chatCompletionWith. by rewrite H. Qed.

End ServerFacts.

(** C2, as the code has it. A chat call whose API key is absent throws
    the configuration error and leaves the world as it was: no network
    call, no trace item. POST /api/chat in AI mode with no key resolved
    for the requested provider answers 400 with that error, which
    mentions the API key, and makes no network call. It records no item
    of kind ai; every item it records is written by the request-tracing
    middleware for the 400 response, of kind rest with [status] 400, and
    on an enabled store that keeps at least one item such an item is the
    newest afterwards. *)
Theorem postChat_missing_key (rt : Runtime) (jsonCallsSend : bool)
    (cfg : gmap string string) (info : Server.ReqInfo) (b : Server.ChatBody)
    (w : World) :
  String.eqb (JS.toLowerCase (Server.mode b)) "maximo" = false ->
  JS.truthyStr
    (Providers.apiKey
       (Providers.resolveProviderAuth (Server.mergeSecrets cfg (Server.settings b))
          (JS.toLowerCase
             (default "" (JS.orElse (Server.provider b)
                            (Some (Providers.getSelectedProvider cfg))))))) = false ->
  let run := Server.postChat rt jsonCallsSend cfg info b w in
  (forall args w0, JS.truthyStr (Chat.apiKey args) = false ->
     Chat.chatCompletionWith rt args w0 = (Throw "AI API key is not configured.", w0)) /\
  run.1 = Return {| Server.code := 400;
                    Server.payload := Server.errorBody "AI API key is not configured." |} /\
  JS.includes "API key" "AI API key is not configured." = true /\
  fetched run.2 = fetched w /\
  (forall i, i ∈ TraceStore.items (store run.2) ->
     i ∈ TraceStore.items (store w) \/ RestItem info 400 i) /\
  (forall i, i ∈ TraceStore.items (store run.2) ->
     TraceStore.kind i = TraceStore.ai -> i ∈ TraceStore.items (store w)) /\
  (TraceStore.enabled (store w) = true -> 1 <= TraceStore.maxItems (store w) ->
   exists i, head (TraceStore.items (store run.2)) = Some i /\ RestItem info 400 i).
Proof.
  intros Hmode Hkey run.
  split; [intros; by apply chatCompletionWith_no_key|].
  assert (Hrun : run = Server.resJson rt jsonCallsSend info
                         (dateNow rt (tick w)) 400
                         (Server.errorBody "AI API key is not configured.")
                         {| store := store w; fetched := fetched w; tick := S (tick w) |}).
  { unfold run, Server.postChat, Server.chatBody.
    rewrite Hmode.
    unfold mbind at 1. unfold M_bind at 1. unfold bind at 1. unfold now at 1.
    unfold tryCatch. unfold mbind at 1. unfold M_bind at 1. unfold bind at 1.
    rewrite chatCompletionWith_no_key by exact Hkey. reflexivity. }
  rewrite Hrun.
  destruct (resJson_run rt jsonCallsSend info (dateNow rt (tick w)) 400
              (Server.errorBody "AI API key is not configured.")
              {| store := store w; fetched := fetched w; tick := S (tick w) |})
    as (R & F & I).
  split; [exact R|]. split; [reflexivity|]. split; [exact F|].
  split; [exact I|]. split.
  - intros i Hi Hk. destruct (I i Hi) as [?|(Hr & _)]; [done|]. congruence.
  - intros He Hm. by apply resJson_head.
Qed.

(** The request of the specification's missing-credential case. *)
Lemma postChat_missing_key_witness :
  (Server.postChat silentRuntime true ∅ chatInfo aiRequest Demo.world0).1
  = Return {| Server.code := 400;
              Server.payload := Server.errorBody "AI API key is not configured." |}.
Proof.
  exact (proj1 (proj2 (postChat_missing_key silentRuntime true ∅ chatInfo aiRequest
                         Demo.world0 eq_refl eq_refl))).
Defined.

(** C2 as stated fails in its last part: after the attempt the store
    holds an item whose [status] is set, to 400 (one item if the
    framework's [res.json] does not go through [res.send], two if it
    does). *)
Lemma postChat_missing_key_records_status :
  (fun i => (TraceStore.kind i, TraceStore.status i)) <$>
    TraceStore.items
      (store (Server.postChat silentRuntime false ∅ chatInfo aiRequest Demo.world0).2)
  = [(TraceStore.rest, Some 400)]
  /\ (fun i => (TraceStore.kind i, TraceStore.status i)) <$>
    TraceStore.items
      (store (Server.postChat silentRuntime true ∅ chatInfo aiRequest Demo.world0).2)
  = [(TraceStore.rest, Some 400); (TraceStore.rest, Some 400)].
Proof. split; vm_compute; reflexivity. Qed.

(** ** GenericProxy with the backend kind *)

Section ProxyFacts.
Import Server.
Context (rt : Runtime) (jsonCallsSend : bool).

(** A request that was prepared is handed to [fetch] once, whatever
    happens afterwards. *)
Lemma postProxy_prepared cfg info p w u h :
  prepareProxy cfg p = Return (u, h) ->
  fetched (postProxy rt jsonCallsSend cfg info p w).2
    = (fetched w ++ [proxyRequest p u h])%list.
Proof.
  intros Hp. unfold postProxy, proxyBody. rewrite Hp.
  unfold mbind, M_bind, bind, tryCatch, now, lift, doFetch, addTrace, setTraceState.
  cbn [fetched store tick fst snd].
  destruct (fetch rt _ _) as [resp|msg]; cbn [fetched store tick fst snd].
  - destruct (TraceStore.addTrace _ _ _) as [s' [e|]]; cbn [fetched store tick fst snd].
    + by rewrite (proj1 (proj2 (resJson_run rt jsonCallsSend _ _ _ _ _))).
    + rewrite resJson_eq. cbn [fetched store tick fst snd].
      by rewrite (proj1 (proj2 (resJson_run rt jsonCallsSend _ _ _ _ _))).
  - by rewrite (proj1 (proj2 (resJson_run rt jsonCallsSend _ _ _ _ _))).
Qed.

(** A request that was refused is answered 400 without a network call. *)
Lemma postProxy_refused cfg info p w msg :
  prepareProxy cfg p = Throw msg ->
  (postProxy rt jsonCallsSend cfg info p w).1
    = Return {| code := 400; payload := errorBody (errText msg) |} /\
  fetched (postProxy rt jsonCallsSend cfg info p w).2 = fetched w.
Proof.
  intros Hp. unfold postProxy, proxyBody. rewrite Hp.
  unfold mbind, M_bind, bind, tryCatch, now, lift.
  cbn [fetched store tick fst snd].
  rewrite resJson_eq. cbn [fst snd]. split; [done|].
  by rewrite (proj1 (proj2 (resJson_run rt jsonCallsSend _ _ _ _ _))).
Qed.

End ProxyFacts.

(** POST /api/proxy with the backend kind ("maximo"), base URL and
    key configured: a URL that begins with a slash is put after the
    normalised base; when the resulting URL does not begin with the
    normalised base the answer is 400 with the containment error and no
    request reaches [fetch]; otherwise exactly one request is made, to
    that URL, with the configured key in the headers [maxauth] and
    [apikey]. Without base URL or key the answer is 400 too. So every
    request the handler makes begins with the normalised base. *)
Lemma postProxy_maximo_contained (rt : Runtime) (jsonCallsSend : bool)
    (cfg : gmap string string) (info : Server.ReqInfo) (p : Server.ProxyBody)
    (w : World) :
  Server.kind p = "maximo" ->
  let base0 := cfg !! "maximoUrl" in
  let apiKey := cfg !! "maximoApiKey" in
  let base := Maximo.normalizeBase (default "" base0) in
  let target := if JS.startsWith "/" (Server.url p)
                then Chat.stripTrailingSlash base +:+ Server.url p
                else Server.url p in
  let run := Server.postProxy rt jsonCallsSend cfg info p w in
  let refused msg :=
    run.1 = Return {| Server.code := 400; Server.payload := Server.errorBody msg |}
    /\ fetched run.2 = fetched w in
  (JS.truthyStr base0 = false -> refused "Maximo Manage URL is not configured.") /\
  (JS.truthyStr base0 = true -> JS.truthyStr apiKey = false ->
     refused "Maximo API key is not configured.") /\
  (JS.truthyStr base0 = true -> JS.truthyStr apiKey = true ->
   JS.startsWith base target = false ->
     refused "Maximo proxy URL must be relative or within the configured Maximo base URL.") /\
  (JS.truthyStr base0 = true -> JS.truthyStr apiKey = true ->
   JS.startsWith base target = true ->
     exists rq,
       fetched run.2 = (fetched w ++ [rq])%list /\
       Net.url rq = target /\
       Net.method rq = JS.toUpperCase (Server.method p) /\
       Net.headers rq !! "maxauth" = apiKey /\
       Net.headers rq !! "apikey" = apiKey) /\
  (forall rq, rq ∈ fetched run.2 ->
     rq ∈ fetched w \/
     (JS.startsWith base (Net.url rq) = true /\
      Net.headers rq !! "maxauth" = apiKey /\
      Net.headers rq !! "apikey" = apiKey)).
Proof.
  intros Hk base0 apiKey base target run refused.
  assert (Hprep : Server.prepareProxy cfg p =
            if negb (JS.truthyStr base0) then Throw "Maximo Manage URL is not configured."
            else if negb (JS.truthyStr apiKey) then Throw "Maximo API key is not configured."
            else if negb (JS.startsWith base target)
            then Throw "Maximo proxy URL must be relative or within the configured Maximo base URL."
            else Return (target,
                         <["apikey" := default "" apiKey]>
                           (<["maxauth" := default "" apiKey]>
                              (Server.withContentType (Server.headers p))))).
  { unfold Server.prepareProxy. rewrite Hk. reflexivity. }
  assert (Hhead : JS.truthyStr apiKey = true ->
            (<["apikey" := default "" apiKey]>
               (<["maxauth" := default "" apiKey]>
                  (Server.withContentType (Server.headers p)))) !! "maxauth" = apiKey /\
            (<["apikey" := default "" apiKey]>
               (<["maxauth" := default "" apiKey]>
                  (Server.withContentType (Server.headers p)))) !! "apikey" = apiKey).
  { destruct apiKey as [k|]; [|done]. intros _. cbn [default from_option Datatypes.id].
    split.
    - rewrite lookup_insert_ne by done. apply lookup_insert_eq.
    - apply lookup_insert_eq. }
  split; [|split; [|split; [|split]]].
  - intros Hb. rewrite Hb in Hprep.
    apply (postProxy_refused rt jsonCallsSend cfg info p w _ Hprep).
  - intros Hb Ha. rewrite Hb, Ha in Hprep.
    apply (postProxy_refused rt jsonCallsSend cfg info p w _ Hprep).
  - intros Hb Ha Hs. rewrite Hb, Ha, Hs in Hprep.
    apply (postProxy_refused rt jsonCallsSend cfg info p w _ Hprep).
  - intros Hb Ha Hs. rewrite Hb, Ha, Hs in Hprep. cbn [negb] in Hprep.
    eexists. split; [apply (postProxy_prepared rt jsonCallsSend cfg info p w _ _ Hprep)|].
    cbn [proxyRequest Net.url Net.method Net.headers].
    split; [done|]. split; [done|]. by apply Hhead.
  - intros rq Hrq.
    destruct (JS.truthyStr base0) eqn:Hb; cbn [negb] in Hprep;
      [|left; by rewrite <- (proj2 (postProxy_refused rt jsonCallsSend cfg info p w _ Hprep))].
    destruct (JS.truthyStr apiKey) eqn:Ha; cbn [negb] in Hprep;
      [|left; by rewrite <- (proj2 (postProxy_refused rt jsonCallsSend cfg info p w _ Hprep))].
    destruct (JS.startsWith base target) eqn:Hs; cbn [negb] in Hprep;
      [|left; by rewrite <- (proj2 (postProxy_refused rt jsonCallsSend cfg info p w _ Hprep))].
    unfold run in Hrq.
    rewrite (postProxy_prepared rt jsonCallsSend cfg info p w _ _ Hprep) in Hrq.
    apply elem_of_app in Hrq as [?|Hrq]; [by left|right].
    apply list_elem_of_singleton in Hrq as ->.
    cbn [proxyRequest Net.url Net.headers]. split; [done|]. by apply Hhead.
Qed.

(** A URL outside the configured base is refused and nothing is
    fetched. *)
Lemma postProxy_maximo_contained_witness :
  (Server.postProxy silentRuntime true backendSecrets proxyInfo
     (proxyTo "https://elsewhere.example/x") Demo.world0).1
  = Return {| Server.code := 400;
              Server.payload := Server.errorBody
                "Maximo proxy URL must be relative or within the configured Maximo base URL." |}
  /\ fetched (Server.postProxy silentRuntime true backendSecrets proxyInfo
                (proxyTo "https://elsewhere.example/x") Demo.world0).2 = [].
Proof.
  pose proof (postProxy_maximo_contained silentRuntime true backendSecrets proxyInfo
                (proxyTo "https://elsewhere.example/x") Demo.world0 eq_refl) as H.
  cbv zeta in H. destruct H as (_ & _ & H & _).
  exact (H eq_refl eq_refl eq_refl).
Defined.

(** C7 on the code. The handler tests containment on the text of the
    URL: [url.startsWith(base)]. With the backend configured as
    [https://host/api], whose normalised base is [https://host], the
    URL [https://host.evil.example/steal] names another host and still
    begins with that text, so the handler does not answer 400: it
    forwards the request there, with the configured key in [maxauth]
    and [apikey]. The same holds for every configuration: a URL that
    continues the text of the normalised base, with whatever
    characters, is forwarded with the key. *)
Theorem postProxy_maximo_forwards_other_host :
  let target := "https://host.evil.example/steal" in
  let run := Server.postProxy silentRuntime true hostSecrets proxyInfo
               (proxyTo target) Demo.world0 in
  Maximo.normalizeBase "https://host/api" = "https://host" /\
  authority "https://host" = "host" /\
  authority target = "host.evil.example" /\
  run.1 = Return {| Server.code := 200;
                    Server.payload :=
                      JS.VObj [("status", JS.VNum (200 # 1)); ("data", JS.VStr "{}")] |} /\
  ((fun rq => (Net.method rq, Net.url rq, Net.headers rq !! "maxauth",
               Net.headers rq !! "apikey")) <$> fetched run.2)
    = [("GET", target, Some "k-demo", Some "k-demo")] /\
  (forall (rt : Runtime) (jsonCallsSend : bool) (cfg : gmap string string)
          (info : Server.ReqInfo) (p : Server.ProxyBody) (w : World)
          (base key rest : string),
     Server.kind p = "maximo" ->
     cfg !! "maximoUrl" = Some base -> base <> "" ->
     cfg !! "maximoApiKey" = Some key -> key <> "" ->
     Server.url p = Maximo.normalizeBase base +:+ rest ->
     JS.startsWith "/" (Server.url p) = false ->
     exists rq,
       fetched (Server.postProxy rt jsonCallsSend cfg info p w).2
         = (fetched w ++ [rq])%list /\
       Net.url rq = Maximo.normalizeBase base +:+ rest /\
       Net.headers rq !! "maxauth" = Some key /\
       Net.headers rq !! "apikey" = Some key).
Proof.
  cbv zeta.
  split; [vm_compute; reflexivity|]. split; [vm_compute; reflexivity|].
  split; [vm_compute; reflexivity|]. split; [vm_compute; reflexivity|].
  split; [vm_compute; reflexivity|].
  intros rt jsonCallsSend cfg info p w base key rest Hk Hb Hbne Ha Hane Hu Hs.
  assert (Hprep : Server.prepareProxy cfg p =
            Return (Maximo.normalizeBase base +:+ rest,
                    <["apikey" := key]>
                      (<["maxauth" := key]> (Server.withContentType (Server.headers p))))).
  { unfold Server.prepareProxy. rewrite Hk, Hb, Ha, Hs.
    change (String.eqb "maximo" "maximo") with true. cbv iota.
    destruct base as [|c0 b0]; [done|]. destruct key as [|c1 k1]; [done|].
    cbn [JS.truthyStr JS.nonEmpty negb default from_option Datatypes.id].
    by rewrite Hu, startsWith_append. }
  eexists. split; [apply (postProxy_prepared rt jsonCallsSend cfg info p w _ _ Hprep)|].
  cbn [proxyRequest Net.url Net.headers]. split; [done|]. split.
  - rewrite lookup_insert_ne by done. apply lookup_insert_eq.
  - apply lookup_insert_eq.
Qed.

(** A relative URL is resolved against the normalised base and
    forwarded with the key. *)
Example postProxy_relative_url :
  (fun rq => (Net.method rq, Net.url rq, Net.headers rq !! "maxauth",
              Net.headers rq !! "apikey")) <$>
    fetched (Server.postProxy silentRuntime true backendSecrets proxyInfo
               (proxyTo "/api/os/mxapiwo") Demo.world0).2
  = [("GET", "https://host/maximo/api/os/mxapiwo", Some "k-demo", Some "k-demo")].
Proof. vm_compute. reflexivity. Qed.

(** ** The chat gateway's effects *)

Section ChatFacts.
Context (rt : Runtime).

Ltac kept_or_ai Hincl :=
  let i := fresh "i" in
  let Hi := fresh "Hi" in
  intros i Hi; destruct (Hincl i Hi) as [->|?]; [by right|by left].

Ltac chat_protocol :=
  let Hincl := fresh "Hincl" in
  unfold mbind, M_bind, bind, now, doFetch, addTrace, mret, M_ret, ret, throw;
  cbn [fetched store tick fst snd];
  match goal with
  | |- context [fetch rt ?l ?rq] =>
      destruct (fetch rt l rq); cbn [fetched store tick fst snd]
  end;
  [ match goal with
    | |- context [TraceStore.addTrace ?st ?p ?s] =>
        pose proof (addTrace_items_incl st p s) as Hincl;
        destruct (TraceStore.addTrace st p s) as [? [?|]];
        cbn [fetched store tick fst snd] in *
    end;
    repeat match goal with
      | |- context [if ?c then _ else _] => destruct c
      | |- context [match ?c with _ => _ end] => destruct c
      end;
    cbn [fetched store tick fst snd];
    (split; [right; eexists; split; reflexivity|]);
    kept_or_ai Hincl
  | split; [right; eexists; split; reflexivity|]; intros ? ?; by left ].

Lemma chatCompletionWith_effect args w :
  ChatEffect w (Chat.chatCompletionWith rt args w).2.
Proof.
  unfold Chat.chatCompletionWith.
  destruct (negb (JS.truthyStr (Chat.apiKey args))).
  { split; [by left|]. intros i Hi. by left. }
  destruct (Providers.isOpenAICompatible (Chat.provider args)).
  { unfold Chat.chatOpenAI. chat_protocol. }
  destruct (String.eqb (Chat.provider args) "anthropic").
  { unfold Chat.chatAnthropic. chat_protocol. }
  destruct (String.eqb (Chat.provider args) "gemini").
  { unfold Chat.chatGemini. chat_protocol. }
  split; [by left|]. intros i Hi. by left.
Qed.

End ChatFacts.

(** ** Strings: trimming and the payload bound *)

Section StringFacts.

Lemma rev_app_acc s : forall acc,
  String.rev_app s acc = String.rev_app s "" +:+ acc.
Proof.
  induction s as [|a s IH]; intros acc; [done|].
  cbn [String.rev_app]. rewrite (IH (String a acc)), (IH (String a "")).
  by rewrite app_assoc'.
Qed.

Lemma rev_cons a s : String.rev (String a s) = String.rev s +:+ String a "".
Proof. unfold String.rev. cbn [String.rev_app]. apply rev_app_acc. Qed.

Lemma rev_app_snoc x a : forall acc,
  String.rev_app (x +:+ String a "") acc = String a (String.rev_app x acc).
Proof.
  induction x as [|c x IH]; intros acc; [done|].
  rewrite app_cons. cbn [String.rev_app]. apply IH.
Qed.

Lemma rev_snoc x a : String.rev (x +:+ String a "") = String a (String.rev x).
Proof. apply rev_app_snoc. Qed.

Lemma trimStart_snoc x a :
  JS.isWhite a = false ->
  exists y, JS.trimStart (x +:+ String a "") = y +:+ String a "".
Proof.
  intros Ha. induction x as [|c x [y IH]].
  - exists "". rewrite app_empty_l. cbn [JS.trimStart]. by rewrite Ha.
  - rewrite app_cons. cbn [JS.trimStart]. destruct (JS.isWhite c).
    + by exists y.
    + exists (String c x). by rewrite app_cons.
Qed.

(** Trimming keeps a leading slash. *)
Lemma trim_keeps_slash text :
  JS.startsWith "/" text = true -> JS.startsWith "/" (JS.trim text) = true.
Proof.
  destruct text as [|c r]; [done|]. cbn [JS.startsWith].
  destruct (ascii_dec "/" c) as [<-|]; [|done]. intros _.
  unfold JS.trim, JS.trimEnd.
  assert (JS.trimStart (String "/" r) = String "/" r) as -> by reflexivity.
  rewrite rev_cons.
  destruct (trimStart_snoc (String.rev r) "/" eq_refl) as [y ->].
  rewrite rev_snoc. cbn [JS.startsWith]. by destruct (ascii_dec "/" "/").
Qed.

Lemma length_app (a b : string) :
  String.length (a +:+ b) = (String.length a + String.length b)%nat.
Proof.
  induction a as [|c a IH]; [done|]. rewrite app_cons. cbn [String.length]. by rewrite IH.
Qed.

Lemma slice0_prefix s : forall n, exists rest, s = JS.slice0 n s +:+ rest.
Proof.
  induction s as [|c s IH]; intros n; [by exists ""|].
  cbn [JS.slice0]. destruct (n =? 0)%N.
  - by exists (String c s).
  - destruct (IH (N.pred n)) as [rest Hr]. exists rest. by rewrite app_cons, <- Hr.
Qed.

Lemma slice0_length s : forall n,
  String.length (JS.slice0 n s) = Nat.min (N.to_nat n) (String.length s).
Proof.
  induction s as [|c s IH]; intros n; cbn [JS.slice0 String.length]; [lia|].
  destruct (N.eqb_spec n 0) as [->|Hn]; [done|].
  cbn [String.length]. rewrite IH. lia.
Qed.

(** The payload bound: a serialisation of at most 120,000 characters is
    sent as it is; a longer one is cut to its first 120,000 characters
    and the marker is put after them, 120,013 characters in all. *)
Lemma boundPayload_spec s :
  (JS.len s <= 120000 -> Server.boundPayload s = s) /\
  (120000 < JS.len s ->
     exists kept rest,
       s = kept +:+ rest /\ JS.len kept = 120000 /\
       Server.boundPayload s = kept +:+ Server.TRUNCATED) /\
  JS.len (Server.boundPayload s) <= 120013.
Proof.
  unfold Server.boundPayload, JS.len.
  destruct (Z.gtb_spec (Z.of_nat (String.length s)) 120000) as [Hgt|Hle].
  - split; [lia|]. split.
    + intros _. destruct (slice0_prefix s 120000) as [rest Hr].
      exists (JS.slice0 120000 s), rest. split; [done|]. split; [|done].
      rewrite slice0_length. lia.
    + rewrite length_app, slice0_length.
      change (String.length Server.TRUNCATED) with 13%nat. lia.
  - split; [done|]. split; [lia|lia].
Qed.

End StringFacts.

(** ** ChatRouter in backend-query mode *)

Section ChatHandlerFacts.
Import Server.
Context (rt : Runtime) (jsonCallsSend : bool).

(** The shape every branch of the handlers has: a step, then the JSON
    answer; an exception of the step is answered 400. *)
Lemma answer_run {A} (m : M A) (f : A -> JS.Value) (c : Z) info started w :
  let r := tryCatch (x ← m; resJson rt jsonCallsSend info started c (f x))
             (fun msg => resJson rt jsonCallsSend info started 400
                           (errorBody (errText msg))) w in
  fetched r.2 = fetched (m w).2 /\
  r.1 = match (m w).1 with
        | Return a => Return {| code := c; payload := f a |}
        | Throw msg => Return {| code := 400; payload := errorBody (errText msg) |}
        end /\
  (forall i, i ∈ TraceStore.items (store r.2) ->
     i ∈ TraceStore.items (store (m w).2) \/ TraceStore.kind i = TraceStore.rest).
Proof.
  unfold tryCatch, mbind, M_bind, bind.
  destruct (m w) as [[a|msg] w1]; cbn [fst snd].
  - rewrite resJson_eq. cbn [fst snd].
    destruct (resJson_run rt jsonCallsSend info started c (f a) w1) as (_ & F & I).
    split; [done|]. split; [done|].
    intros i Hi. destruct (I i Hi) as [?|(? & _)]; [by left|by right].
  - rewrite resJson_eq. cbn [fst snd].
    destruct (resJson_run rt jsonCallsSend info started 400 (errorBody (errText msg)) w1)
      as (_ & F & I).
    split; [done|]. split; [done|].
    intros i Hi. destruct (I i Hi) as [?|(? & _)]; [by left|by right].
Qed.

(** A literal path: the handler is the direct call and its answer. *)
Lemma postChat_direct cfg info b w :
  String.eqb (JS.toLowerCase (mode b)) "maximo" = true ->
  JS.startsWith "/" (JS.trim (text b)) = true ->
  postChat rt jsonCallsSend cfg info b w =
    tryCatch
      (data ← Maximo.callMaximoWith rt (mergeSecrets cfg (settings b))
                (JS.trim (text b)) "GET" None;
       resJson rt jsonCallsSend info (dateNow rt (tick w)) 200
         (JS.VObj [("reply", JS.VStr (JSON_stringify2 rt data)); ("maximo", data)]))
      (fun msg => resJson rt jsonCallsSend info (dateNow rt (tick w)) 400
                    (errorBody (errText msg)))
      (afterClock w).
Proof.
  intros Hm Hs. unfold postChat, chatBody. rewrite Hm, Hs. reflexivity.
Qed.

(** A keyword query: the handler is the call for the classified query
    and its answer. *)
Lemma postChat_query cfg info b w :
  String.eqb (JS.toLowerCase (mode b)) "maximo" = true ->
  JS.startsWith "/" (JS.trim (text b)) = false ->
  isSummarize (JS.toLowerCase (JS.trim (text b))) = false ->
  let cls := classify (JS.trim (maximoOS b)) (JS.toLowerCase (JS.trim (text b))) in
  let fq := withDefaultSelect cls in
  postChat rt jsonCallsSend cfg info b w =
    tryCatch
      (data ← Maximo.callMaximoWith rt (mergeSecrets cfg (settings b))
                (queryPath rt fq) "GET" None;
       resJson rt jsonCallsSend info (dateNow rt (tick w)) 200
         (JS.VObj [("reply", JS.VStr (JSON_stringify2 rt data)); ("maximo", data);
                   ("request", queryValue cls (defaultSelect cls))]))
      (fun msg => resJson rt jsonCallsSend info (dateNow rt (tick w)) 400
                    (errorBody (errText msg)))
      (afterClock w).
Proof.
  intros Hm Hs Hz cls fq. unfold postChat, chatBody. rewrite Hm, Hs, Hz. reflexivity.
Qed.

Lemma listTraces_one k s :
  head (TraceStore.listTraces (Some k) (Some 1) s)
  = head (filter (fun i => TraceStore.kind i = k) (TraceStore.items s)).
Proof.
  unfold TraceStore.listTraces. cbn [default from_option Datatypes.id].
  destruct (Z.to_nat (Z.max 1 (Z.min 1 (TraceStore.maxItems s)))) eqn:E; [lia|].
  by destruct (filter _ _).
Qed.

(** The summarize intent without a usable last result. *)
Lemma postChat_summarize_nothing cfg info b w :
  String.eqb (JS.toLowerCase (mode b)) "maximo" = true ->
  JS.startsWith "/" (JS.trim (text b)) = false ->
  isSummarize (JS.toLowerCase (JS.trim (text b))) = true ->
  Json.truthyOpt (lastMaximo (store w) ≫= TraceStore.response) = false ->
  postChat rt jsonCallsSend cfg info b w =
    resJson rt jsonCallsSend info (dateNow rt (tick w)) 400
      (errorBody "No previous Maximo results found to summarize (Trace is empty).")
      (afterClock w).
Proof.
  intros Hm Hs Hz Hl. unfold postChat, chatBody. rewrite Hm, Hs, Hz.
  unfold mbind at 1. unfold M_bind at 1. unfold bind at 1. unfold now at 1.
  unfold tryCatch. unfold mbind at 1. unfold M_bind at 1. unfold bind at 1.
  unfold listTraces at 1. fold (afterClock w).
  rewrite !listTraces_one. change (store (afterClock w)) with (store w).
  fold (lastMaximo (store w)). rewrite Hl. cbn [negb].
  generalize (resJson_eq rt jsonCallsSend info (dateNow rt (tick w)) 400
    (errorBody "No previous Maximo results found to summarize (Trace is empty).")
    (afterClock w)).
  destruct (resJson rt jsonCallsSend info (dateNow rt (tick w)) 400 _ (afterClock w))
    as [o w'].
  cbn [snd]. by intros [= ->].
Qed.

(** The summarize intent with a last result: the handler is the chat
    call on the summary arguments and its answer. *)
Lemma postChat_summarize cfg info b w last lr :
  String.eqb (JS.toLowerCase (mode b)) "maximo" = true ->
  JS.startsWith "/" (JS.trim (text b)) = false ->
  isSummarize (JS.toLowerCase (JS.trim (text b))) = true ->
  lastMaximo (store w) = Some last ->
  TraceStore.response last = Some lr ->
  JS.truthy lr = true ->
  let provider := JS.toLowerCase
        (default "" (JS.orElse (provider b)
                       (Some (Providers.getSelectedProvider cfg)))) in
  postChat rt jsonCallsSend cfg info b w =
    tryCatch
      (out ← Chat.chatCompletionWith rt
               (summaryArgs rt (mergeSecrets cfg (settings b)) b provider lr);
       resJson rt jsonCallsSend info (dateNow rt (tick w)) 200
         (JS.VObj
            [("reply", Chat.content out); ("maximo", lr);
             ("request", JS.VObj
                ([("summaryOf", JS.VStr "last-maximo")]
                 ++ match Json.orElse (Json.get "os" (TraceStore.request last)) None with
                    | Some v => [("os", v)]
                    | None => []
                    end))]))
      (fun msg => resJson rt jsonCallsSend info (dateNow rt (tick w)) 400
                    (errorBody (errText msg)))
      (afterClock w).
Proof.
  intros Hm Hs Hz Hl Hr Ht provider. unfold postChat, chatBody. rewrite Hm, Hs, Hz.
  unfold mbind at 1. unfold M_bind at 1. unfold bind at 1. unfold now at 1.
  unfold tryCatch. unfold mbind at 1. unfold M_bind at 1. unfold bind at 1.
  unfold listTraces at 1. fold (afterClock w).
  rewrite !listTraces_one. change (store (afterClock w)) with (store w).
  fold (lastMaximo (store w)). rewrite Hl. cbn [mbind option_bind].
  rewrite Hr. cbn [Json.truthyOpt]. rewrite Ht. cbn [negb default from_option Datatypes.id].
  reflexivity.
Qed.

End ChatHandlerFacts.

(** C5. The keyword rules on the two inputs of the specification: the
    corrective one gives the work-order object structure, the filter
    with CORRECTIVE and page size 100; the locations one gives the
    location object structure with no filter. The rules read the
    lower-cased trimmed input only, so two inputs with the same
    lower-cased form give the same backend call. An input that begins
    with a slash is not classified: whatever object structure the UI
    names, the handler makes the backend call for that path itself. *)
Theorem query_heuristics (rt : Runtime) (jsonCallsSend : bool)
    (cfg : gmap string string) (info : Server.ReqInfo) (b : Server.ChatBody)
    (w : World) :
  let merged := Server.mergeSecrets cfg (Server.settings b) in
  let base := JS.orElse (merged !! "maximoUrl") (merged !! "maximo_url") in
  let apiKey := JS.orElse (merged !! "maximoApiKey") (merged !! "maximo_apikey") in
  let lower := JS.toLowerCase (JS.trim (Server.text b)) in
  let run := Server.postChat rt jsonCallsSend cfg info b w in
  Server.classify "" (JS.toLowerCase (JS.trim "show me all corrective work orders"))
    = {| Server.os := "mxapiwo"; Server.where_ := Server.correctiveWhere;
         Server.select := Server.woSelect; Server.pageSize := 100 |} /\
  JS.includes "CORRECTIVE" Server.correctiveWhere = true /\
  Server.withDefaultSelect
    (Server.classify "" (JS.toLowerCase (JS.trim "show me all locations")))
    = {| Server.os := "mxapilocation"; Server.where_ := "";
         Server.select := "location,description,parent,siteid,type";
         Server.pageSize := 50 |} /\
  (String.eqb (JS.toLowerCase (Server.mode b)) "maximo" = true ->
   JS.startsWith "/" (JS.trim (Server.text b)) = false ->
   Server.isSummarize lower = false ->
   JS.truthyStr base = true -> JS.truthyStr apiKey = true ->
   fetched run.2 =
     (fetched w ++
      [Maximo.maximoRequest (default "" base) (default "" apiKey)
         (Server.queryPath rt
            (Server.withDefaultSelect (Server.classify (JS.trim (Server.maximoOS b)) lower)))
         "GET" None])%list) /\
  (forall b', Server.mode b' = Server.mode b -> Server.settings b' = Server.settings b ->
     Server.maximoOS b' = Server.maximoOS b ->
     JS.toLowerCase (JS.trim (Server.text b')) = lower ->
     String.eqb (JS.toLowerCase (Server.mode b)) "maximo" = true ->
     JS.startsWith "/" (JS.trim (Server.text b)) = false ->
     JS.startsWith "/" (JS.trim (Server.text b')) = false ->
     Server.isSummarize lower = false ->
     fetched (Server.postChat rt jsonCallsSend cfg info b' w).2 = fetched run.2) /\
  (String.eqb (JS.toLowerCase (Server.mode b)) "maximo" = true ->
   JS.startsWith "/" (Server.text b) = true ->
   (forall os', Server.postChat rt jsonCallsSend cfg info (withOS os' b) w = run) /\
   (JS.truthyStr base = true -> JS.truthyStr apiKey = true ->
    fetched run.2 =
      (fetched w ++
       [Maximo.maximoRequest (default "" base) (default "" apiKey)
          (JS.trim (Server.text b)) "GET" None])%list) /\
   (JS.truthyStr base = false ->
    run.1 = Return {| Server.code := 400;
                      Server.payload :=
                        Server.errorBody "Maximo Manage URL is not configured." |}
    /\ fetched run.2 = fetched w)).
Proof.
  intros merged base apiKey lower run.
  split; [vm_compute; reflexivity|]. split; [vm_compute; reflexivity|].
  split; [vm_compute; reflexivity|].
  assert (Hq : forall b0,
    String.eqb (JS.toLowerCase (Server.mode b0)) "maximo" = true ->
    JS.startsWith "/" (JS.trim (Server.text b0)) = false ->
    Server.isSummarize (JS.toLowerCase (JS.trim (Server.text b0))) = false ->
    fetched (Server.postChat rt jsonCallsSend cfg info b0 w).2 =
    fetched (Maximo.callMaximoWith rt (Server.mergeSecrets cfg (Server.settings b0))
               (Server.queryPath rt
                  (Server.withDefaultSelect
                     (Server.classify (JS.trim (Server.maximoOS b0))
                        (JS.toLowerCase (JS.trim (Server.text b0))))))
               "GET" None (afterClock w)).2).
  { intros b0 Hm Hs Hz. rewrite (postChat_query rt jsonCallsSend cfg info b0 w Hm Hs Hz).
    cbv zeta. apply answer_run. }
  split; [|split].
  - intros Hm Hs Hz Hb Hk. unfold run. rewrite (Hq b Hm Hs Hz).
    by rewrite callMaximoWith_fetches.
  - intros b' Em Es Eo El Hm Hs Hs' Hz. unfold run.
    rewrite (Hq b Hm Hs Hz), Hq; [|by rewrite Em|done|by rewrite El].
    by rewrite Es, Eo, El.
  - intros Hm Hslash. apply trim_keeps_slash in Hslash.
    split; [|split].
    + intros os'. unfold run.
      by rewrite !(postChat_direct rt jsonCallsSend cfg info _ w) by done.
    + intros Hb Hk. unfold run.
      rewrite (postChat_direct rt jsonCallsSend cfg info b w Hm Hslash).
      rewrite (proj1 (answer_run rt jsonCallsSend _ _ _ _ _ _)).
      by rewrite callMaximoWith_fetches.
    + intros Hb. unfold run.
      rewrite (postChat_direct rt jsonCallsSend cfg info b w Hm Hslash).
      destruct (answer_run rt jsonCallsSend
                  (Maximo.callMaximoWith rt merged (JS.trim (Server.text b)) "GET" None)
                  (fun data => JS.VObj [("reply", JS.VStr (JSON_stringify2 rt data));
                                        ("maximo", data)])
                  200 info (dateNow rt (tick w)) (afterClock w)) as (F & R & _).
      cbv zeta in F, R. fold merged. rewrite F, R.
      unfold Maximo.callMaximoWith. fold base. by rewrite Hb.
Qed.

(** The corrective input through the whole handler: one backend call,
    for the work-order object structure, page size 100, with the filter. *)
Example postChat_corrective_query :
  (fun rq => (Net.method rq,
              JS.startsWith "https://host/maximo/api/os/mxapiwo?oslc.pageSize=100&"
                (Net.url rq),
              JS.includes "CORRECTIVE" (Net.url rq))) <$>
    fetched (Server.postChat silentRuntime true fullSecrets chatInfo
               (maximoRequestBody "show me all corrective work orders") Demo.world0).2
  = [("GET", true, true)].
Proof. vm_compute. reflexivity. Qed.

(** The locations input and a literal path through the whole handler:
    the URL of the one backend call each makes. *)
Example postChat_keyword_queries :
  Net.url <$> fetched (Server.postChat silentRuntime true fullSecrets chatInfo
                         (maximoRequestBody "show me all locations") Demo.world0).2
  = ["https://host/maximo/api/os/mxapilocation?oslc.pageSize=50&oslc.select=location,description,parent,siteid,type"]
  /\ Net.url <$> fetched (Server.postChat silentRuntime true fullSecrets chatInfo
                         (maximoRequestBody "/api/os/mxapiasset?lean=1") Demo.world0).2
  = ["https://host/maximo/api/os/mxapiasset?lean=1"].
Proof. split; vm_compute; reflexivity. Qed.

(** C4, as the code has it. In backend-query mode, for an input that
    does not begin with a slash once trimmed and that expresses the
    summarize intent. When the most recent backend trace entry has no
    usable response (in particular when no backend entry has one) the
    answer is 400 and nothing is fetched. Otherwise the handler calls
    the chat gateway, and nothing else: the prompt is the fixed prefix
    followed by the bounded serialisation of that response; the
    requests made are those of the chat call, at most one and a POST;
    no trace item of the backend kind is added; the answer is built
    from the chat result. The bound keeps a serialisation of at most
    120,000 characters and otherwise cuts to the first 120,000 and puts
    the marker after them. *)
Theorem summarize_last_results (rt : Runtime) (jsonCallsSend : bool)
    (cfg : gmap string string) (info : Server.ReqInfo) (b : Server.ChatBody)
    (w : World) :
  String.eqb (JS.toLowerCase (Server.mode b)) "maximo" = true ->
  JS.startsWith "/" (JS.trim (Server.text b)) = false ->
  Server.isSummarize (JS.toLowerCase (JS.trim (Server.text b))) = true ->
  let merged := Server.mergeSecrets cfg (Server.settings b) in
  let provider := JS.toLowerCase
        (default "" (JS.orElse (Server.provider b)
                       (Some (Providers.getSelectedProvider cfg)))) in
  let run := Server.postChat rt jsonCallsSend cfg info b w in
  let nothing :=
    run.1 = Return {| Server.code := 400;
                      Server.payload := Server.errorBody
                        "No previous Maximo results found to summarize (Trace is empty)." |}
    /\ fetched run.2 = fetched w in
  (Json.truthyOpt (lastMaximo (store w) ≫= TraceStore.response) = false -> nothing) /\
  ((forall i, i ∈ TraceStore.items (store w) ->
      TraceStore.kind i = TraceStore.maximo ->
      Json.truthyOpt (TraceStore.response i) = false) -> nothing) /\
  (forall last lr,
     lastMaximo (store w) = Some last ->
     TraceStore.response last = Some lr -> JS.truthy lr = true ->
     let args := Server.summaryArgs rt merged b provider lr in
     let chat := Chat.chatCompletionWith rt args (afterClock w) in
     Chat.prompt args
       = Server.summaryPrefix +:+ Server.boundPayload (JSON_stringify rt lr) /\
     fetched run.2 = fetched chat.2 /\
     (fetched run.2 = fetched w \/
      exists rq, fetched run.2 = (fetched w ++ [rq])%list /\ Net.method rq = "POST") /\
     (forall i, i ∈ TraceStore.items (store run.2) ->
        TraceStore.kind i = TraceStore.maximo -> i ∈ TraceStore.items (store w)) /\
     (forall out, chat.1 = Return out ->
        exists payload,
          run.1 = Return {| Server.code := 200; Server.payload := JS.VObj payload |} /\
          Json.assoc "reply" payload = Some (Chat.content out) /\
          Json.assoc "maximo" payload = Some lr) /\
     (forall msg, chat.1 = Throw msg ->
        run.1 = Return {| Server.code := 400;
                          Server.payload := Server.errorBody (Server.errText msg) |})) /\
  (forall s,
     (JS.len s <= 120000 -> Server.boundPayload s = s) /\
     (120000 < JS.len s ->
        exists kept rest,
          s = kept +:+ rest /\ JS.len kept = 120000 /\
          Server.boundPayload s = kept +:+ Server.TRUNCATED) /\
     JS.len (Server.boundPayload s) <= 120013).
Proof.
  intros Hm Hs Hz merged provider run nothing.
  assert (Hnothing :
            Json.truthyOpt (lastMaximo (store w) ≫= TraceStore.response) = false -> nothing).
  { intros Hl. unfold nothing, run.
    rewrite (postChat_summarize_nothing rt jsonCallsSend cfg info b w Hm Hs Hz Hl).
    destruct (resJson_run rt jsonCallsSend info (dateNow rt (tick w)) 400
                (Server.errorBody
                   "No previous Maximo results found to summarize (Trace is empty).")
                (afterClock w)) as (R & F & _).
    by rewrite R, F. }
  split; [exact Hnothing|]. split; [|split; [|apply boundPayload_spec]].
  - intros Hall. apply Hnothing. unfold lastMaximo.
    destruct (filter _ _) as [|i l] eqn:E; [done|]. cbn [head mbind option_bind].
    assert (Hi : i ∈ filter (fun i => TraceStore.kind i = TraceStore.maximo)
                   (TraceStore.items (store w))) by (rewrite E; apply elem_of_cons; by left).
    apply list_elem_of_filter in Hi as [Hk Hi]. by apply Hall.
  - intros last lr Hl Hr Ht args chat.
    pose proof (postChat_summarize rt jsonCallsSend cfg info b w last lr
                  Hm Hs Hz Hl Hr Ht) as Hrun.
    cbv zeta in Hrun. fold merged provider args in Hrun.
    destruct (answer_run rt jsonCallsSend (Chat.chatCompletionWith rt args)
                (fun out => JS.VObj
                   [("reply", Chat.content out); ("maximo", lr);
                    ("request", JS.VObj
                       ([("summaryOf", JS.VStr "last-maximo")]
                        ++ match Json.orElse (Json.get "os" (TraceStore.request last)) None with
                           | Some v => [("os", v)]
                           | None => []
                           end))])
                200 info (dateNow rt (tick w)) (afterClock w)) as (F & R & I).
    cbv zeta in F, R, I. fold run in Hrun. rewrite <- Hrun in F, R, I. fold chat in F, R, I.
    destruct (chatCompletionWith_effect rt args (afterClock w)) as [Hf Hi].
    fold chat in Hf, Hi.
    split; [reflexivity|]. split; [exact F|]. split; [by rewrite F|]. split; [|split].
    + intros i Hin Hk. destruct (I i Hin) as [Hc|Hrest]; [|congruence].
      destruct (Hi i Hc) as [?|Hai]; [done|congruence].
    + intros out Ho. rewrite Ho in R. eexists. split; [exact R|]. by split.
    + intros msg Ho. by rewrite Ho in R.
Qed.

(** The summarize intent on an empty trace store. *)
Lemma summarize_last_results_witness :
  (Server.postChat silentRuntime true fullSecrets chatInfo
     (maximoRequestBody "Summarize the last Maximo results") Demo.world0).1
  = Return {| Server.code := 400;
              Server.payload := Server.errorBody
                "No previous Maximo results found to summarize (Trace is empty)." |}.
Proof.
  pose proof (summarize_last_results silentRuntime true fullSecrets chatInfo
                (maximoRequestBody "Summarize the last Maximo results") Demo.world0
                eq_refl eq_refl eq_refl) as H.
  cbv zeta in H. destruct H as (H & _).
  exact (proj1 (H eq_refl)).
Defined.

(** The summarize intent after a backend result: one POST to the chat
    provider, no backend call, no new backend trace entry. *)
Example summarize_after_result :
  (fun rq => (Net.method rq, Net.url rq)) <$>
    fetched (Server.postChat silentRuntime true fullSecrets chatInfo
               (maximoRequestBody "Summarize the last Maximo results") worldWithResult).2
  = [("POST", "https://api.openai.com/v1/chat/completions")]
  /\ TraceStore.kind <$>
    TraceStore.items
      (store (Server.postChat silentRuntime true fullSecrets chatInfo
                (maximoRequestBody "Summarize the last Maximo results") worldWithResult).2)
  = [TraceStore.rest; TraceStore.rest; TraceStore.ai; TraceStore.maximo].
Proof. split; vm_compute; reflexivity. Qed.

(** C4 as stated fails for an input that begins with a slash: it
    expresses the summarize intent, a backend result is there to
    summarise, and still the handler issues a new backend query (a GET
    below the backend root, traced with the backend kind) and calls no
    chat provider. *)
Lemma summarize_path_input_queries_backend :
  Server.isSummarize
    (JS.toLowerCase (JS.trim "/summarize the last maximo results")) = true
  /\ (fun rq => (Net.method rq, Net.url rq)) <$>
    fetched (Server.postChat silentRuntime true fullSecrets chatInfo
               (maximoRequestBody "/summarize the last maximo results")
               worldWithResult).2
  = [("GET", "https://host/maximo/summarize the last maximo results")]
  /\ TraceStore.kind <$>
    TraceStore.items
      (store (Server.postChat silentRuntime true fullSecrets chatInfo
                (maximoRequestBody "/summarize the last maximo results")
                worldWithResult).2)
  = [TraceStore.rest; TraceStore.rest; TraceStore.maximo; TraceStore.maximo].
Proof. repeat split; vm_compute; reflexivity. Qed.

(* ================================================================== *)
(** * Further properties of the code *)
(* ================================================================== *)

(** ** TraceStore: the state patch and runs from any store *)

Section TraceStoreMore.
Import TraceStore.

(** X1. [setTraceState] never touches the recorded items, so lowering
    [maxItems] leaves the store over its bound; the next [addTrace] on
    the patched store (enabled, bound not negative) puts its item in
    front of the old ones and cuts to the new bound. On a patched store
    that is disabled the call changes nothing, and with a negative
    bound it throws after its item went in. *)
Theorem setTraceState_then_addTrace (patch : TraceState.Patch) (st : Stamp)
    (p : Partial.t) (s : Store) :
  let s1 := TraceState.setTraceState patch s in
  let M := Z.to_nat (maxItems s1) in
  items s1 = items s /\
  enabled s1 = default (enabled s) (TraceState.enabled patch) /\
  maxItems s1 = default (maxItems s) (TraceState.maxItems patch) /\
  (enabled s1 = true -> 0 <= maxItems s1 ->
     items (addTrace st p s1).1 = take M (buildItem st p :: items s) /\
     length (items (addTrace st p s1).1) = Nat.min M (S (length (items s))) /\
     (addTrace st p s1).2 = None) /\
  (enabled s1 = false -> addTrace st p s1 = (s1, None)) /\
  (enabled s1 = true -> maxItems s1 < 0 ->
     items (addTrace st p s1).1 = buildItem st p :: items s /\
     (addTrace st p s1).2 = Some "Invalid array length").
Proof.
  intros s1 M. split; [done|]. split; [done|]. split; [done|].
  split; [|split].
  - intros He Hm. destruct (addTrace_items st p s1 He Hm) as [Hi Hn].
    split; [exact Hi|]. split; [|exact Hn].
    rewrite Hi, length_take. done.
  - apply addTrace_disabled.
  - intros He Hm. unfold addTrace. rewrite He. cbn [negb].
    destruct (Z.gtb_spec (Z.of_nat (length (buildItem st p :: items s1))) (maxItems s1))
      as [_|Hle]; [|lia].
    destruct (Z.ltb_spec (maxItems s1) 0) as [_|?]; [|lia]. done.
Qed.

(** X2. A run of calls on an enabled store whose bound is not negative,
    whatever it held before: after at least one call the store is
    within its bound, the new items stand newest first in front of the
    old ones, which keep their order and are dropped from the tail
    only; the state is as it was. A disabled store is left untouched by
    any run. *)
Theorem addTraces_from_any_store (calls : list (Stamp * Partial.t)) (s : Store) :
  let M := Z.to_nat (maxItems s) in
  let built := (fun c => buildItem c.1 c.2) <$> calls in
  (enabled s = true -> 0 <= maxItems s -> calls <> [] ->
     items (addTraces calls s) = take M (reverse built ++ items s) /\
     (length (items (addTraces calls s)) <= M)%nat) /\
  (enabled s = false -> addTraces calls s = s) /\
  enabled (addTraces calls s) = enabled s /\
  maxItems (addTraces calls s) = maxItems s.
Proof.
  intros M built. split; [|split; [|split]].
  - intros He Hm Hne. destruct calls as [|[st p] calls]; [done|].
    assert (Hi : items (addTraces ((st, p) :: calls) s)
                 = take M (reverse built ++ items s)).
    { cbn [addTraces].
      destruct (addTrace_items st p s He Hm) as [Hi _].
      rewrite addTraces_items.
      - rewrite addTrace_maxItems, Hi. subst built M.
        rewrite fmap_cons, reverse_cons, <- (assoc_L (++)). cbn [app fst snd].
        rewrite !take_app. f_equal. rewrite take_take. f_equal. lia.
      - by rewrite addTrace_enabled.
      - by rewrite addTrace_maxItems.
      - rewrite addTrace_maxItems, Hi, take_take. f_equal. lia. }
    split; [exact Hi|]. rewrite Hi, length_take. lia.
  - intros He. clear M built. revert s He.
    induction calls as [|[st p] calls IH]; intros s He; [done|].
    cbn [addTraces]. rewrite (addTrace_disabled st p s He). by apply IH.
  - apply addTraces_enabled.
  - apply addTraces_maxItems.
Qed.

End TraceStoreMore.

(** ** providers.ts: the selected provider, credentials and model ids *)

Section ProviderMore.
Import Providers.

(** X3. [getSelectedProvider] always returns one of the six provider
    names: the lower-cased [aiProvider] when that is one of them, and
    [openai] for every other value, a missing or empty one included. *)
Theorem getSelectedProvider_supported (s : Secrets) :
  let chosen := JS.toLowerCase (default "" (s !! "aiProvider")) in
  (exists p : ProviderId, getSelectedProvider s = providerName p) /\
  (forall p : ProviderId, chosen = providerName p ->
     getSelectedProvider s = providerName p) /\
  ((forall p : ProviderId, chosen <> providerName p) ->
     getSelectedProvider s = "openai").
Proof.
  intros chosen. unfold getSelectedProvider.
  set (q := JS.toLowerCase (default "openai" (JS.orElse (s !! "aiProvider") (Some "openai")))).
  assert (Hq : chosen = q \/ (chosen = "" /\ q = "openai")).
  { subst chosen q. destruct (s !! "aiProvider") as [[|c r]|]; cbn; auto. }
  destruct (existsb (String.eqb q) ["anthropic"; "gemini"; "mistral"; "watsonx"; "deepseek"])
    eqn:Hex.
  - apply existsb_eqb_elem in Hex.
    assert (Hp : exists p : ProviderId, q = providerName p).
    { rewrite !elem_of_cons, elem_of_nil in Hex.
      destruct Hex as [->|[->|[->|[->|[->|[]]]]]];
        [by exists anthropic|by exists gemini|by exists mistral|
         by exists watsonx|by exists deepseek]. }
    split; [exact Hp|]. split.
    + intros p Hc. destruct Hq as [<-|[He _]]; [done|].
      rewrite He in Hc. by destruct p.
    + intros Hno. destruct Hp as [p Hp]. destruct Hq as [<-|[_ Hq]].
      * by destruct (Hno p).
      * rewrite Hq in Hex. rewrite !elem_of_cons, elem_of_nil in Hex.
        by destruct Hex as [?|[?|[?|[?|[?|[]]]]]].
  - split; [by exists openai|]. split; [|done].
    intros p Hc. destruct Hq as [Hq|[He _]].
    + destruct p; [done|..];
        (assert (Hin : existsb (String.eqb q)
                  ["anthropic"; "gemini"; "mistral"; "watsonx"; "deepseek"] = true)
           by (rewrite <- Hq, Hc; reflexivity); congruence).
    + rewrite He in Hc. by destruct p.
Qed.

Lemma rev_involutive s : String.rev (String.rev s) = s.
Proof.
  induction s as [|a s IH]; [done|]. by rewrite rev_cons, rev_snoc, IH.
Qed.

Lemma trimStart_fixed s : noLeadingWhite s = true -> JS.trimStart s = s.
Proof. destruct s as [|c r]; [done|]. cbn. by destruct (JS.isWhite c). Qed.

Lemma trimStart_noLeadingWhite s : noLeadingWhite (JS.trimStart s) = true.
Proof.
  induction s as [|c r IH]; [done|]. cbn [JS.trimStart].
  destruct (JS.isWhite c) eqn:Hc; [done|]. cbn. by rewrite Hc.
Qed.

Lemma trimStart_suffix s : exists ws, s = ws +:+ JS.trimStart s.
Proof.
  induction s as [|c r [ws IH]]; [by exists ""|]. cbn [JS.trimStart].
  destruct (JS.isWhite c).
  - exists (String c ws). by rewrite app_cons, <- IH.
  - by exists "".
Qed.

Lemma noLeadingWhite_app a b :
  noLeadingWhite (a +:+ b) = true -> noLeadingWhite a = true.
Proof. destruct a as [|c a]; [done|]. by rewrite app_cons. Qed.

Lemma rev_app (a b : string) : String.rev (a +:+ b) = String.rev b +:+ String.rev a.
Proof.
  induction a as [|c a IH].
  - by rewrite app_empty_l, app_empty_r.
  - by rewrite app_cons, !rev_cons, IH, app_assoc'.
Qed.

(** Trimming twice is trimming once, and a trimmed string has no white
    space at either end. *)
Lemma trim_idempotent s : JS.trim (JS.trim s) = JS.trim s.
Proof.
  unfold JS.trim, JS.trimEnd.
  set (t := JS.trimStart s). set (u := JS.trimStart (String.rev t)).
  assert (Hu : noLeadingWhite u = true) by apply trimStart_noLeadingWhite.
  assert (Hr : noLeadingWhite (String.rev u) = true).
  { destruct (trimStart_suffix (String.rev t)) as [ws Hws]. fold u in Hws.
    apply (f_equal String.rev) in Hws. rewrite rev_involutive, rev_app in Hws.
    apply (noLeadingWhite_app _ (String.rev ws)). rewrite <- Hws.
    apply trimStart_noLeadingWhite. }
  rewrite (trimStart_fixed _ Hr), rev_involutive. by rewrite (trimStart_fixed _ Hu).
Qed.

Lemma orElse_Some_inv (a : string) (b : option string) (k : string) :
  JS.orElse (Some a) b = Some k -> (k = a /\ a <> "") \/ (a = "" /\ b = Some k).
Proof.
  destruct a as [|c r]; cbn.
  - intros ->. by right.
  - intros [= <-]. by left.
Qed.

Lemma orUndefined_Some_inv (a k : string) :
  JS.orUndefined a = Some k -> k = a /\ a <> "".
Proof. destruct a; cbn; [done|]. by intros [= <-]. Qed.

(** X4. Whatever the settings and whatever string is given as the
    provider, a key or base URL that [resolveProviderAuth] returns is
    never the empty string and carries no white space at either end:
    blank settings resolve to [undefined]. *)
Theorem resolveProviderAuth_trimmed (s : Secrets) (provider : string) :
  let r := resolveProviderAuth s provider in
  (forall k, apiKey r = Some k -> k <> "" /\ JS.trim k = k) /\
  (forall b, authBaseUrl r = Some b -> b <> "" /\ JS.trim b = b).
Proof.
  intros r. subst r. unfold resolveProviderAuth. cbn [apiKey authBaseUrl].
  set (allow := String.eqb _ provider).
  split; intros k Hk;
    (apply orElse_Some_inv in Hk as [[-> Hne]|[_ Hk]];
     [split; [done|apply trim_idempotent]|];
     destruct allow; [|done];
     apply orUndefined_Some_inv in Hk as [-> Hne];
     split; [done|apply trim_idempotent]).
Qed.

End ProviderMore.

Section ModelIdMore.
Import Providers.

Lemma sort_nil_inv cmp l : sort cmp l = [] -> l = [].
Proof.
  intros H. apply Permutation_nil. rewrite <- H. apply sort_perm.
Qed.

(** X5. [filterModelIds] for every provider and every comparator, a
    consistent one or not: the result has no duplicate and no empty id,
    and every id of it is one of the input; for a provider other than
    [openai] it is the non-empty ids in their order of first
    occurrence, none left out; and for no provider does the filter
    empty a list that has a non-empty id. *)
Theorem filterModelIds_any_provider (cmp : string -> string -> Z)
    (provider : string) (ids : list string) :
  let out := filterModelIds cmp provider ids in
  NoDup out /\
  (forall x, x ∈ out -> x ∈ ids /\ x <> "") /\
  (provider <> "openai" ->
     out = uniq (List.filter JS.nonEmpty ids) /\
     forall x, x ∈ ids -> x <> "" -> x ∈ out) /\
  (out = [] <-> forall x, x ∈ ids -> x = "").
Proof.
  intros out. subst out. unfold filterModelIds.
  set (all := uniq (List.filter JS.nonEmpty ids)).
  assert (Hall : forall x, x ∈ all <-> x ∈ ids /\ x <> "").
  { intros x. unfold all. rewrite elem_of_uniq, elem_of_filter_bool.
    destruct x; cbn; intuition congruence. }
  assert (Hnd : NoDup all) by apply NoDup_uniqFrom.
  assert (Hnil : all = [] <-> forall x, x ∈ ids -> x = "").
  { split.
    - intros He x Hx. destruct (decide (x = "")) as [|Hne]; [done|].
      assert (x ∈ all) as Hin by (apply Hall; done). rewrite He in Hin.
      by apply elem_of_nil in Hin.
    - intros Hno. destruct all as [|y l] eqn:E; [done|].
      assert (y ∈ y :: l) as Hin by left. apply Hall in Hin as [Hy Hne].
      by destruct Hne, (Hno y Hy). }
  destruct (String.eqb_spec provider "openai") as [->|Hp]; cbn [negb].
  - set (preferred := List.filter preferredId all).
    set (chosen := match preferred with [] => all | _ => preferred end).
    assert (Hsub : forall x, x ∈ chosen -> x ∈ all).
    { intros x. unfold chosen. destruct preferred eqn:E; [done|]. rewrite <- E.
      unfold preferred. rewrite elem_of_filter_bool. tauto. }
    assert (Hcn : NoDup chosen).
    { unfold chosen. destruct preferred eqn:E; [done|]. rewrite <- E.
      by apply NoDup_filter_bool. }
    assert (Hce : chosen = [] <-> all = []).
    { unfold chosen. destruct preferred eqn:E; [done|]. split; [done|].
      intros Ha. unfold preferred in E. rewrite Ha in E. done. }
    split; [by rewrite sort_perm|]. split.
    + intros x Hx. rewrite sort_perm in Hx. apply Hall. by apply Hsub.
    + split; [done|]. rewrite <- Hnil, <- Hce. split; [apply sort_nil_inv|].
      by intros ->.
  - split; [done|]. split; [intros x Hx; by apply Hall|].
    split; [|done]. intros _. split; [done|]. intros x Hx Hne. by apply Hall.
Qed.

End ModelIdMore.

(** ** providers.ts: what one chat call does *)

Section ChatMore.
Context (rt : Runtime).

(** [addTrace] throws only on an enabled store whose bound is negative. *)
Lemma addTrace_no_throw st p s :
  TraceStore.enabled s = false \/ 0 <= TraceStore.maxItems s ->
  (TraceStore.addTrace st p s).2 = None.
Proof.
  intros [Hd|Hm].
  - by rewrite addTrace_disabled.
  - destruct (TraceStore.enabled s) eqn:He.
    + by destruct (addTrace_items st p s He Hm).
    + by rewrite addTrace_disabled.
Qed.

Ltac chat_outcome :=
  unfold mbind, M_bind, bind, now, doFetch, addTrace, mret, M_ret, ret, throw;
  cbn [fetched store tick fst snd];
  eexists; split;
  [ match goal with
    | |- context [fetch rt ?l ?rq] => instantiate (1 := rq)
    end;
    destruct (fetch rt _ _); cbn [fetched store tick fst snd];
    [ destruct (TraceStore.addTrace _ _ _) as [? [?|]]; cbn [snd];
      repeat match goal with
        | |- context [if ?c then _ else _] => destruct c
        | |- context [match ?c with _ => _ end] => destruct c
        end; reflexivity
    | reflexivity ]
  | ].

(** With a key and a supported provider exactly one request is made, a
    POST. *)
Lemma chatCompletionWith_posts args w :
  JS.truthyStr (Chat.apiKey args) = true ->
  Providers.isOpenAICompatible (Chat.provider args)
  || String.eqb (Chat.provider args) "anthropic"
  || String.eqb (Chat.provider args) "gemini" = true ->
  exists rq,
    fetched (Chat.chatCompletionWith rt args w).2 = (fetched w ++ [rq])%list /\
    Net.method rq = "POST".
Proof.
  intros Hk Hs. unfold Chat.chatCompletionWith. rewrite Hk. cbn [negb].
  destruct (Providers.isOpenAICompatible _);
    [unfold Chat.chatOpenAI; chat_outcome; reflexivity|].
  destruct (String.eqb _ "anthropic");
    [unfold Chat.chatAnthropic; chat_outcome; reflexivity|].
  destruct (String.eqb _ "gemini"); [|done].
  unfold Chat.chatGemini; chat_outcome; reflexivity.
Qed.



End ChatMore.

(** ** providers.ts: listing models *)

Section ModelsMore.
Context (rt : Runtime).
Import Models.

Lemma filterModelIds_elem cmp provider ids x :
  x ∈ Providers.filterModelIds cmp provider ids -> x <> "".
Proof.
  unfold Providers.filterModelIds.
  set (all := Providers.uniq (List.filter JS.nonEmpty ids)).
  assert (Hall : forall y, y ∈ all -> y <> "").
  { intros y. unfold all. rewrite elem_of_uniq, elem_of_filter_bool.
    by intros [_ Hy] ->. }
  destruct (negb _); [apply Hall|].
  rewrite sort_perm. destruct (List.filter Providers.preferredId all) eqn:E; [apply Hall|].
  rewrite <- E, elem_of_filter_bool. intros [Hx _]. by apply Hall.
Qed.

(** The built-in list of a provider: none of its ids is empty, and a
    name the table does not list and [Object.prototype] does not hold
    has the empty list. *)
Lemma fallback_ids provider :
  match fallbackByProvider provider with
  | Listed l => Forall (fun m => id m <> "") l
  | Inherited m => JS.protoMember provider = Some m
  end.
Proof.
  unfold fallbackByProvider.
  repeat (destruct (String.eqb provider _); [repeat constructor; done|]).
  destruct (JS.protoMember provider); [done|constructor].
Qed.

Lemma addTrace_keeps_bound st p s :
  TraceStore.enabled s = false \/ 0 <= TraceStore.maxItems s ->
  TraceStore.enabled (TraceStore.addTrace st p s).1 = false
  \/ 0 <= TraceStore.maxItems (TraceStore.addTrace st p s).1.
Proof. by rewrite addTrace_enabled, addTrace_maxItems. Qed.

Ltac models_run Hs Hf Hp :=
  unfold mbind, M_bind, bind, tryCatch, now, doFetch, addTrace, mret, M_ret, ret, throw;
  cbn [fetched store tick fst snd];
  destruct (fetch rt _ _) eqn:Hf; cbn [fetched store tick fst snd];
  [ destruct (JSON_parse rt _) eqn:Hp; cbn [fetched store tick fst snd] | ];
  rewrite ?(addTrace_no_throw _ _ _ Hs); cbn [fetched store tick fst snd].

(** The listing returns, for any string given as provider: what the
    table of built-in lists holds under that name, or a list that is
    not empty and has no empty id. *)
Lemma listModelsWithSecrets_total (secrets : gmap string string) (provider : string)
    (w : World) :
  TraceStore.enabled (store w) = false \/ 0 <= TraceStore.maxItems (store w) ->
  exists r,
    (listModelsWithSecrets rt secrets provider w).1 = Return r /\
    (r = fallbackByProvider provider \/
     exists l, r = Listed l /\ l <> [] /\ Forall (fun m => id m <> "") l).
Proof.
  intros Hs. unfold listModelsWithSecrets.
  destruct (String.eqb_spec provider "anthropic") as [->|Ha].
  { eexists. split; [reflexivity|]. right. eexists. split; [reflexivity|].
    split; [done|repeat constructor; done]. }
  destruct (String.eqb_spec provider "gemini") as [->|Hg].
  { eexists. split; [reflexivity|]. right. eexists. split; [reflexivity|].
    split; [done|repeat constructor; done]. }
  destruct (negb (JS.truthyStr _)); [by eauto|].
  destruct (negb (Providers.isOpenAICompatible provider)); [by eauto|].
  models_run Hs Hf Hp.
  - destruct (negb (Net.ok r)); [by eauto|].
    destruct (idsOf rt v) as [ids|]; cbn [fetched store tick fst snd].
    + destruct (plain <$> Providers.filterModelIds _ _ _) eqn:E; [by eauto|].
      eexists. split; [reflexivity|]. right. eexists. split; [reflexivity|].
      split; [done|]. rewrite <- E.
      apply Forall_fmap, Forall_forall. intros x Hx. cbn.
      by apply filterModelIds_elem in Hx.
    + rewrite (addTrace_no_throw _ _ _ (addTrace_keeps_bound _ _ _ Hs)). by eauto.
  - by eauto.
  - by eauto.
Qed.

(** X7. For each of the six providers, and whatever the upstream does
    (answers, answers with an error status or with text that is no
    JSON, or is unreachable), [listModelsWithSecrets] returns a list and
    does not throw, provided the trace store is disabled or its bound is
    not negative; the list is never empty and has no entry with an
    empty id. *)
Theorem listModelsWithSecrets_usable (secrets : gmap string string)
    (p : Providers.ProviderId) (w : World) :
  TraceStore.enabled (store w) = false \/ 0 <= TraceStore.maxItems (store w) ->
  exists l,
    (listModelsWithSecrets rt secrets (Providers.providerName p) w).1
      = Return (Listed l) /\
    Usable l.
Proof.
  intros Hs.
  destruct (listModelsWithSecrets_total secrets (Providers.providerName p) w Hs)
    as (r & Hr & [->|(l & -> & Hne & Hids)]).
  - rewrite Hr. pose proof (fallback_ids (Providers.providerName p)) as Hfb.
    destruct p; cbn in Hfb |- *; (eexists; split; [reflexivity|]);
      (split; [done|exact Hfb]).
  - exists l. done.
Qed.

(** X8. What a listing does to the world. For anthropic and gemini the
    curated list is returned, and without a key, or for a provider that
    is not OpenAI-compatible, what the table of built-in lists holds
    under the provider's name (a list, or a member the table inherits),
    with no request and no trace entry. Otherwise (key present,
    provider OpenAI-compatible, trace store disabled or with a bound
    that is not negative) exactly one request is made, a GET without
    body to the base URL followed by [/models] with the key as bearer
    token. An unreachable upstream is recorded once, with status 0 and
    the message of the rejection, and gives the built-in list. An
    answer is recorded once with its status, and gives the built-in
    list when it is no JSON or has an error status. An answer with a
    2xx status whose ids cannot all be converted to strings is recorded
    a second time, by the [catch], with status 0 and the message of the
    TypeError, and gives the built-in list too. *)
Theorem listModelsWithSecrets_effects (secrets : gmap string string)
    (provider : string) (w : World) :
  let auth := Providers.resolveProviderAuth secrets provider in
  let run := listModelsWithSecrets rt secrets provider w in
  let fallback := fallbackByProvider provider in
  (provider = "anthropic" -> run = (Return (Listed anthropicModels), w)) /\
  (provider = "gemini" -> run = (Return (Listed geminiModels), w)) /\
  (provider <> "anthropic" -> provider <> "gemini" ->
   JS.truthyStr (Providers.apiKey auth) = false \/
   Providers.isOpenAICompatible provider = false ->
     run = (Return fallback, w)) /\
  (JS.truthyStr (Providers.apiKey auth) = true ->
   Providers.isOpenAICompatible provider = true ->
   TraceStore.enabled (store w) = false \/ 0 <= TraceStore.maxItems (store w) ->
     exists rq st d,
       fetched run.2 = (fetched w ++ [rq])%list /\
       Net.method rq = "GET" /\ Net.body rq = Net.NoBody /\
       Net.url rq =
         Chat.stripTrailingSlash
           (default "" (JS.orElse (Providers.authBaseUrl auth)
                          (Some "https://api.openai.com/v1")))
         +:+ "/models" /\
       Net.headers rq !! "Authorization" =
         Some ("Bearer " +:+ JS.trim (default "" (Providers.apiKey auth))) /\
       let entry ok status body :=
         (TraceStore.addTrace st
            (modelsTrace provider ok d (Net.url rq) status body) (store w)).1 in
       match fetch rt (fetched w) rq with
       | Net.Failure msg =>
           store run.2 = entry false 0 (JS.VStr (if JS.nonEmpty msg then msg else "Error"))
           /\ run.1 = Return fallback
       | Net.Answer resp =>
           match JSON_parse rt (Net.text resp) with
           | None =>
               store run.2 = entry false (Net.status resp) (JS.VStr (Net.text resp)) /\
               run.1 = Return fallback
           | Some data =>
               let first := entry (Net.ok resp) (Net.status resp) data in
               if Net.ok resp then
                 match idsOf rt data with
                 | Some ids =>
                     store run.2 = first /\
                     run.1 = Return
                       (match Providers.filterModelIds (localeCompare rt) provider ids with
                        | [] => fallback
                        | out => Listed (plain <$> out)
                        end)
                 | None =>
                     (exists st2 d2,
                        store run.2 =
                          (TraceStore.addTrace st2
                             (modelsTrace provider false d2 (Net.url rq) 0
                                (JS.VStr Json.cannotConvert)) first).1) /\
                     run.1 = Return fallback
                 end
               else store run.2 = first /\ run.1 = Return fallback
           end
       end).
Proof.
  intros auth run fallback. subst run fallback. unfold listModelsWithSecrets.
  fold auth. split; [by intros ->|]. split; [by intros ->|]. split.
  - intros Ha Hg Hc.
    destruct (String.eqb_spec provider "anthropic"); [done|].
    destruct (String.eqb_spec provider "gemini"); [done|].
    destruct Hc as [->|Hc]; [done|].
    destruct (negb (JS.truthyStr _)); [done|]. by rewrite Hc.
  - intros Hk Hc Hs. rewrite Hk, Hc. cbn [negb].
    assert (String.eqb provider "anthropic" = false) as ->.
    { destruct (String.eqb_spec provider "anthropic") as [->|]; done. }
    assert (String.eqb provider "gemini" = false) as ->.
    { destruct (String.eqb_spec provider "gemini") as [->|]; done. }
    models_run Hs Hf Hp.
    + destruct (Net.ok r) eqn:Hok; cbn [negb fetched store tick fst snd].
      * destruct (idsOf rt v) as [ids|] eqn:Hi; cbn [fetched store tick fst snd].
        -- do 3 eexists; (do 5 (split; [reflexivity|])).
           cbn zeta. rewrite Hf, Hp, Hok, Hi. split; [reflexivity|].
           by destruct (Providers.filterModelIds _ _ _).
        -- rewrite (addTrace_no_throw _ _ _ (addTrace_keeps_bound _ _ _ Hs)).
           cbn [fetched store tick fst snd].
           do 3 eexists; (do 5 (split; [reflexivity|])).
           cbn zeta. rewrite Hf, Hp, Hok, Hi. split; [|reflexivity].
           do 2 eexists; reflexivity.
      * do 3 eexists; (do 5 (split; [reflexivity|])).
        cbn zeta. rewrite Hf, Hp, Hok. done.
    + do 3 eexists. do 5 (split; [reflexivity|]). cbn zeta. rewrite Hf, Hp. done.
    + do 3 eexists. do 5 (split; [reflexivity|]). cbn zeta. rewrite Hf. done.
Qed.

End ModelsMore.

(** The six providers on a runtime whose upstream lists models. *)
Lemma listModelsWithSecrets_usable_witness :
  exists l,
    (Models.listModelsWithSecrets listingRuntime listingSecrets "openai" Demo.world0).1
      = Return (Models.Listed l) /\ Usable l.
Proof.
  apply (listModelsWithSecrets_usable listingRuntime listingSecrets Providers.openai
           Demo.world0).
  right. cbn. lia.
Defined.

(** ** maximo.ts: what one backend call does *)

Section MaximoMore.
Context (rt : Runtime).
Import Maximo.

(** X9. One backend call. A non-empty [maximoUrl] or [maximoApiKey]
    wins over its snake-case alias. With both configured: a request the
    transport rejects throws the rejection and records nothing; an
    answer is recorded once, as an entry of kind maximo with the
    method, the URL and the answer's status, before the status is
    looked at; then a status outside 200..299 throws the Maximo error
    with status and text, and a status inside returns the parsed body,
    or the text itself when it is no JSON (the trace store being
    disabled or its bound not negative). *)
Theorem callMaximoWith_outcome (secrets : gmap string string) (path method : string)
    (body : option JS.Value) (w : World) :
  let base := JS.orElse (secrets !! "maximoUrl") (secrets !! "maximo_url") in
  let apiKey := JS.orElse (secrets !! "maximoApiKey") (secrets !! "maximo_apikey") in
  let rq := maximoRequest (default "" base) (default "" apiKey) path method body in
  let run := callMaximoWith rt secrets path method body w in
  let calm := TraceStore.enabled (store w) = false \/ 0 <= TraceStore.maxItems (store w) in
  (forall u, secrets !! "maximoUrl" = Some u -> u <> "" -> base = Some u) /\
  (forall k, secrets !! "maximoApiKey" = Some k -> k <> "" -> apiKey = Some k) /\
  (JS.truthyStr base = true -> JS.truthyStr apiKey = true ->
   match fetch rt (fetched w) rq with
   | Net.Failure msg => run.1 = Throw msg /\ store run.2 = store w
   | Net.Answer resp =>
       let data := Chat.parseOrNull rt (Net.text resp) in
       (exists st d,
          store run.2 =
            (TraceStore.addTrace st
               (maximoTrace method (Net.url rq) resp d body data) (store w)).1) /\
       (calm -> Net.ok resp = false ->
          run.1 = Throw ("Maximo error (" +:+ pretty (Net.status resp) +:+ "): "
                         +:+ Net.text resp)) /\
       (calm -> Net.ok resp = true ->
          run.1 = Return (Chat.dataOrText data (Net.text resp))) /\
       (calm -> Net.ok resp = true -> JSON_parse rt (Net.text resp) = None ->
          run.1 = Return (JS.VStr (Net.text resp)))
   end).
Proof.
  intros base apiKey rq run calm.
  split; [|split].
  - intros u Hu Hne. subst base. rewrite Hu. by destruct u.
  - intros k Hk Hne. subst apiKey. rewrite Hk. by destruct k.
  - intros Hb Hk. subst run. unfold callMaximoWith. fold base apiKey.
    rewrite Hb, Hk. cbn [negb]. fold rq.
    unfold mbind, M_bind, bind, now, doFetch, addTrace, mret, M_ret, ret, throw.
    cbn [fetched store tick fst snd].
    destruct (fetch rt (fetched w) rq) as [resp|msg]; cbn [fetched store tick fst snd];
      [|done].
    match goal with
    | |- context [(TraceStore.addTrace ?st ?p ?s).2] =>
        pose proof (addTrace_no_throw st p s) as Hnt
    end.
    split; [|split; [|split]].
    + destruct (TraceStore.addTrace _ _ _).2; cbn [fetched store tick fst snd];
        [by eauto|].
      destruct (negb (Net.ok resp)); by eauto.
    + intros Hc Hok. by rewrite (Hnt Hc), Hok.
    + intros Hc Hok. by rewrite (Hnt Hc), Hok.
    + intros Hc Hok Hp. rewrite (Hnt Hc), Hok. cbn [negb fst].
      unfold Chat.parseOrNull. by rewrite Hp.
Qed.

End MaximoMore.

(** ** maximo.ts: the normalised base *)

Section BaseMore.
Import Maximo.

Lemma noLineTerminator_app a b :
  noLineTerminator (a +:+ b) = noLineTerminator a && noLineTerminator b.
Proof.
  induction a as [|c a IH]; [done|]. rewrite app_cons. cbn [noLineTerminator].
  by rewrite IH, andb_assoc.
Qed.

Lemma lowerChar_terminator c : isLineTerminator c = true -> JS.lowerChar c = c.
Proof.
  destruct c as [[] [] [] [] [] [] [] []]; vm_compute; intros; congruence.
Qed.

Lemma toLowerCase_noLineTerminator w :
  noLineTerminator (JS.toLowerCase w) = true -> noLineTerminator w = true.
Proof.
  induction w as [|c w IH]; [done|]. cbn [JS.toLowerCase noLineTerminator].
  intros [Hc Hw]%andb_true_iff. rewrite (IH Hw), andb_true_r.
  destruct (isLineTerminator c) eqn:E; [|done].
  by rewrite (lowerChar_terminator c E), E in Hc.
Qed.

Lemma ApiSuffix_noLineTerminator m : ApiSuffix m -> noLineTerminator m = true.
Proof.
  intros [w tail Hw Ht]. rewrite !noLineTerminator_app.
  assert (noLineTerminator w = true) as ->.
  { apply toLowerCase_noLineTerminator. by destruct Hw as [->| ->]. }
  destruct Ht as [->|(t & -> & Ht)]; [done|].
  by rewrite noLineTerminator_app, Ht.
Qed.

(** A match followed by a match is a match: the second one is a
    sub-path of the first. *)
Lemma ApiSuffix_app m m2 : ApiSuffix m -> ApiSuffix m2 -> ApiSuffix (m +:+ m2).
Proof.
  intros [w tail Hw Ht] H2.
  pose proof (ApiSuffix_noLineTerminator m2 H2) as Hn.
  rewrite !app_assoc'. apply ApiSuffix_intro; [done|]. right.
  destruct Ht as [->|(t & -> & Ht)].
  - destruct H2 as [w2 tail2 _ _]. rewrite app_empty_l.
    eexists. split; [reflexivity|].
    rewrite noLineTerminator_app in Hn. by apply andb_true_iff in Hn as [_ Hn].
  - exists (t +:+ m2). split; [by rewrite app_assoc'|].
    by rewrite noLineTerminator_app, Ht, Hn.
Qed.

Lemma stripApiSuffix_no_suffix s : forall r m,
  stripApiSuffix s = r +:+ m -> ApiSuffix m -> False.
Proof.
  induction s as [|c s IH]; intros r m Hs Hm.
  - destruct r; [|discriminate]. rewrite app_empty_l in Hs. subst m.
    by apply ApiSuffix_nonempty.
  - cbn [stripApiSuffix] in Hs.
    destruct (apiSuffixHere (String c s)) eqn:E.
    + destruct r; [|discriminate]. rewrite app_empty_l in Hs. subst m.
      by apply ApiSuffix_nonempty.
    + destruct r as [|c' r].
      * rewrite app_empty_l in Hs. subst m.
        destruct (stripApiSuffix_spec s) as (m2 & Hsplit & [->|Hm2] & _).
        -- rewrite app_empty_r in Hsplit. rewrite <- Hsplit in Hm.
           apply apiSuffixHere_spec in Hm. congruence.
        -- pose proof (ApiSuffix_app _ _ Hm Hm2) as Hboth.
           rewrite app_cons, <- Hsplit in Hboth.
           apply apiSuffixHere_spec in Hboth. congruence.
      * rewrite app_cons in Hs. injection Hs as <- Hs. by apply (IH r m).
Qed.

(** X10. The normalised base ends in nothing the pattern matches: no
    suffix of it is a slash, [oslc] or [api] in any case and an optional
    sub-path, so cutting the API suffix again changes nothing. *)
Theorem normalizeBase_has_no_api_suffix (base : string) :
  (forall r m, normalizeBase base = r +:+ m -> ~ ApiSuffix m) /\
  stripApiSuffix (normalizeBase base) = normalizeBase base.
Proof.
  unfold normalizeBase. set (s := Chat.stripTrailingSlash base).
  split.
  - intros r m Hs Hm. by apply (stripApiSuffix_no_suffix s r m).
  - destruct (stripApiSuffix_spec (stripApiSuffix s)) as (m & Hsplit & [->|Hm] & _).
    + by rewrite app_empty_r in Hsplit.
    + by destruct (stripApiSuffix_no_suffix s _ m Hsplit Hm).
Qed.

End BaseMore.

(** ** POST /api/proxy: the three kinds and the answer *)

Section ProxyMore.
Import Server.
Context (rt : Runtime) (jsonCallsSend : bool).

(** A base is a prefix of itself without its trailing slash followed by
    a slash and anything. *)
Lemma startsWith_stripTrailingSlash b x :
  JS.startsWith b (Chat.stripTrailingSlash b +:+ String "/" x) = true.
Proof.
  induction b as [|c b IH]; [done|]. cbn [Chat.stripTrailingSlash].
  destruct b as [|c' b'].
  - destruct (ascii_dec c "/") as [->|Hne].
    + rewrite app_empty_l. cbn [JS.startsWith]. by destruct (ascii_dec "/" "/").
    + rewrite app_cons. cbn [JS.startsWith]. by destruct (ascii_dec c c).
  - rewrite app_cons. cbn [JS.startsWith]. by destruct (ascii_dec c c).
Qed.

(** X11. POST /api/proxy with the backend kind, base URL and key
    configured, never refuses a URL that begins with a slash, nor a URL
    that extends the normalised base: the request is made, to the base
    (without a trailing slash) followed by the relative URL in the
    first case and to the URL as given in the second. *)
Theorem postProxy_maximo_accepts (cfg : gmap string string) (info : ReqInfo)
    (p : ProxyBody) (w : World) :
  kind p = "maximo" ->
  JS.truthyStr (cfg !! "maximoUrl") = true ->
  JS.truthyStr (cfg !! "maximoApiKey") = true ->
  let base := Maximo.normalizeBase (default "" (cfg !! "maximoUrl")) in
  JS.startsWith "/" (url p) = true \/ (exists x, url p = base +:+ x) ->
  exists rq,
    fetched (postProxy rt jsonCallsSend cfg info p w).2 = (fetched w ++ [rq])%list /\
    Net.url rq = (if JS.startsWith "/" (url p)
                  then Chat.stripTrailingSlash base +:+ url p else url p) /\
    JS.startsWith base (Net.url rq) = true.
Proof.
  intros Hk Hb Ha base Hu.
  set (target := if JS.startsWith "/" (url p)
                 then Chat.stripTrailingSlash base +:+ url p else url p).
  assert (Hin : JS.startsWith base target = true).
  { unfold target. destruct (JS.startsWith "/" (url p)) eqn:Hs.
    - destruct (url p) as [|c r]; [done|]. cbn [JS.startsWith] in Hs.
      destruct (ascii_dec "/" c) as [<-|]; [|done].
      apply startsWith_stripTrailingSlash.
    - destruct Hu as [?|[x ->]]; [done|]. apply startsWith_append. }
  assert (Hprep : prepareProxy cfg p =
            Return (target,
                    <["apikey" := default "" (cfg !! "maximoApiKey")]>
                      (<["maxauth" := default "" (cfg !! "maximoApiKey")]>
                         (withContentType (headers p))))).
  { unfold prepareProxy. rewrite Hk. cbn [String.eqb]. 
    change (String.eqb "maximo" "maximo") with true. cbv iota.
    rewrite Hb, Ha. cbn [negb]. fold base. fold target. by rewrite Hin. }
  eexists. split; [apply (postProxy_prepared rt jsonCallsSend cfg info p w _ _ Hprep)|].
  by split.
Qed.

End ProxyMore.

(** A relative URL on the sample backend. *)
Lemma postProxy_maximo_accepts_witness :
  exists rq,
    fetched (Server.postProxy silentRuntime true backendSecrets proxyInfo
               (proxyTo "/api/os/mxapiwo") Demo.world0).2 = ([] ++ [rq])%list /\
    Net.url rq = "https://host/maximo/api/os/mxapiwo" /\
    JS.startsWith "https://host/maximo" (Net.url rq) = true.
Proof.
  apply (postProxy_maximo_accepts silentRuntime true backendSecrets proxyInfo
           (proxyTo "/api/os/mxapiwo") Demo.world0 eq_refl eq_refl eq_refl).
  left. reflexivity.
Defined.

Section ProxyKinds.
Import Server.
Context (rt : Runtime) (jsonCallsSend : bool).



End ProxyKinds.


Section ProxyAnswer.
Import Server.
Context (rt : Runtime) (jsonCallsSend : bool).

(** From its [try] on, POST /api/proxy always answers. A refused
    request and a request the transport rejects are answered 400 with
    the error's message; an upstream answer is passed on with the
    upstream's status as the status of the response, whatever it is,
    and with that status and the parsed body (the text when it is no
    JSON) handed to [res.json]. On an enabled trace store that keeps at
    least one item the newest entry afterwards is the middleware's, of
    kind rest, with the status that was set. *)
Lemma postProxy_converted (cfg : gmap string string) (info : ReqInfo)
    (p : ProxyBody) (w : World) :
  let run := postProxy rt jsonCallsSend cfg info p w in
  exists r,
    run.1 = Return r /\
    (forall msg, prepareProxy cfg p = Throw msg ->
       r = {| code := 400; payload := errorBody (errText msg) |}) /\
    (forall u h, prepareProxy cfg p = Return (u, h) ->
       match fetch rt (fetched w) (proxyRequest p u h) with
       | Net.Failure msg => r = {| code := 400; payload := errorBody (errText msg) |}
       | Net.Answer resp =>
           TraceStore.enabled (store w) = false \/ 0 <= TraceStore.maxItems (store w) ->
           r = {| code := Net.status resp;
                  payload := JS.VObj
                    [("status", JS.VNum (Net.status resp # 1));
                     ("data", default (JS.VStr (Net.text resp))
                                (JSON_parse rt (Net.text resp)))] |}
       end) /\
    (TraceStore.enabled (store w) = true -> 1 <= TraceStore.maxItems (store w) ->
       exists i, head (TraceStore.items (store run.2)) = Some i /\
                 RestItem info (code r) i).
Proof.
  intros run. subst run. unfold postProxy, proxyBody.
  destruct (prepareProxy cfg p) as [[u h]|msg] eqn:Hprep.
  - unfold mbind, M_bind, bind, tryCatch, now, lift, doFetch, addTrace, setTraceState.
    cbn [fetched store tick fst snd].
    fold (proxyRequest p u h).
    destruct (fetch rt (fetched w) (proxyRequest p u h)) as [resp|msg] eqn:Hf;
      cbn [fetched store tick fst snd].
    + match goal with
      | |- context [(TraceStore.addTrace ?st ?q ?s).2] =>
          pose proof (addTrace_no_throw st q s) as Hnt;
          pose proof (addTrace_enabled st q s) as Hen;
          pose proof (addTrace_maxItems st q s) as Hmx;
          destruct (TraceStore.addTrace st q s) as [s' [e|]]
      end; cbn [fetched store tick fst snd] in *.
      * rewrite resJson_eq. eexists. split; [reflexivity|]. split; [done|].
        split; [intros ? ? [= <- <-]; rewrite Hf; intros Hc; by specialize (Hnt Hc)|].
        intros He Hm. apply resJson_head; cbn [store]; congruence.
      * rewrite resJson_eq. eexists. split; [reflexivity|]. split; [done|].
        split; [intros ? ? [= <- <-]; by rewrite Hf|].
        intros He Hm. apply resJson_head; cbn [store]; unfold TraceStore.setTraceState;
          cbn [TraceStore.enabled TraceStore.maxItems]; congruence.
    + rewrite resJson_eq. eexists. split; [reflexivity|]. split; [done|].
      split; [intros ? ? [= <- <-]; by rewrite Hf|].
      intros He Hm. by apply resJson_head.
  - unfold mbind, M_bind, bind, tryCatch, now, lift. cbn [fetched store tick fst snd].
    rewrite resJson_eq. eexists. split; [reflexivity|].
    split; [by intros ? [= ->]|]. split; [done|].
    intros He Hm. by apply resJson_head.
Qed.

(** [String(v || d)] throws exactly on a truthy [v] whose conversion
    throws. *)
Lemma firstTruthy_toString v d :
  Chat.toString rt (Chat.firstTruthy [v] d) = None <->
  Unconvertible rt v.
Proof.
  unfold Unconvertible. cbn [Chat.firstTruthy].
  destruct v as [x|]; cbn [Json.truthyOpt]; [|split; [done|by intros []]].
  change (Some x ≫= Chat.toString rt) with (Chat.toString rt x).
  destruct (JS.truthy x); [|split; [done|by intros []]].
  split; [done|by intros []].
Qed.

(** X14. POST /api/proxy, whole. The three conversions of its first
    lines come before the [try]: when [kind], [method] or [url] of the
    payload is truthy and cannot be converted to a string, the handler
    throws the TypeError of the conversion, having answered nothing,
    fetched nothing and recorded nothing. In every other case it
    answers: a refused request and a request the transport rejects are
    answered 400 with the error's message, and an upstream answer is
    passed on with the upstream's status as the status of the response
    and with that status and the parsed body (the text when it is no
    JSON) handed to [res.json]; on an enabled trace store that keeps at
    least one item the newest entry afterwards is the middleware's, of
    kind rest, with the status that was set. *)
Theorem proxyHandler_outcome (cfg : gmap string string) (info : ReqInfo)
    (p : ProxyPayload) (w : World) :
  let run := proxyHandler rt jsonCallsSend cfg info p w in
  (readProxyBody rt p = None <->
     Unconvertible rt (rawKind p) \/ Unconvertible rt (rawMethod p)
     \/ Unconvertible rt (rawUrl p)) /\
  match readProxyBody rt p with
  | None => run = (Throw Json.cannotConvert, afterClock w)
  | Some b =>
      headers b = rawHeaders p /\ body b = rawBody p /\
      Chat.toString rt (Chat.firstTruthy [rawKind p] "rest") = Some (kind b) /\
      Chat.toString rt (Chat.firstTruthy [rawMethod p] "GET") = Some (method b) /\
      Chat.toString rt (Chat.firstTruthy [rawUrl p] "") = Some (url b) /\
      exists r,
        run.1 = Return r /\
        (forall msg, prepareProxy cfg b = Throw msg ->
           r = {| code := 400; payload := errorBody (errText msg) |}) /\
        (forall u h, prepareProxy cfg b = Return (u, h) ->
           match fetch rt (fetched w) (proxyRequest b u h) with
           | Net.Failure msg => r = {| code := 400; payload := errorBody (errText msg) |}
           | Net.Answer resp =>
               TraceStore.enabled (store w) = false \/ 0 <= TraceStore.maxItems (store w) ->
               r = {| code := Net.status resp;
                      payload := JS.VObj
                        [("status", JS.VNum (Net.status resp # 1));
                         ("data", default (JS.VStr (Net.text resp))
                                    (JSON_parse rt (Net.text resp)))] |}
           end) /\
        (TraceStore.enabled (store w) = true -> 1 <= TraceStore.maxItems (store w) ->
           exists i, head (TraceStore.items (store run.2)) = Some i /\
                     RestItem info (code r) i)
  end.
Proof.
  intros run. subst run. unfold proxyHandler. split.
  - rewrite <- (firstTruthy_toString (rawKind p) "rest"),
      <- (firstTruthy_toString (rawMethod p) "GET"),
      <- (firstTruthy_toString (rawUrl p) "").
    unfold readProxyBody.
    destruct (Chat.toString rt (Chat.firstTruthy [rawKind p] "rest"));
      cbn [mbind option_bind]; [|naive_solver].
    destruct (Chat.toString rt (Chat.firstTruthy [rawMethod p] "GET"));
      cbn [mbind option_bind]; [|naive_solver].
    destruct (Chat.toString rt (Chat.firstTruthy [rawUrl p] ""));
      cbn [mbind option_bind]; naive_solver.
  - destruct (readProxyBody rt p) as [b|] eqn:Hb; [|reflexivity].
    unfold readProxyBody in Hb.
    destruct (Chat.toString rt (Chat.firstTruthy [rawKind p] "rest")) as [k|];
      cbn [mbind option_bind] in Hb; [|done].
    destruct (Chat.toString rt (Chat.firstTruthy [rawMethod p] "GET")) as [m|];
      cbn [mbind option_bind] in Hb; [|done].
    destruct (Chat.toString rt (Chat.firstTruthy [rawUrl p] "")) as [u|];
      cbn [mbind option_bind] in Hb; [|done].
    injection Hb as <-. cbn [headers body kind method url].
    do 5 (split; [reflexivity|]).
    apply postProxy_converted.
Qed.

End ProxyAnswer.

(** ** POST /api/chat: the answer *)

Section ChatAnswer.
Import Server.
Context (rt : Runtime) (jsonCallsSend : bool).

Ltac keeps_state :=
  unfold mbind, M_bind, bind, now, doFetch, addTrace, mret, M_ret, ret, throw;
  cbn [fetched store tick fst snd];
  destruct (fetch rt _ _); cbn [fetched store tick fst snd]; [|done];
  match goal with
  | |- context [TraceStore.addTrace ?st ?p ?s] =>
      let He := fresh "He" in
      let Hm := fresh "Hm" in
      pose proof (addTrace_enabled st p s) as He;
      pose proof (addTrace_maxItems st p s) as Hm;
      destruct (TraceStore.addTrace st p s) as [? [?|]];
      cbn [fetched store tick fst snd] in *;
      repeat match goal with
        | |- context [if ?c then _ else _] => destruct c
        | |- context [match ?c with _ => _ end] => destruct c
        end;
      cbn [fetched store tick fst snd]; by split
  end.

(** The gateways leave the trace state (enabled, bound) as it was. *)
Lemma chatCompletionWith_keeps args w :
  TraceStore.enabled (store (Chat.chatCompletionWith rt args w).2)
    = TraceStore.enabled (store w) /\
  TraceStore.maxItems (store (Chat.chatCompletionWith rt args w).2)
    = TraceStore.maxItems (store w).
Proof.
  unfold Chat.chatCompletionWith.
  destruct (negb (JS.truthyStr (Chat.apiKey args))); [done|].
  destruct (Providers.isOpenAICompatible (Chat.provider args)).
  { unfold Chat.chatOpenAI. keeps_state. }
  destruct (String.eqb (Chat.provider args) "anthropic").
  { unfold Chat.chatAnthropic. keeps_state. }
  destruct (String.eqb (Chat.provider args) "gemini"); [|done].
  unfold Chat.chatGemini. keeps_state.
Qed.

Lemma callMaximoWith_keeps secrets path method body w :
  TraceStore.enabled (store (Maximo.callMaximoWith rt secrets path method body w).2)
    = TraceStore.enabled (store w) /\
  TraceStore.maxItems (store (Maximo.callMaximoWith rt secrets path method body w).2)
    = TraceStore.maxItems (store w).
Proof.
  unfold Maximo.callMaximoWith.
  destruct (negb (JS.truthyStr _)); [done|].
  destruct (negb (JS.truthyStr _)); [done|].
  keeps_state.
Qed.

(** A step that leaves the trace state alone, then the JSON answer,
    with an exception of the step answered 400. *)
Lemma answer_head {A} (m : M A) (f : A -> JS.Value) (c : Z) info started w :
  TraceStore.enabled (store (m w).2) = TraceStore.enabled (store w) /\
  TraceStore.maxItems (store (m w).2) = TraceStore.maxItems (store w) ->
  let run := tryCatch (x ← m; resJson rt jsonCallsSend info started c (f x))
               (fun msg => resJson rt jsonCallsSend info started 400
                             (errorBody (errText msg))) w in
  exists r,
    run.1 = Return r /\
    (code r = c \/ (code r = 400 /\ exists msg, payload r = errorBody msg)) /\
    (TraceStore.enabled (store w) = true -> 1 <= TraceStore.maxItems (store w) ->
       exists i, head (TraceStore.items (store run.2)) = Some i /\
                 RestItem info (code r) i).
Proof.
  intros [He Hm]. unfold tryCatch, mbind, M_bind, bind.
  destruct (m w) as [[a|msg] w1]; cbn [fst snd] in *;
    rewrite resJson_eq; cbn [fst snd]; eexists; (split; [reflexivity|]);
    (split; [first [by left|right; by eauto]|]);
    intros He' Hm'; apply resJson_head; congruence.
Qed.

(** X15. POST /api/chat always answers and never throws, and the status
    of its answer is 200 or 400, whatever the mode, the input, the
    configuration and the upstream's behaviour: an upstream error
    status, a rejected request and a missing setting are all answered
    400 with an error message. On an enabled trace store that keeps at
    least one item the newest entry afterwards is the middleware's, of
    kind rest, with the status that was sent. *)
Theorem postChat_answers (cfg : gmap string string) (info : ReqInfo) (b : ChatBody)
    (w : World) :
  let run := postChat rt jsonCallsSend cfg info b w in
  exists r,
    run.1 = Return r /\
    (code r = 200 \/ (code r = 400 /\ exists msg, payload r = errorBody msg)) /\
    (TraceStore.enabled (store w) = true -> 1 <= TraceStore.maxItems (store w) ->
       exists i, head (TraceStore.items (store run.2)) = Some i /\
                 RestItem info (code r) i).
Proof.
  intros run. subst run.
  destruct (String.eqb (JS.toLowerCase (mode b)) "maximo") eqn:Hmode.
  - destruct (JS.startsWith "/" (JS.trim (text b))) eqn:Hs.
    { rewrite (postChat_direct rt jsonCallsSend cfg info b w Hmode Hs).
      apply (answer_head _ _ 200 info _ (afterClock w)), callMaximoWith_keeps. }
    destruct (isSummarize (JS.toLowerCase (JS.trim (text b)))) eqn:Hz.
    2:{ rewrite (postChat_query rt jsonCallsSend cfg info b w Hmode Hs Hz).
        apply (answer_head _ _ 200 info _ (afterClock w)), callMaximoWith_keeps. }
    destruct (Json.truthyOpt (lastMaximo (store w) ≫= TraceStore.response)) eqn:Hl.
    2:{ rewrite (postChat_summarize_nothing rt jsonCallsSend cfg info b w Hmode Hs Hz Hl).
        rewrite resJson_eq. cbn [fst snd]. eexists. split; [reflexivity|].
        split; [right; by eauto|]. intros He Hm. by apply resJson_head. }
    destruct (lastMaximo (store w)) as [last|] eqn:Hlast; [|done].
    cbn [mbind option_bind] in Hl.
    destruct (TraceStore.response last) as [lr|] eqn:Hr; [|done].
    rewrite (postChat_summarize rt jsonCallsSend cfg info b w last lr
               Hmode Hs Hz Hlast Hr Hl).
    apply (answer_head _ _ 200 info _ (afterClock w)), chatCompletionWith_keeps.
  - unfold postChat, chatBody. rewrite Hmode.
    apply (answer_head _ _ 200 info _ (afterClock w)), chatCompletionWith_keeps.
Qed.

End ChatAnswer.

(** ** config.ts: the aliases of the settings *)

Section ConfigFacts.
Import Config.

Lemma aliasIfMissing_lookup_ne t src m k :
  t <> k -> aliasIfMissing t src m !! k = m !! k.
Proof.
  intros Hne. unfold aliasIfMissing. destruct (m !! t); [done|].
  destruct (m !! src) as [v|]; [|done]. destruct (JS.nonEmpty v); [|done].
  by rewrite lookup_insert_ne.
Qed.

Lemma aliasIfMissing_lookup_eq t src m :
  aliasIfMissing t src m !! t =
    match m !! t with
    | Some v => Some v
    | None => if JS.truthyStr (m !! src) then m !! src else None
    end.
Proof.
  unfold aliasIfMissing. destruct (m !! t) as [v|] eqn:E; [done|].
  destruct (m !! src) as [v|]; cbn; [|done]. destruct (JS.nonEmpty v); [|done].
  by rewrite lookup_insert_eq.
Qed.

Lemma aliasIfFalsy_lookup_ne t src m k :
  t <> k -> aliasIfFalsy t src m !! k = m !! k.
Proof.
  intros Hne. unfold aliasIfFalsy. destruct (JS.truthyStr (m !! t)); [done|].
  destruct (m !! src) as [v|]; [|done]. destruct (JS.nonEmpty v); [|done].
  by rewrite lookup_insert_ne.
Qed.

Lemma aliasIfFalsy_lookup_eq t src m :
  aliasIfFalsy t src m !! t =
    if JS.truthyStr (m !! t) then m !! t
    else if JS.truthyStr (m !! src) then m !! src else m !! t.
Proof.
  unfold aliasIfFalsy. destruct (JS.truthyStr (m !! t)); [done|].
  destruct (m !! src) as [v|]; cbn; [|done]. destruct (JS.nonEmpty v); [|done].
  by rewrite lookup_insert_eq.
Qed.

Ltac peel_alias :=
  first [ rewrite aliasIfMissing_lookup_ne by done
        | rewrite aliasIfFalsy_lookup_ne by done ].

Ltac at_alias s t src :=
  first [ rewrite aliasIfMissing_lookup_eq | rewrite aliasIfFalsy_lookup_eq ];
  repeat peel_alias;
  unfold normalizedLookup;
  change (ruleOf aliasRules t) with (Some (false, src)) ||
  change (ruleOf aliasRules t) with (Some (true, src));
  destruct (s !! t) as [[|? ?]|]; destruct (s !! src) as [[|? ?]|]; reflexivity.

(** After normalisation each key reads what the table of aliases says. *)
Lemma normalizeSecrets_lookup s k : normalizeSecrets s !! k = normalizedLookup s k.
Proof.
  unfold normalizeSecrets. cbv zeta.
  destruct (String.eqb_spec "watsonx_baseurl" k) as [<-|H9];
    [at_alias s "watsonx_baseurl" "watsonx_base"|peel_alias].
  destruct (String.eqb_spec "deepseek_baseurl" k) as [<-|H8];
    [at_alias s "deepseek_baseurl" "deepseek_base"|peel_alias].
  destruct (String.eqb_spec "mistral_baseurl" k) as [<-|H7];
    [at_alias s "mistral_baseurl" "mistral_base"|peel_alias].
  destruct (String.eqb_spec "gemini_baseurl" k) as [<-|H6];
    [at_alias s "gemini_baseurl" "gemini_base"|peel_alias].
  destruct (String.eqb_spec "anthropic_baseurl" k) as [<-|H5];
    [at_alias s "anthropic_baseurl" "anthropic_base"|peel_alias].
  destruct (String.eqb_spec "openai_baseurl" k) as [<-|H4];
    [at_alias s "openai_baseurl" "openai_base"|peel_alias].
  destruct (String.eqb_spec "aiProvider" k) as [<-|H3];
    [at_alias s "aiProvider" "provider"|peel_alias].
  destruct (String.eqb_spec "maximoApiKey" k) as [<-|H2];
    [at_alias s "maximoApiKey" "maximo_apikey"|peel_alias].
  destruct (String.eqb_spec "maximoUrl" k) as [<-|H1];
    [at_alias s "maximoUrl" "maximo_url"|peel_alias].
  unfold normalizedLookup. cbn [ruleOf aliasRules].
  by rewrite (proj2 (String.eqb_neq _ _) H1), (proj2 (String.eqb_neq _ _) H2),
    (proj2 (String.eqb_neq _ _) H3), (proj2 (String.eqb_neq _ _) H4),
    (proj2 (String.eqb_neq _ _) H5), (proj2 (String.eqb_neq _ _) H6),
    (proj2 (String.eqb_neq _ _) H7), (proj2 (String.eqb_neq _ _) H8),
    (proj2 (String.eqb_neq _ _) H9).
Qed.

End ConfigFacts.

Section ConfigMore.
Import Config.

Lemma ruleOf_source k f src :
  ruleOf aliasRules k = Some (f, src) -> ruleOf aliasRules src = None.
Proof.
  cbn [ruleOf aliasRules].
  repeat match goal with
    | |- context [String.eqb ?t k] =>
        destruct (String.eqb_spec t k) as [<-|?]; [by intros [= <- <-]|]
    end.
  done.
Qed.

Lemma normalizeSecrets_keeps s k v :
  s !! k = Some v -> k <> "aiProvider" \/ v <> "" -> normalizeSecrets s !! k = Some v.
Proof.
  intros Hv Hc. rewrite normalizeSecrets_lookup. unfold normalizedLookup.
  destruct (ruleOf aliasRules k) as [[f src]|] eqn:E; [|done].
  rewrite Hv. destruct f; [|done].
  destruct v as [|c v]; [|done]. destruct Hc as [Hc|Hc]; [|done].
  exfalso. apply Hc. revert E. cbn [ruleOf aliasRules].
  repeat match goal with
    | |- context [String.eqb ?t k] =>
        destruct (String.eqb_spec t k) as [<-|?]; [by intros [= ]|]
    end.
  done.
Qed.

(** X16. [normalizeSecrets] key by key: a key that is no alias target
    reads as before; an alias target keeps the value it has and
    otherwise takes the non-empty value of its source. So every entry
    of the settings is kept, an empty [aiProvider] apart (it is
    overwritten by a non-empty [provider]), and a value that appears
    was the non-empty value of the alias source. *)
Theorem normalizeSecrets_aliases (s : gmap string string) :
  (forall k, normalizeSecrets s !! k = normalizedLookup s k) /\
  (forall k, ruleOf aliasRules k = None -> normalizeSecrets s !! k = s !! k) /\
  (forall k v, s !! k = Some v -> k <> "aiProvider" \/ v <> "" ->
     normalizeSecrets s !! k = Some v) /\
  (forall k v, normalizeSecrets s !! k = Some v ->
     s !! k = Some v \/
     exists f src, ruleOf aliasRules k = Some (f, src) /\ s !! src = Some v /\ v <> "").
Proof.
  split; [apply normalizeSecrets_lookup|]. split; [|split].
  - intros k Hk. rewrite normalizeSecrets_lookup. unfold normalizedLookup. by rewrite Hk.
  - intros k v. apply normalizeSecrets_keeps.
  - intros k v. rewrite normalizeSecrets_lookup. unfold normalizedLookup.
    destruct (ruleOf aliasRules k) as [[f src]|] eqn:E; [|by left].
    destruct (match s !! k with Some _ => _ | None => _ end); [by left|].
    destruct (s !! src) as [[|c x]|] eqn:Hs; cbn [JS.truthyStr JS.nonEmpty];
      [by left| |by left].
    intros [= <-]. right. by exists f, src.
Qed.

(** X17. Normalising twice is normalising once. *)
Theorem normalizeSecrets_idempotent (s : gmap string string) :
  normalizeSecrets (normalizeSecrets s) = normalizeSecrets s.
Proof.
  apply map_eq. intros k. rewrite (normalizeSecrets_lookup (normalizeSecrets s)).
  unfold normalizedLookup at 1.
  destruct (ruleOf aliasRules k) as [[f src]|] eqn:E; [|done].
  assert (Hsrc : normalizeSecrets s !! src = s !! src).
  { rewrite normalizeSecrets_lookup. unfold normalizedLookup.
    by rewrite (ruleOf_source k f src E). }
  rewrite Hsrc. rewrite (normalizeSecrets_lookup s k). unfold normalizedLookup.
  rewrite E.
  destruct (s !! k) as [[|c v]|]; destruct (s !! src) as [[|c' v']|]; by destruct f.
Qed.

End ConfigMore.

Section ConfigGateways.
Import Config.
Context (rt : Runtime).

Lemma normalizeSecrets_plain_key s k :
  ruleOf aliasRules k = None -> normalizeSecrets s !! k = s !! k.
Proof.
  intros Hk. rewrite normalizeSecrets_lookup. unfold normalizedLookup. by rewrite Hk.
Qed.

(** A key and its alias read through [a || b] as before normalisation. *)
Lemma normalizeSecrets_alias_pair s t src :
  ruleOf aliasRules t = Some (false, src) ->
  JS.orElse (normalizeSecrets s !! t) (normalizeSecrets s !! src)
  = JS.orElse (s !! t) (s !! src).
Proof.
  intros Ht. rewrite (normalizeSecrets_plain_key s src (ruleOf_source t _ _ Ht)).
  rewrite normalizeSecrets_lookup. unfold normalizedLookup. rewrite Ht.
  destruct (s !! t) as [[|c v]|]; destruct (s !! src) as [[|c' v']|]; done.
Qed.

Lemma authTable_normalizeSecrets s :
  Providers.authTable (normalizeSecrets s) = Providers.authTable s.
Proof.
  unfold Providers.authTable.
  rewrite (normalizeSecrets_alias_pair s "openai_baseurl" "openai_base" eq_refl),
    (normalizeSecrets_alias_pair s "mistral_baseurl" "mistral_base" eq_refl),
    (normalizeSecrets_alias_pair s "deepseek_baseurl" "deepseek_base" eq_refl),
    (normalizeSecrets_alias_pair s "watsonx_baseurl" "watsonx_base" eq_refl),
    (normalizeSecrets_alias_pair s "anthropic_baseurl" "anthropic_base" eq_refl),
    (normalizeSecrets_alias_pair s "gemini_baseurl" "gemini_base" eq_refl).
  by rewrite (normalizeSecrets_plain_key s "openai_key" eq_refl),
    (normalizeSecrets_plain_key s "mistral_key" eq_refl),
    (normalizeSecrets_plain_key s "deepseek_key" eq_refl),
    (normalizeSecrets_plain_key s "watsonx_key" eq_refl),
    (normalizeSecrets_plain_key s "anthropic_key" eq_refl),
    (normalizeSecrets_plain_key s "gemini_key" eq_refl).
Qed.

Lemma aiProvider_normalizeSecrets s :
  normalizeSecrets s !! "aiProvider" = aliasIfFalsy "aiProvider" "provider" s !! "aiProvider".
Proof.
  rewrite normalizeSecrets_lookup, aliasIfFalsy_lookup_eq. unfold normalizedLookup.
  change (ruleOf aliasRules "aiProvider") with (Some (true, "provider")).
  destruct (s !! "aiProvider") as [[|c v]|]; done.
Qed.

(** X18. Normalising the settings does not change what the gateways
    read from them. A backend call on the normalised settings is the
    call on the settings as they were; the credentials resolved for any
    provider, and the selected provider, are those of the settings with
    the one alias that can matter, [provider] for a missing or empty
    [aiProvider]; and that alias changes nothing when [aiProvider] is
    set or [provider] is not. *)
Theorem normalizeSecrets_gateways (s : gmap string string) :
  let aliased := aliasIfFalsy "aiProvider" "provider" s in
  (forall path method body w,
     Maximo.callMaximoWith rt (normalizeSecrets s) path method body w
     = Maximo.callMaximoWith rt s path method body w) /\
  (forall provider,
     Providers.resolveProviderAuth (normalizeSecrets s) provider
     = Providers.resolveProviderAuth aliased provider) /\
  Providers.getSelectedProvider (normalizeSecrets s)
    = Providers.getSelectedProvider aliased /\
  (JS.truthyStr (s !! "aiProvider") = true \/ JS.truthyStr (s !! "provider") = false ->
     aliased = s).
Proof.
  intros aliased. split; [|split; [|split]].
  - intros path method body w. unfold Maximo.callMaximoWith.
    by rewrite (normalizeSecrets_alias_pair s "maximoUrl" "maximo_url" eq_refl),
      (normalizeSecrets_alias_pair s "maximoApiKey" "maximo_apikey" eq_refl).
  - intros provider. unfold Providers.resolveProviderAuth.
    rewrite authTable_normalizeSecrets, aiProvider_normalizeSecrets.
    rewrite (normalizeSecrets_plain_key s "aiApiKey" eq_refl),
      (normalizeSecrets_plain_key s "aiBaseUrl" eq_refl).
    unfold aliased, Providers.authTable.
    set (a := aliasIfFalsy "aiProvider" "provider" s !! "aiProvider").
    by rewrite !(aliasIfFalsy_lookup_ne "aiProvider" "provider" s) by done.
  - unfold Providers.getSelectedProvider. by rewrite aiProvider_normalizeSecrets.
  - unfold aliased, aliasIfFalsy. intros [->| Hp]; [done|].
    destruct (JS.truthyStr (s !! "aiProvider")); [done|].
    destruct (s !! "provider") as [v|]; [|done]. cbn in Hp. by rewrite Hp.
Qed.

End ConfigGateways.

Section ConfigUpdate.
Import Config.

(** X19. Writing settings and reading them back. After
    [updateConfig(patch)] every entry of the patch's secrets (an empty
    [aiProvider] apart) and every avatar of the patch is in the
    configuration returned, whatever the bootstrap configuration and
    the earlier updates hold for that key; the configuration returned
    is the one [getConfig] gives afterwards; a patch without secrets
    leaves the secrets as they were; and the same patch applied again
    changes nothing. *)
Theorem updateConfig_read_back (bootstrap patch : PartialConfig) (inMemory : AppConfig) :
  let after := updateConfig bootstrap patch inMemory in
  after.2 = getConfig bootstrap after.1 /\
  (forall ps k v, pSecrets patch = Some ps -> ps !! k = Some v ->
     k <> "aiProvider" \/ v <> "" -> secrets after.2 !! k = Some v) /\
  (forall pa k v, pAvatars patch = Some pa -> pa !! k = Some v ->
     avatars after.2 !! k = Some v) /\
  (pSecrets patch = None -> secrets after.2 = secrets (getConfig bootstrap inMemory)) /\
  updateConfig bootstrap patch after.1 = after.
Proof.
  intros after. subst after. unfold updateConfig. cbn [fst snd].
  split; [done|]. split; [|split; [|split]].
  - intros ps k v Hps Hk Hc. unfold getConfig, patchInMemory. cbn [secrets].
    rewrite Hps.
    apply normalizeSecrets_keeps; [|done].
    apply lookup_union_Some_l, lookup_union_Some_l.
    by apply normalizeSecrets_keeps.
  - intros pa k v Hpa Hk. unfold getConfig, patchInMemory. cbn [avatars].
    rewrite Hpa. by apply lookup_union_Some_l, lookup_union_Some_l.
  - intros Hps. unfold getConfig, patchInMemory. cbn [secrets]. by rewrite Hps.
  - f_equal; [|f_equal]; unfold patchInMemory; cbn [secrets avatars ui];
      (f_equal;
       [ destruct (pSecrets patch); [|done];
         by rewrite (assoc_L (∪)), (idemp_L (∪))
       | destruct (pAvatars patch); [|done];
         by rewrite (assoc_L (∪)), (idemp_L (∪))
       | destruct (pUi patch); [|done];
         by rewrite (assoc_L (∪)), (idemp_L (∪)) ]).
Qed.

End ConfigUpdate.

(** ** The callers over the stored configuration: providers.ts, chat.ts *)

Section CallersMore.
Import Callers.
Context (rt : Runtime).

Lemma getSelectedProvider_name (s : gmap string string) :
  exists p : Providers.ProviderId,
    Providers.getSelectedProvider s = Providers.providerName p.
Proof.
  unfold Providers.getSelectedProvider.
  set (q := JS.toLowerCase _).
  destruct (existsb (String.eqb q) _) eqn:Hex; [|by exists Providers.openai].
  apply existsb_eqb_elem in Hex. rewrite !elem_of_cons, elem_of_nil in Hex.
  destruct Hex as [->|[->|[->|[->|[->|[]]]]]];
    [by exists Providers.anthropic|by exists Providers.gemini|by exists Providers.mistral|
     by exists Providers.watsonx|by exists Providers.deepseek].
Qed.

(** X20. [chatCompletion] over the stored configuration never fails
    with the unsupported-provider error: the selected provider is
    always one the gateway has a protocol for. Without a key for it the
    call throws the configuration error and leaves the world as it
    was; with one it makes exactly one request, a POST. *)
Theorem chatCompletion_selected_provider (cfg : gmap string string) (prompt : string)
    (system : option string) (w : World) :
  let auth := Providers.resolveProviderAuth cfg (Providers.getSelectedProvider cfg) in
  let run := chatCompletion rt cfg prompt system w in
  (JS.truthyStr (Providers.apiKey auth) = false ->
     run = (Throw "AI API key is not configured.", w)) /\
  (JS.truthyStr (Providers.apiKey auth) = true ->
     exists rq, fetched run.2 = (fetched w ++ [rq])%list /\ Net.method rq = "POST").
Proof.
  intros auth run. subst run. unfold chatCompletion. fold auth. split.
  - intros Hk. by apply chatCompletionWith_no_key.
  - intros Hk. apply chatCompletionWith_posts; [done|]. cbn [Chat.provider].
    destruct (getSelectedProvider_name cfg) as [p ->]. by destruct p.
Qed.


(** X22. [handleChat] of chat.ts. In backend mode nothing but the REST
    part of the request is read (the prompt and the system text are
    not), and without a path in it the call is a GET of
    [/api/os/mxapiwo] under the normalised base, with no body. In
    every other mode the backend is not called: at most one request is
    made, a POST, and only entries of kind ai are recorded. *)
Theorem handleChat_modes (cfg : gmap string string) (req : ChatRequest) (w : World) :
  let base := JS.orElse (cfg !! "maximoUrl") (cfg !! "maximo_url") in
  let apiKey := JS.orElse (cfg !! "maximoApiKey") (cfg !! "maximo_apikey") in
  (mode req = "maximo" ->
     (forall req', mode req' = "maximo" -> maximo req' = maximo req ->
        handleChat rt cfg req' w = handleChat rt cfg req w) /\
     (maximo req = None \/ (exists m, maximo req = Some m /\ path m = "") ->
      JS.truthyStr base = true -> JS.truthyStr apiKey = true ->
        exists rq,
          fetched (handleChat rt cfg req w).2 = (fetched w ++ [rq])%list /\
          Net.method rq = "GET" /\ Net.body rq = Net.NoBody /\
          Net.url rq = Maximo.normalizeBase (default "" base) +:+ "/api/os/mxapiwo")) /\
  (mode req <> "maximo" -> ChatEffect w (handleChat rt cfg req w).2).
Proof.
  intros base apiKey. split.
  - intros Hm. split.
    + intros req' Hm' Hx. unfold handleChat. by rewrite Hm, Hm', Hx.
    + intros Hnone Hb Hk.
      assert (Hcall : handleChat rt cfg req w =
                (data ← callMaximo rt cfg "/api/os/mxapiwo" "GET" None;
                 mret (MaximoReply "Maximo response" data)) w).
      { unfold handleChat. rewrite Hm.
        destruct Hnone as [->|(m & -> & Hp)]; [done|]. by rewrite Hp. }
      rewrite Hcall. unfold callMaximo, mbind, M_bind, bind.
      pose proof (callMaximoWith_fetches rt cfg "/api/os/mxapiwo" "GET" None w Hb Hk)
        as Hf.
      destruct (Maximo.callMaximoWith rt cfg "/api/os/mxapiwo" "GET" None w)
        as [[data|msg] w1]; cbn [fst snd] in *; eexists; (split; [exact Hf|]); done.
  - intros Hm. unfold handleChat.
    destruct (String.eqb_spec (mode req) "maximo") as [?|_]; [done|].
    unfold chatCompletion, mbind, M_bind, bind.
    match goal with
    | |- context [Chat.chatCompletionWith rt ?a w] =>
        pose proof (chatCompletionWith_effect rt a w) as He;
        destruct (Chat.chatCompletionWith rt a w) as [[out|msg] w1]
    end; exact He.
Qed.

End CallersMore.

(** ** proxy.ts *)

Section ProxyLibrary.
Import Proxy.
Context (rt : Runtime) (responseMeta : Net.Response -> string * gmap string string).

(** X23. [proxy] of proxy.ts makes exactly one request, to the URL as
    given, and records nothing in the trace store. The caller's headers
    are passed on; only [content-type] can be added, when a body is
    sent and the caller gave none (an empty one counts as none). A GET
    or HEAD request, and a request whose body is missing or null, carry
    no body and exactly the caller's headers. A rejected request is
    thrown on; an answer is returned with its status and text, and its
    [json] is the parsed text, or null when the text is empty or no
    JSON. *)
Theorem proxy_forwards (req : ProxyRequest) (w : World) :
  let rq := proxyInit req in
  let given := default ∅ (headers req) in
  let run := proxy rt responseMeta req w in
  Net.url rq = url req /\
  (forall k, k <> "content-type" -> Net.headers rq !! k = given !! k) /\
  (forall c, given !! "content-type" = Some c -> c <> "" ->
     Net.headers rq !! "content-type" = Some c) /\
  (Net.method rq = "GET" \/ Net.method rq = "HEAD" \/
   body req = None \/ body req = Some JS.VNull ->
     Net.body rq = Net.NoBody /\ Net.headers rq = given) /\
  fetched run.2 = (fetched w ++ [rq])%list /\
  store run.2 = store w /\
  match fetch rt (fetched w) rq with
  | Net.Failure msg => run.1 = Throw msg
  | Net.Answer res =>
      exists out,
        run.1 = Return out /\
        status out = Net.status res /\ ok out = Net.ok res /\ text out = Net.text res /\
        (Net.text res = "" -> json out = JS.VNull) /\
        (JSON_parse rt (Net.text res) = None -> json out = JS.VNull) /\
        (forall v, Net.text res <> "" -> JSON_parse rt (Net.text res) = Some v ->
           json out = v)
  end.
Proof.
  intros rq given run.
  assert (Hdc : forall d k, k <> "content-type" ->
            defaultContentType d given !! k = given !! k).
  { intros d k Hk. unfold defaultContentType.
    destruct (JS.truthyStr _); [done|]. by rewrite lookup_insert_ne. }
  assert (Hct : forall d c, given !! "content-type" = Some c -> c <> "" ->
            defaultContentType d given !! "content-type" = Some c).
  { intros d c Hc Hne. unfold defaultContentType. rewrite Hc.
    by destruct c. }
  split; [|split; [|split; [|split]]].
  - subst rq. unfold proxyInit.
    destruct (body req) as [[]|]; cbn; repeat destruct (_ && _); done.
  - intros k Hk. subst rq. unfold proxyInit. fold given.
    destruct (body req) as [[]|]; cbn [Net.headers];
      repeat (destruct (_ && _); cbn [Net.headers]); auto.
  - intros c Hc Hne. subst rq. unfold proxyInit. fold given.
    destruct (body req) as [[]|]; cbn [Net.headers];
      repeat (destruct (_ && _); cbn [Net.headers]); eauto.
  - subst rq. unfold proxyInit. fold given.
    set (m := JS.toUpperCase _).
    assert (Hm : forall b : Net.Request, Net.method b = m ->
              Net.method b = "GET" \/ Net.method b = "HEAD" ->
              negb (String.eqb m "GET") && negb (String.eqb m "HEAD") = false).
    { intros b -> [-> | ->]; done. }
    destruct (body req) as [v|] eqn:Hb; [|done].
    destruct v; try done;
      (destruct (negb (String.eqb m "GET") && negb (String.eqb m "HEAD")) eqn:E;
       [|done]; cbn [Net.method];
       intros [H|[H|[H|H]]]; try done;
       [ specialize (Hm {| Net.method := m; Net.url := ""; Net.headers := ∅;
                           Net.body := Net.NoBody |} eq_refl (or_introl H))
       | specialize (Hm {| Net.method := m; Net.url := ""; Net.headers := ∅;
                           Net.body := Net.NoBody |} eq_refl (or_intror H)) ];
       congruence).
  - subst run. unfold proxy, mbind, M_bind, bind, doFetch, mret, M_ret, ret.
    fold rq. destruct (fetch rt (fetched w) rq) as [res|msg]; cbn [fst snd fetched store].
    + split; [done|]. split; [done|]. eexists. split; [reflexivity|].
      cbn [status ok text json]. unfold parseJson.
      split; [done|]. split; [done|]. split; [done|].
      split; [by intros ->|]. split.
      * intros ->. by destruct (JS.nonEmpty _).
      * intros v Hne ->. by destruct (Net.text res).
    + done.
Qed.

End ProxyLibrary.

(** ** Recording, listing and clearing *)

Section ListingMore.
Import TraceStore.

Lemma listTraces_head k limit s :
  head (listTraces k limit s)
  = head (match k with
          | Some k' => filter (fun i => kind i = k') (items s)
          | None => items s
          end).
Proof.
  unfold listTraces.
  destruct (Z.to_nat (Z.max 1 (Z.min (default 200 limit) (maxItems s)))) eqn:E; [lia|].
  by destruct (match k with Some _ => _ | None => _ end).
Qed.

(** The item just recorded is the first one listed for its kind. *)
Lemma addTrace_listed st p s limit :
  enabled s = true -> 1 <= maxItems s ->
  head (listTraces (Some (Partial.kind p)) limit (addTrace st p s).1)
  = Some (buildItem st p).
Proof.
  intros He Hm. rewrite listTraces_head.
  destruct (addTrace_items st p s He) as [-> _]; [lia|].
  destruct (Z.to_nat (maxItems s)) eqn:E; [lia|].
  cbn [take]. by rewrite filter_cons_True.
Qed.

(** X24. Listing after recording and after clearing. On an enabled
    store that keeps at least one item, the item just recorded is the
    first one listed for its kind and the first one listed without a
    kind, whatever the limit. After [clearTraces] nothing is listed,
    whatever the kind and the limit, the state (enabled, bound, other
    keys) is as it was, and the next recorded item is the only one. *)
Theorem listTraces_after_addTrace_and_clearTraces (st : Stamp) (p : Partial.t)
    (s : Store) (k : option TraceKind) (limit : option Z) :
  (enabled s = true -> 1 <= maxItems s ->
     head (listTraces (Some (Partial.kind p)) limit (addTrace st p s).1)
       = Some (buildItem st p) /\
     head (listTraces None limit (addTrace st p s).1) = Some (buildItem st p)) /\
  listTraces k limit (clearTraces s) = [] /\
  enabled (clearTraces s) = enabled s /\
  maxItems (clearTraces s) = maxItems s /\
  aux (clearTraces s) = aux s /\
  (enabled s = true -> 1 <= maxItems s ->
     items (addTrace st p (clearTraces s)).1 = [buildItem st p]).
Proof.
  split; [|split; [|split; [|split; [|split]]]]; try done.
  - intros He Hm. split; [by apply addTrace_listed|].
    rewrite listTraces_head. destruct (addTrace_items st p s He) as [-> _]; [lia|].
    by destruct (Z.to_nat (maxItems s)) eqn:E; [lia|].
  - unfold listTraces, clearTraces. cbn [items withItems].
    destruct k; by rewrite ?filter_nil, take_nil.
  - intros He Hm.
    destruct (addTrace_items st p (clearTraces s) He) as [-> _]; [cbn; lia|].
    cbn [clearTraces withItems maxItems items].
    destruct (Z.to_nat (maxItems s)) eqn:E; [lia|]. cbn [take]. by rewrite take_nil.
Qed.

End ListingMore.

Section BackendListed.
Context (rt : Runtime).
Import Maximo.

(** X25. The entry of a backend call is what the summary reads next.
    After a backend call that the upstream answered (with any status),
    on an enabled trace store that keeps at least one item, the first
    entry listed for the backend kind is the entry of that call: its
    method, its URL, the answer's status, and as response the parsed
    body, or the text when it is no JSON. *)
Theorem callMaximoWith_listed (secrets : gmap string string) (path method : string)
    (body : option JS.Value) (w : World) (resp : Net.Response) (limit : option Z) :
  let base := JS.orElse (secrets !! "maximoUrl") (secrets !! "maximo_url") in
  let apiKey := JS.orElse (secrets !! "maximoApiKey") (secrets !! "maximo_apikey") in
  let rq := maximoRequest (default "" base) (default "" apiKey) path method body in
  let run := callMaximoWith rt secrets path method body w in
  JS.truthyStr base = true -> JS.truthyStr apiKey = true ->
  fetch rt (fetched w) rq = Net.Answer resp ->
  TraceStore.enabled (store w) = true -> 1 <= TraceStore.maxItems (store w) ->
  exists i,
    head (TraceStore.listTraces (Some TraceStore.maximo) limit (store run.2)) = Some i /\
    TraceStore.kind i = TraceStore.maximo /\
    TraceStore.method i = Some method /\
    TraceStore.url i = Some (Net.url rq) /\
    TraceStore.status i = Some (Net.status resp) /\
    TraceStore.response i
      = Some (Chat.dataOrText (Chat.parseOrNull rt (Net.text resp)) (Net.text resp)).
Proof.
  intros base apiKey rq run Hb Hk Hf He Hm. subst run.
  unfold callMaximoWith. fold base apiKey. rewrite Hb, Hk. cbn [negb]. fold rq.
  unfold mbind, M_bind, bind, now, doFetch, addTrace, mret, M_ret, ret, throw.
  cbn [fetched store tick fst snd]. rewrite Hf. cbn [fetched store tick fst snd].
  match goal with
  | |- context [(TraceStore.addTrace ?st ?p ?s).2] =>
      pose proof (addTrace_listed st p s limit He Hm) as Hl;
      destruct (TraceStore.addTrace st p s) as [s' [e|]]
  end; cbn [fetched store tick fst snd] in *.
  - eexists. split; [exact Hl|]. by repeat split.
  - destruct (negb (Net.ok resp)); cbn [fetched store tick fst snd];
      eexists; (split; [exact Hl|]); by repeat split.
Qed.

End BackendListed.

(** A backend call on the sample backend, then the listing. *)
Lemma callMaximoWith_listed_witness :
  exists i,
    head (TraceStore.listTraces (Some TraceStore.maximo) (Some 1)
            (store (Maximo.callMaximoWith silentRuntime backendSecrets
                      "/api/os/mxapiwo" "GET" None Demo.world0).2)) = Some i /\
    TraceStore.kind i = TraceStore.maximo /\
    TraceStore.method i = Some "GET" /\
    TraceStore.url i = Some "https://host/maximo/api/os/mxapiwo" /\
    TraceStore.status i = Some 200 /\
    TraceStore.response i = Some (JS.VStr "{}").
Proof.
  apply (callMaximoWith_listed silentRuntime backendSecrets "/api/os/mxapiwo" "GET" None
           Demo.world0 {| Net.status := 200; Net.text := "{}" |} (Some 1)
           eq_refl eq_refl eq_refl eq_refl).
  cbn. lia.
Defined.

(** ** TracePage.tsx: the base URL of the REST builder *)

Section TracePageFacts.
Import TracePage.

Lemma endsWithMaximo_app p m :
  JS.toLowerCase m = "/maximo" -> endsWithMaximo (p +:+ m) = true.
Proof.
  intros Hm. induction p as [|c p IH].
  - rewrite app_empty_l. destruct m as [|a m]; [done|].
    cbn [endsWithMaximo]. by rewrite Hm.
  - rewrite app_cons. cbn [endsWithMaximo]. by rewrite IH, orb_true_r.
Qed.

Lemma endsWithMaximo_spec s :
  endsWithMaximo s = true ->
  exists p m, s = p +:+ m /\ JS.toLowerCase m = "/maximo".
Proof.
  induction s as [|c s IH]; [done|]. cbn [endsWithMaximo].
  intros [H|H]%orb_true_iff.
  - exists "", (String c s). split; [done|]. by apply String.eqb_eq.
  - destruct (IH H) as (p & m & -> & Hm). exists (String c p), m.
    by rewrite app_cons.
Qed.

(** A string that ends in [/maximo] does not end in a slash. *)
Lemma endsWithMaximo_no_slash s :
  endsWithMaximo s = true -> Chat.stripTrailingSlash s = s.
Proof.
  induction s as [|c s IH]; [done|]. cbn [endsWithMaximo].
  intros [H|H]%orb_true_iff.
  - apply String.eqb_eq in H. cbn [JS.toLowerCase] in H.
    destruct s as [|c1 [|c2 [|c3 [|c4 [|c5 [|c6 [|c7 s]]]]]]]; try discriminate H.
    cbn [JS.toLowerCase] in H. injection H as _ _ _ _ _ _ H6.
    cbn [Chat.stripTrailingSlash].
    destruct (ascii_dec c6 "/") as [->|]; [discriminate H6|done].
  - specialize (IH H). cbn [Chat.stripTrailingSlash].
    destruct s as [|c' s']; [done|]. by rewrite IH.
Qed.

(** What the replacement cuts: nothing, or from the leftmost place
    where the pattern matches to the end. *)
Lemma replaceMaximoApi_spec s :
  exists p cut,
    s = p +:+ cut /\
    ((cut = "" /\ replaceMaximoApi s = s) \/
     (maximoApiHere cut = true /\ replaceMaximoApi s = p +:+ "/maximo")).
Proof.
  induction s as [|c s (p & cut & Hs & IH)].
  - exists "", "". split; [done|]. left. split; reflexivity.
  - cbn [replaceMaximoApi]. destruct (maximoApiHere (String c s)) eqn:E.
    + exists "", (String c s). split; [done|]. right. by split.
    + exists (String c p), cut. split; [by rewrite app_cons, <- Hs|].
      destruct IH as [[-> IH]|[Hm IH]].
      * left. split; [done|]. by rewrite IH.
      * right. split; [done|]. by rewrite IH, app_cons.
Qed.


End TracePageFacts.

(** ** ResultViewer.tsx: rows and row counts *)

Section ResultViewerFacts.
Import ResultViewer.

(** X27. [normalizeToRows] and [inferMaximoRowCount]. The rows of a
    result are never empty and begin with an object or an array (or
    with [null], when they are the [rows] of a result that has
    [columns] and [rows]). Whenever there are rows there is a row
    count, and unless the rows are those of a [columns]/[rows] table
    the count is the number of rows. A count is never negative, and
    [null] has neither rows nor count. *)
Theorem normalizeToRows_and_row_count (input : JS.Value) :
  (forall rows, normalizeToRows input = Some rows ->
     exists r0 more, rows = r0 :: more /\ typeofObject r0 = true) /\
  (forall rows, normalizeToRows input = Some rows ->
     exists n, inferMaximoRowCount input = Some n /\
       (Some (JS.VArr rows) = Json.get "rows" (Some input) \/
        n = Z.of_nat (length rows))) /\
  (forall n, inferMaximoRowCount input = Some n -> 0 <= n) /\
  normalizeToRows JS.VNull = None /\ inferMaximoRowCount JS.VNull = None.
Proof.
  split; [|split; [|split; [|done]]].
  - intros rows. unfold normalizeToRows.
    destruct input; try done;
      (destruct (member _) as [[|d0 more]|]; try done;
       try (destruct d0; try done;
            destruct (Json.get "columns" _) as [[]|]; try (intros [= <-]; by eauto);
            destruct (Json.get "rows" _) as [[| | | |[|r0 rows']|]|];
            try (intros [= <-]; by eauto);
            destruct (typeofObject r0) eqn:E; intros [= <-]; by eauto)).
    all: destruct l as [|d0 more]; try done;
      destruct d0; try done; cbn [Json.get]; intros [= <-]; by eauto.
  - intros rows. unfold normalizeToRows, inferMaximoRowCount.
    destruct input as [|b|q|s|l|fields]; try done.
    + assert (member (JS.VArr l) = None) as -> by done.
      cbn [JS.truthy negb Json.get].
      destruct l as [|d0 more]; [done|]. destruct d0; try done;
        intros [= <-]; eexists; (split; [reflexivity|]); by right.
    + cbn [JS.truthy negb].
      destruct (member _) as [[|d0 more]|]; try done.
      destruct d0; try done;
        (destruct (Json.get "columns" _) as [[]|];
         try (intros [= <-]; eexists; (split; [reflexivity|]); by right);
         destruct (Json.get "rows" _) as [[| | | |[|r0 rows']|]|];
         try (intros [= <-]; eexists; (split; [reflexivity|]); by right);
         destruct (typeofObject r0) eqn:E; intros [= <-];
         eexists; (split; [reflexivity|]); first [by left|by right]).
  - intros n. unfold inferMaximoRowCount.
    destruct (negb _); [done|].
    destruct (member _); [intros [= <-]; lia|].
    destruct input; try done. intros [= <-]; lia.
Qed.

End ResultViewerFacts.

(** ** providers.ts: where each protocol puts the key *)

Section ChatCredentials.
Context (rt : Runtime).

Ltac chat_sent :=
  unfold mbind, M_bind, bind, now, doFetch, addTrace, mret, M_ret, ret, throw;
  cbn [fetched store tick fst snd];
  match goal with
  | |- context [fetch rt ?l ?rq] => instantiate (1 := rq)
  end;
  destruct (fetch rt _ _); cbn [fetched store tick fst snd];
  [ destruct (TraceStore.addTrace _ _ _) as [? [?|]]; cbn [snd];
    repeat match goal with
      | |- context [if ?c then _ else _] => destruct c
      | |- context [match ?c with _ => _ end] => destruct c
      end; reflexivity
  | reflexivity ].

Ltac chat_recorded :=
  let resp := fresh "resp" in
  let Hf := fresh "Hf" in
  let He := fresh "He" in
  let Hm := fresh "Hm" in
  let Hh := fresh "Hh" in
  intros resp Hf He Hm;
  unfold mbind, M_bind, bind, now, doFetch, addTrace, mret, M_ret, ret, throw;
  cbn [fetched store tick fst snd Net.url Net.body];
  cbn [Net.url Net.body] in Hf; rewrite Hf; cbn [fetched store tick fst snd];
  match goal with
  | |- context [(TraceStore.addTrace ?st ?p ?s).2] =>
      pose proof (addTrace_head st p s He Hm) as Hh;
      destruct (TraceStore.addTrace st p s).2
  end;
  cbn [fetched store tick fst snd];
  repeat match goal with
    | |- context [if negb ?c then _ else _] => destruct c; cbn [negb]
    | |- context [match Json.get ?a ?b with _ => _ end] => destruct (Json.get a b)
    | |- context [match ?v with JS.VNull => _ | _ => _ end] => destruct v
    | |- context [match Chat.joinTexts ?r ?l with _ => _ end] =>
        destruct (Chat.joinTexts r l)
    end;
  cbn [fetched store tick fst snd];
  (eexists; split; [exact Hh|]; split; [reflexivity|]; split; [reflexivity|];
   eexists; split; reflexivity).

(** X28. Where the key of a chat call goes, protocol by protocol. An
    OpenAI-compatible call sends it, trimmed, as bearer token; an
    Anthropic call sends it as it is in [x-api-key] and sends no
    Authorization header; a Gemini call sends no credential header and
    puts the encoded key in the query of the URL. In each protocol the
    entry recorded for an answered call holds the URL of the request
    and its JSON body and none of its headers; so the entry of a Gemini
    call holds the encoded key, in its URL. *)
Theorem chatCompletionWith_credentials (args : Chat.Args) (w : World) :
  JS.truthyStr (Chat.apiKey args) = true ->
  let key := default "" (Chat.apiKey args) in
  let run := Chat.chatCompletionWith rt args w in
  let base d := Chat.stripTrailingSlash (default "" (JS.orElse (Chat.baseUrl args) (Some d))) in
  let sent rq := fetched run.2 = (fetched w ++ [rq])%list in
  let recorded rq :=
    forall resp, fetch rt (fetched w) rq = Net.Answer resp ->
      TraceStore.enabled (store w) = true -> 1 <= TraceStore.maxItems (store w) ->
      exists i,
        head (TraceStore.items (store run.2)) = Some i /\
        TraceStore.kind i = TraceStore.ai /\
        TraceStore.url i = Some (Net.url rq) /\
        exists body, Net.body rq = Net.Json body /\ TraceStore.request i = Some body in
  (Providers.isOpenAICompatible (Chat.provider args) = true ->
     exists rq,
       sent rq /\ recorded rq /\
       Net.url rq = base "https://api.openai.com/v1" +:+ "/chat/completions" /\
       Net.headers rq !! "Authorization" = Some ("Bearer " +:+ JS.trim key)) /\
  (Providers.isOpenAICompatible (Chat.provider args) = false ->
   Chat.provider args = "anthropic" ->
     exists rq,
       sent rq /\ recorded rq /\
       Net.url rq = base "https://api.anthropic.com" +:+ "/v1/messages" /\
       Net.headers rq !! "x-api-key" = Some key /\
       Net.headers rq !! "Authorization" = None) /\
  (Providers.isOpenAICompatible (Chat.provider args) = false ->
   Chat.provider args = "gemini" ->
     exists rq,
       sent rq /\ recorded rq /\
       Net.url rq = base "https://generativelanguage.googleapis.com/v1beta"
                    +:+ "/models/" +:+ encodeURIComponent rt (Chat.model args)
                    +:+ ":generateContent?key=" +:+ encodeURIComponent rt key /\
       Net.headers rq = {[ "Content-Type" := "application/json" ]}).
Proof.
  intros Hk key run base sent recorded. subst run sent recorded base.
  unfold Chat.chatCompletionWith. rewrite Hk. cbn [negb]. fold key.
  split; [|split].
  - intros ->. unfold Chat.chatOpenAI.
    eexists. split; [chat_sent|]. split; [chat_recorded|]. by split.
  - intros -> ->. change (String.eqb "anthropic" "anthropic") with true.
    cbv iota. unfold Chat.chatAnthropic.
    eexists. split; [chat_sent|]. split; [chat_recorded|]. by split.
  - intros -> ->. change (String.eqb "gemini" "anthropic") with false.
    change (String.eqb "gemini" "gemini") with true. cbv iota.
    unfold Chat.chatGemini.
    eexists. split; [chat_sent|]. split; [chat_recorded|]. by split.
Qed.

End ChatCredentials.

(** The entry of a Gemini call holds the key in its URL. *)
Lemma chatCompletionWith_credentials_witness :
  TraceStore.url <$>
    head (TraceStore.items
            (store (Chat.chatCompletionWith silentRuntime geminiArgs Demo.world0).2))
  = Some (Some "https://generativelanguage.googleapis.com/v1beta/models/gemini-1.5-pro:generateContent?key=g-demo").
Proof.
  destruct (chatCompletionWith_credentials silentRuntime geminiArgs Demo.world0 eq_refl)
    as (_ & _ & H).
  destruct (H eq_refl eq_refl) as (rq & _ & Hr & Hu & _).
  assert (Hm : 1 <= TraceStore.maxItems (store Demo.world0)) by (cbn; lia).
  destruct (Hr {| Net.status := 200; Net.text := "{}" |} eq_refl eq_refl Hm)
    as (i & Hi & _ & Hurl & _).
  rewrite Hi. cbn [fmap option_fmap option_map]. by rewrite Hurl, Hu.
Defined.

(** ** index.ts: the keyword rules *)

Section ClassifyFacts.
Import Server.

(** X29. The keyword rules of the chat handler, for every input. The
    page size is 50 or 100. A filter is set only for an input that
    names work orders, and then it is the corrective filter (which wins
    over the open one) or the open filter, with the work-order field
    list and page size 100, whatever object structure was chosen. An
    object structure named by the UI is kept; otherwise it is one of
    the five known ones. The default field list changes nothing but an
    empty field list, and without an object structure named by the UI
    the query always carries a field list. *)
Theorem classify_invariants (uiOS lower : string) :
  let q := classify uiOS lower in
  let fq := withDefaultSelect q in
  (pageSize q = 50 \/ pageSize q = 100) /\
  (where_ q <> "" ->
     isWO lower = true /\ select q = woSelect /\ pageSize q = 100 /\
     (where_ q = correctiveWhere \/ where_ q = openWhere)) /\
  (JS.includes "corrective" lower = true -> isWO lower = true ->
     where_ q = correctiveWhere) /\
  (uiOS <> "" -> os q = uiOS) /\
  (uiOS = "" -> os q ∈ ["mxapilocation"; "mxapiasset"; "mxapisr"; "mxapiinv"; "mxapiwo"]) /\
  os fq = os q /\ where_ fq = where_ q /\ pageSize fq = pageSize q /\
  (select q <> "" -> select fq = select q) /\
  (uiOS = "" -> select fq <> "").
Proof.
  intros q fq.
  assert (Hos : uiOS = "" ->
            os q ∈ ["mxapilocation"; "mxapiasset"; "mxapisr"; "mxapiinv"; "mxapiwo"]).
  { intros ->. subst q. unfold classify. cbn [JS.nonEmpty].
    rewrite !elem_of_cons.
    destruct (JS.includes "location" lower), (JS.includes "asset" lower), (isSR lower),
      (JS.includes "inventory" lower), (JS.includes "corrective" lower && isWO lower),
      (JS.includes "open" lower && isWO lower), (JS.includes "all" lower);
      cbn [andb os]; tauto. }
  assert (Hfq : os fq = os q /\ where_ fq = where_ q /\ pageSize fq = pageSize q /\
                (select q <> "" -> select fq = select q)).
  { subst fq. unfold withDefaultSelect, defaultSelect. cbn [os where_ pageSize select].
    do 3 (split; [reflexivity|]).
    destruct (select q) as [|c r] eqn:E; [done|]. by cbn [JS.nonEmpty selectText]. }
  split; [|split; [|split; [|split; [|split; [exact Hos|]]]]].
  - subst q. unfold classify.
    destruct (_ && _); [by right|]. destruct (_ && _); [by right|].
    destruct (_ && _); [by right|by left].
  - subst q. unfold classify.
    destruct (JS.includes "corrective" lower && isWO lower) eqn:E1.
    { apply andb_true_iff in E1 as [_ ->]. cbn. auto. }
    destruct (JS.includes "open" lower && isWO lower) eqn:E2.
    { apply andb_true_iff in E2 as [_ ->]. cbn. auto. }
    destruct (isSR lower && JS.includes "all" lower); cbn [where_]; intros H; congruence.
  - intros Hc Hw. subst q. unfold classify. by rewrite Hc, Hw.
  - intros Hu. subst q. unfold classify. destruct uiOS as [|c r]; [done|].
    cbn [JS.nonEmpty].
    destruct (_ && _); [done|]. destruct (_ && _); [done|]. by destruct (_ && _).
  - destruct Hfq as (H1 & H2 & H3 & H4). do 4 (split; [done|]).
    intros Hu. specialize (Hos Hu). subst fq. unfold withDefaultSelect, defaultSelect.
    cbn [select].
    destruct (select q) as [|c r] eqn:E; cbn [JS.nonEmpty selectText]; [|done].
    rewrite !elem_of_cons, elem_of_nil in Hos.
    destruct Hos as [->|[->|[->|[->|[->|[]]]]]]; done.
Qed.

End ClassifyFacts.

(** ** Inherited members and conversions that throw, on samples *)

(** An answer with a 2xx status whose text cannot be converted: the
    Anthropic and the Gemini branch throw the TypeError after the
    answer was recorded; a Gemini [parts] that is a string throws the
    TypeError of the call of [map]. *)
Example chatCompletionWith_conversion_throws :
  let anthropic := Chat.chatCompletionWith
    (answering (JS.VObj [("content", JS.VArr [JS.VObj [("text", noText)]])]))
    anthropicArgs Demo.world0 in
  let parts v := JS.VObj [("candidates",
    JS.VArr [JS.VObj [("content", JS.VObj [("parts", v)])]])] in
  let gemini v := Chat.chatCompletionWith (answering (parts v)) geminiArgs Demo.world0 in
  (anthropic.1, length (TraceStore.items (store anthropic.2)))
    = (Throw "Cannot convert object to primitive value", 1%nat)
  /\ (gemini (JS.VArr [JS.VObj [("text", noText)]])).1
     = Throw "Cannot convert object to primitive value"
  /\ (gemini (JS.VStr "hello")).1
     = Throw "data?.candidates?.[0]?.content?.parts?.map is not a function"
  /\ Chat.content <$> (match (gemini (JS.VArr [JS.VObj [("text", JS.VStr "hel")];
                                               JS.VObj [("text", JS.VStr "lo")];
                                               JS.VObj []])).1 with
                       | Return out => Some out
                       | Throw _ => None
                       end)
     = Some (JS.VStr "hello").
Proof. cbv zeta. repeat split; vm_compute; reflexivity. Qed.

(** [String] on JSON values. *)
Example toString_samples :
  Json.toString (fun _ => "7")
    <$> [JS.VNull; JS.VBool true; JS.VNum (7 # 1); JS.VStr "a";
         JS.VArr [JS.VStr "a"; JS.VNull; JS.VArr [JS.VNum (7 # 1); JS.VStr "b"]];
         JS.VArr []; JS.VObj [("id", JS.VStr "a")];
         noText; JS.VArr [JS.VStr "a"; noText]]
  = [Some "null"; Some "true"; Some "7"; Some "a"; Some "a,,7,b"; Some "";
     Some "[object Object]"; None; None].
Proof. vm_compute. reflexivity. Qed.

(** A provider named as a member of [Object.prototype]: the listing
    returns that member, which is no list. *)
Example listModelsWithSecrets_inherited :
  Models.listModelsWithSecrets silentRuntime ∅ "constructor" Demo.world0
    = (Return (Models.Inherited (JS.ProtoFunction "Object")), Demo.world0)
  /\ Models.listModelsWithSecrets silentRuntime ∅ "__proto__" Demo.world0
     = (Return (Models.Inherited JS.ProtoObject), Demo.world0)
  /\ Models.listModelsWithSecrets silentRuntime ∅ "cohere" Demo.world0
     = (Return (Models.Listed []), Demo.world0).
Proof. repeat split; vm_compute; reflexivity. Qed.

(** A listing whose answer holds an id that cannot be converted: the
    answer is recorded, then the [catch] records the TypeError, and the
    built-in list is returned. *)
Example listModelsWithSecrets_two_entries :
  let run := Models.listModelsWithSecrets
    (answering (JS.VObj [("data", JS.VArr [JS.VObj [("id", JS.VStr "gpt-4o")];
                                          JS.VObj [("id", noText)]])]))
    listingSecrets "openai" Demo.world0 in
  run.1 = Return (Models.fallbackByProvider "openai")
  /\ length (fetched run.2) = 1%nat
  /\ (fun i => (TraceStore.kind i,
                Json.get "status" (TraceStore.response i),
                Json.get "body" (TraceStore.response i)))
       <$> TraceStore.items (store run.2)
     = [(TraceStore.models, Some (JS.VNum (0 # 1)),
         Some (JS.VStr "Cannot convert object to primitive value"));
        (TraceStore.models, Some (JS.VNum (200 # 1)),
         Some (JS.VObj [("data", JS.VArr [JS.VObj [("id", JS.VStr "gpt-4o")];
                                         JS.VObj [("id", noText)]])]))].
Proof. cbv zeta. repeat split; vm_compute; reflexivity. Qed.

(** An object structure named as a member of [Object.prototype]: the
    default field list is that member, so the backend is asked for the
    text of the function, and the answer's [request] has no [select];
    under [__proto__] the text is that of an object and [select] an
    empty object. *)
Example postChat_inherited_select :
  let run os := Server.postChat silentRuntime true fullSecrets chatInfo
                  (withOS os (maximoRequestBody "show me everything")) Demo.world0 in
  let request r :=
    match r with
    | Return a => Json.get "request" (Some (Server.payload a))
    | Throw _ => None
    end in
  Net.url <$> fetched (run "constructor").2
    = ["https://host/maximo/api/os/constructor?oslc.pageSize=50&oslc.select=function Object() { [native code] }"]
  /\ request (run "constructor").1
     = Some (JS.VObj [("os", JS.VStr "constructor"); ("where", JS.VStr "");
                      ("pageSize", JS.VNum (50 # 1))])
  /\ Net.url <$> fetched (run "__PROTO__").2
     = ["https://host/maximo/api/os/__PROTO__?oslc.pageSize=50&oslc.select=[object Object]"]
  /\ request (run "__PROTO__").1
     = Some (JS.VObj [("os", JS.VStr "__PROTO__"); ("where", JS.VStr "");
                      ("select", JS.VObj []); ("pageSize", JS.VNum (50 # 1))])
  /\ Net.url <$> fetched (run "MXAPIASSET").2
     = ["https://host/maximo/api/os/MXAPIASSET?oslc.pageSize=50&oslc.select=assetnum,description,location,parent,assethealth,siteid,assettype"]
  /\ Net.url <$> fetched (run "tostring").2
     = ["https://host/maximo/api/os/tostring?oslc.pageSize=50"].
Proof. cbv zeta. repeat split; vm_compute; reflexivity. Qed.

(** A proxy payload whose [kind] cannot be converted: the handler
    throws before its [try]; with a text as [kind] it forwards. *)
Example proxyHandler_conversion_escapes :
  Server.proxyHandler silentRuntime true backendSecrets proxyInfo (rawProxy noText)
    Demo.world0
    = (Throw "Cannot convert object to primitive value", afterClock Demo.world0)
  /\ Net.url <$> fetched (Server.proxyHandler silentRuntime true backendSecrets proxyInfo
                            (rawProxy (JS.VStr "maximo")) Demo.world0).2
     = ["https://host/maximo/api/os/mxapiwo"]
  /\ Server.code <$> (match (Server.proxyHandler silentRuntime true backendSecrets
                               proxyInfo (rawProxy (JS.VArr [JS.VStr "maximo"]))
                               Demo.world0).1 with
                      | Return a => Some a
                      | Throw _ => None
                      end)
     = Some 200.
Proof. repeat split; vm_compute; reflexivity. Qed.

(** ** The added models on samples *)

Example normalizeMaximoBase_samples :
  TracePage.normalizeMaximoBase <$>
    ["https://host/maximo/oslc/os/mxapiwo"; "  https://host/  "; "https://host/MAXIMO";
     "https://host/Maximo/API"; "   "; "/"]
  = ["https://host/maximo"; "https://host/maximo"; "https://host/MAXIMO";
     "https://host/maximo"; ""; "/maximo"].
Proof. vm_compute. reflexivity. Qed.

Example buildOslcUrl_samples :
  TracePage.buildOslcUrl silentRuntime "https://host/maximo/api" " mxapiasset "
    = "https://host/maximo/oslc/os/mxapiasset"
  /\ TracePage.buildOslcUrl silentRuntime "https://host" "  " = "".
Proof. vm_compute. done. Qed.

Example normalizeSecrets_sample :
  (fun k => Config.normalizeSecrets
              {[ "maximo_url" := "https://host/maximo"; "aiProvider" := "";
                 "provider" := "gemini"; "openai_base" := "" ]} !! k)
    <$> ["maximoUrl"; "maximo_url"; "aiProvider"; "provider"; "openai_baseurl";
         "openai_base"; "maximoApiKey"]
  = [Some "https://host/maximo"; Some "https://host/maximo"; Some "gemini";
     Some "gemini"; None; Some ""; None].
Proof. vm_compute. reflexivity. Qed.

Example rows_and_count_samples :
  let result := JS.VObj [("member", JS.VArr [JS.VObj [("wonum", JS.VStr "1001")];
                                             JS.VObj [("wonum", JS.VStr "1002")]])] in
  (length <$> ResultViewer.normalizeToRows result) = Some 2%nat
  /\ ResultViewer.inferMaximoRowCount result = Some 2
  /\ ResultViewer.normalizeToRows (JS.VObj [("member", JS.VArr [])]) = None
  /\ ResultViewer.inferMaximoRowCount (JS.VObj [("member", JS.VArr [])]) = Some 0
  /\ ResultViewer.normalizeToRows (JS.VStr "text") = None.
Proof. vm_compute. done. Qed.

Example handleChat_default_call :
  (fun rq => (Net.method rq, Net.url rq)) <$>
    fetched (Callers.handleChat silentRuntime backendSecrets
               {| Callers.mode := "maximo"; Callers.prompt := "anything";
                  Callers.system := None; Callers.maximo := None |} Demo.world0).2
  = [("GET", "https://host/maximo/api/os/mxapiwo")].
Proof. vm_compute. reflexivity. Qed.

(** ** The REST builder's URL and the proxy: one base, two normalisations *)

Section BuilderAndProxy.
Import TracePage.

Lemma toLowerCase_app a b :
  JS.toLowerCase (a +:+ b) = JS.toLowerCase a +:+ JS.toLowerCase b.
Proof.
  induction a as [|c a IH]; [done|]. rewrite app_cons. cbn [JS.toLowerCase].
  by rewrite IH, app_cons.
Qed.

Lemma length_toLowerCase s : String.length (JS.toLowerCase s) = String.length s.
Proof. induction s as [|c s IH]; [done|]. cbn. by rewrite IH. Qed.

Lemma app_inj_length a : forall a' b b',
  a +:+ b = a' +:+ b' -> String.length a = String.length a' -> a = a' /\ b = b'.
Proof.
  induction a as [|c a IH]; intros [|c' a'] b b'; try done.
  rewrite !app_cons. intros [= <- H] [= Hl]. destruct (IH _ _ _ H Hl) as [-> ->]. done.
Qed.

(** Lower case is kept by the parts of a string. *)
Lemma lower_parts a b :
  JS.toLowerCase (a +:+ b) = a +:+ b ->
  JS.toLowerCase a = a /\ JS.toLowerCase b = b.
Proof.
  rewrite toLowerCase_app. intros H. apply app_inj_length in H; [done|].
  apply length_toLowerCase.
Qed.

Lemma stripTrailingSlash_split s :
  exists t, s = Chat.stripTrailingSlash s +:+ t /\ (t = "" \/ t = "/").
Proof.
  induction s as [|c s (t & Hs & Ht)]; [exists ""; by split; [|left]|].
  cbn [Chat.stripTrailingSlash]. destruct s as [|c' s'].
  - destruct (ascii_dec c "/") as [->|].
    + exists "/". by split; [|right].
    + exists "". by split; [|left].
  - exists t. by rewrite app_cons, <- Hs.
Qed.

Lemma app_snoc_inv a c : forall b m,
  a +:+ String c "" = b +:+ m -> m <> "" ->
  exists m', m = m' +:+ String c "" /\ a = b +:+ m'.
Proof.
  induction a as [|x a IH]; intros b m H Hm.
  - rewrite app_empty_l in H. destruct b as [|y b].
    + rewrite app_empty_l in H. subst m. by exists "".
    + rewrite app_cons in H. injection H as <- H. destruct b; [|discriminate H].
      rewrite app_empty_l in H. by subst m.
  - rewrite app_cons in H. destruct b as [|y b].
    + rewrite app_empty_l in H. subst m. exists (String x a). by rewrite app_cons.
    + rewrite app_cons in H. injection H as <- H.
      destruct (IH b m H Hm) as (m' & -> & ->). exists m'. by rewrite app_cons.
Qed.

Lemma maximoApiHere_spec cut :
  maximoApiHere cut = true ->
  exists X rest, cut = X +:+ rest /\ JS.toLowerCase X = "/maximo" /\ ApiSuffix rest.
Proof.
  unfold maximoApiHere.
  destruct (Maximo.dropPrefixCI "/maximo" cut) as [rest|] eqn:E; [|done].
  intros H. apply dropPrefixCI_spec in E as (X & -> & HX).
  exists X, rest. split; [done|]. split; [done|]. by apply apiSuffixHere_spec.
Qed.

(** On a string in lower case, what the REST builder makes of it
    extends what the server makes of it. *)
Lemma builder_base_extends v :
  JS.toLowerCase v = v ->
  let shown := replaceMaximoApi v in
  let r := if negb (endsWithMaximo shown)
           then Chat.stripTrailingSlash shown +:+ "/maximo" else shown in
  exists x, r = Maximo.stripApiSuffix v +:+ x.
Proof.
  intros Hlow shown r. subst r shown.
  destruct (stripApiSuffix_spec v) as (m & Hsplit & Hm & Hleft).
  destruct (replaceMaximoApi_spec v) as (p & cut & Hv & [[-> Hrep]|[Hcut Hrep]]).
  - rewrite Hrep. destruct (endsWithMaximo v); cbn [negb]; [by exists m|].
    destruct (stripTrailingSlash_split v) as (t & Ht & [->| ->]).
    + rewrite app_empty_r in Ht. rewrite <- Ht. exists (m +:+ "/maximo").
      by rewrite <- app_assoc', <- Hsplit.
    + destruct m as [|c m].
      * rewrite app_empty_r in Hsplit. exists "maximo".
        rewrite <- Hsplit. rewrite Ht at 2. by rewrite app_assoc'.
      * rewrite Hsplit in Ht at 1. symmetry in Ht.
        apply app_snoc_inv in Ht as (m' & Hm' & ->); [|done].
        exists (m' +:+ "/maximo"). by rewrite app_assoc'.
  - destruct (maximoApiHere_spec cut Hcut) as (X & rest & -> & HX & Hrest).
    rewrite <- app_assoc' in Hv.
    destruct (Hleft (p +:+ X) rest Hv Hrest) as (x & Hx).
    assert (X = "/maximo") as ->.
    { rewrite Hv in Hlow. apply lower_parts in Hlow as [Hlow _].
      apply lower_parts in Hlow as [_ Hlow]. congruence. }
    rewrite Hrep. rewrite (endsWithMaximo_app p "/maximo" eq_refl). cbn [negb].
    by exists x.
Qed.

End BuilderAndProxy.

Section BuilderAccepted.
Import TracePage Server.
Context (rt : Runtime) (jsonCallsSend : bool).

Lemma normalizeMaximoBase_ends url :
  JS.trim url <> "" -> endsWithMaximo (normalizeMaximoBase url) = true.
Proof.
  intros H. unfold normalizeMaximoBase.
  destruct (JS.trim url) as [|c u] eqn:E; [done|]. cbn [JS.nonEmpty negb].
  destruct (endsWithMaximo (replaceMaximoApi _)) eqn:E2; cbn [negb]; [done|].
  by apply endsWithMaximo_app.
Qed.

Lemma buildOslcUrl_nonblank url os :
  JS.trim url <> "" -> JS.trim os <> "" ->
  buildOslcUrl rt url os
  = normalizeMaximoBase url +:+ "/oslc/os/" +:+ encodeURIComponent rt (JS.trim os).
Proof.
  intros Hu Ho. unfold buildOslcUrl.
  pose proof (normalizeMaximoBase_ends url Hu) as He.
  rewrite (endsWithMaximo_no_slash _ He).
  destruct (endsWithMaximo_spec _ He) as (p & m & Hr & Hm).
  assert (JS.nonEmpty (normalizeMaximoBase url) = true) as ->.
  { rewrite Hr. destruct p; [|done]. rewrite app_empty_l. by destruct m. }
  by destruct (JS.trim os).
Qed.

(** X30. The URL of the REST builder under the containment check of
    the proxy. When the configured [maximoUrl] has no white space around
    it and is in lower case, a request of the backend kind to the URL
    that [buildOslcUrl] builds from it, for any object structure that
    is not blank, is never refused by POST /api/proxy: the two
    normalisations differ (the builder cuts back to [/maximo] and
    appends it when it is missing, the server cuts the API suffix), yet
    the builder's base always extends the server's. The request is
    made, to a URL that begins with the server's normalised base. *)
Theorem builder_url_accepted (cfg : gmap string string) (info : ReqInfo) (w : World)
    (u os method : string) (headers : gmap string string) (body : option JS.Value) :
  cfg !! "maximoUrl" = Some u -> u <> "" -> JS.trim u = u -> JS.toLowerCase u = u ->
  JS.truthyStr (cfg !! "maximoApiKey") = true ->
  JS.trim os <> "" ->
  let p := oslcProxyRequest rt u os method headers body in
  exists rq,
    fetched (postProxy rt jsonCallsSend cfg info p w).2 = (fetched w ++ [rq])%list /\
    JS.startsWith (Maximo.normalizeBase u) (Net.url rq) = true /\
    Net.url rq = (if JS.startsWith "/" (buildOslcUrl rt u os)
                  then Chat.stripTrailingSlash (Maximo.normalizeBase u)
                       +:+ buildOslcUrl rt u os
                  else buildOslcUrl rt u os).
Proof.
  intros Hu Hne Htrim Hlow Hkey Hos p.
  set (base := Maximo.normalizeBase u).
  assert (Hut : JS.trim u <> "") by by rewrite Htrim.
  assert (Hext : exists x, normalizeMaximoBase u = base +:+ x).
  { unfold normalizeMaximoBase. rewrite Htrim.
    destruct u as [|c u']; [done|]. cbn [JS.nonEmpty negb].
    apply builder_base_extends.
    destruct (stripTrailingSlash_split (String c u')) as (t & Ht & _).
    rewrite Ht in Hlow. by apply lower_parts in Hlow as [Hlow _]. }
  destruct Hext as [x Hx].
  assert (Hurl : url p = base +:+ x +:+ "/oslc/os/" +:+ encodeURIComponent rt (JS.trim os)).
  { subst p. cbn [oslcProxyRequest url]. rewrite (buildOslcUrl_nonblank u os Hut Hos), Hx.
    by rewrite app_assoc'. }
  set (target := if JS.startsWith "/" (url p)
                 then Chat.stripTrailingSlash base +:+ url p else url p).
  assert (Hin : JS.startsWith base target = true).
  { unfold target. destruct (JS.startsWith "/" (url p)) eqn:Hs.
    - destruct (url p) as [|c r]; [done|]. cbn [JS.startsWith] in Hs.
      destruct (ascii_dec "/" c) as [<-|]; [|done].
      apply startsWith_stripTrailingSlash.
    - rewrite Hurl. apply startsWith_append. }
  assert (Hprep : prepareProxy cfg p =
            Return (target,
                    <["apikey" := default "" (cfg !! "maximoApiKey")]>
                      (<["maxauth" := default "" (cfg !! "maximoApiKey")]>
                         (withContentType (Server.headers p))))).
  { unfold prepareProxy. subst p. cbn [oslcProxyRequest kind].
    change (String.eqb "maximo" "maximo") with true. cbv iota.
    rewrite Hu, Hkey. cbn [JS.truthyStr default from_option Datatypes.id].
    assert (JS.nonEmpty u = true) as -> by by destruct u.
    cbn [negb]. fold base. fold (oslcProxyRequest rt u os method headers body).
    fold target. by rewrite Hin. }
  eexists. split; [apply (postProxy_prepared rt jsonCallsSend cfg info p w _ _ Hprep)|].
  by split.
Qed.

End BuilderAccepted.

(** The URL built for work orders on the sample backend. *)
Lemma builder_url_accepted_witness :
  exists rq,
    fetched (Server.postProxy silentRuntime true backendSecrets proxyInfo
               (oslcProxyRequest silentRuntime "https://host/maximo/api" "mxapiwo" "GET" ∅ None)
               Demo.world0).2 = ([] ++ [rq])%list /\
    JS.startsWith "https://host/maximo" (Net.url rq) = true /\
    Net.url rq = "https://host/maximo/oslc/os/mxapiwo".
Proof.
  apply (builder_url_accepted silentRuntime true backendSecrets proxyInfo Demo.world0
           "https://host/maximo/api" "mxapiwo" "GET" ∅ None eq_refl).
  - done.
  - reflexivity.
  - reflexivity.
  - reflexivity.
  - done.
Defined.

(** A base configured with capitals in its path: [buildOslcUrl] cuts
    back to [/maximo] in lower case, the server keeps the capitals, and
    the request for the built URL is refused. *)
Example builder_url_refused_on_capitals :
  (Server.postProxy silentRuntime true
     {[ "maximoUrl" := "https://host/MAXIMO/api"; "maximoApiKey" := "k-demo" ]}
     proxyInfo
     (oslcProxyRequest silentRuntime "https://host/MAXIMO/api" "mxapiwo" "GET" ∅ None)
     Demo.world0).1
  = Return {| Server.code := 400;
              Server.payload := Server.errorBody
                "Maximo proxy URL must be relative or within the configured Maximo base URL." |}.
Proof. vm_compute. reflexivity. Qed.
